(** * bookstore_manager: the sales ledger and its stock coupling

    A shallow embedding of [bookstore_manager.py].

    - A Python [str] is a [string]; each element stands for one character
      of the [str], so [String.length] is Python's [len].
    - A Python [int] is a [Z], without a largest value.  An INTEGER
      column holds 64 bits, signed: sqlite3 raises [OverflowError] when a
      statement is given a Python [int] outside that range, and the
      statement writes nothing.  The INSERT of [sales_record] and the
      UPDATE of [update_sales_record] bind numbers the operator typed, or
      computed from them, and test them ([int64]); every other number
      given to a statement is a literal of the source or was read from a
      table.
    - AUTOINCREMENT ends at the largest 64-bit [sid]: once that one has
      been handed out, an INSERT into [sale] fails with
      sqlite3.OperationalError (database or disk is full), the class a
      missing table raises too.
    - The SQLite file [bookstore.db] is a record of three optional tables
      ([None]: the table does not exist).  [member] and [book] have a TEXT
      PRIMARY KEY and are finite maps from that key; [sale] has an INTEGER
      PRIMARY KEY AUTOINCREMENT and is a finite map from [sid] together
      with the largest [sid] handed out so far.
    - [input()] reads from an explicit list of lines and raises [EOFError]
      when it is exhausted; [print] appends a [notice] to the output.
    - Every function returns a [result]: how it ended (returned, or an
      exception left it), the committed database, the output, and the
      lines not yet read.
    - Each function writes and commits in one place, right before it
      returns, so the database of a [result] is the last committed one: an
      exception leaves the [with] block with nothing pending.
    - [main] runs the functions one after the other on what is left of the
      input; its loop takes fuel, and one turn per line of input is shown
      to be enough. *)

From stdpp Require Import base option list gmap strings sorting.
From Stdlib Require Import ZArith Lia Ascii.

Local Open Scope Z_scope.

(** ** Data model *)

(** CREATE TABLE member (mid TEXT PRIMARY KEY, mname, mphone, memail);
    the key [mid] is the key of the map. *)
Record member_row := MemberRow {
  mname : string;
  mphone : string;
  memail : option string
}.

(** CREATE TABLE book (bid TEXT PRIMARY KEY, btitle, bprice, bstock). *)
Record book_row := BookRow {
  btitle : string;
  bprice : Z;
  bstock : Z
}.

(** CREATE TABLE sale (sid INTEGER PRIMARY KEY AUTOINCREMENT, sdate, mid,
    bid, sqty, sdiscount, stotal); the columns [mid] and [bid] of a sale
    are [smid] and [sbid] here. *)
Record sale_row := SaleRow {
  sdate : string;
  smid : string;
  sbid : string;
  sqty : Z;
  sdiscount : Z;
  stotal : Z
}.

Record sale_table := SaleTable {
  sale_rows : gmap Z sale_row;
  sale_seq : Z
}.

Record db := Db {
  member : option (gmap string member_row);
  book : option (gmap string book_row);
  sale : option sale_table
}.

Inductive exn :=
| EOFError
| OperationalError
| IntegrityError
| ProgrammingError
| IndexError
| OverflowError.

(** What the program prints, one constructor per message; the block of
    lines printed for one sale of the report is one [ReportSale]. *)
Inductive notice :=
| MsgCreatingTables
| MsgInitDone
| MsgTablesExist
| ErrDateFormat
| ErrMemberInvalid
| ErrBookInvalid
| ErrQtyNotPositive
| ErrDiscountNotNonNegative
| ErrStock (stock : Z)
| MsgSaleAdded (total : Z)
| MsgNoSaleRows
| ReportHeader
| ReportSale (sid : Z) (date mname title : string)
    (price qty disc subtotal total : Z)
| MsgNoSales
| ListHeader
| ListItem (i : nat) (sid : Z) (mname date : string)
| ListFooter
| MsgUpdateCancelled
| ErrChoiceOutOfRange
| ErrChoiceNotNumber
| ErrSaleBookMissing
| MsgCurrentDiscount (d : Z)
| ErrDiscountNegative
| ErrDiscountNotNumber
| MsgUpdated (sid total : Z)
| MsgDeleteCancelled
| ErrDeleteChoice
| MsgDeleted (sid : Z).

Inductive outcome :=
| Returned
| Raised (e : exn).

Record result := Result {
  r_outcome : outcome;
  r_db : db;
  r_out : list notice;
  r_in : list string
}.

(** ** The store *)

(** [INSERT INTO t VALUES (k, ...)] on a table with primary key [k]: a
    row with that key makes the statement fail (IntegrityError). *)
Definition insert_row `{Countable K} {V} (k : K) (v : V) (t : gmap K V)
  : option (gmap K V) :=
  match t !! k with
  | Some _ => None
  | None => Some (<[k := v]> t)
  end.

(** [cursor.executemany("INSERT ...", rows)]. *)
Fixpoint insert_rows `{Countable K} {V} (rows : list (K * V)) (t : gmap K V)
  : option (gmap K V) :=
  match rows with
  | [] => Some t
  | (k, v) :: rows' =>
      match insert_row k v t with
      | Some t' => insert_rows rows' t'
      | None => None
      end
  end.

(** AUTOINCREMENT: the new [sid] is one more than the largest [sid] the
    table has ever held. *)
Definition next_sid (t : sale_table) : Z :=
  map_fold (λ k _ acc, Z.max k acc) (sale_seq t) (sale_rows t) + 1.

(** The row that [INSERT INTO sale (sdate, mid, bid, sqty, sdiscount,
    stotal) VALUES ...] adds, and the counter it leaves, when there is a
    [sid] to hand out. *)
Definition insert_sale (r : sale_row) (t : sale_table) : sale_table :=
  let sid := next_sid t in
  {| sale_rows := <[sid := r]> (sale_rows t); sale_seq := sid |}.

(** The range of an INTEGER column.  A parameter outside it makes
    [execute] raise OverflowError before the statement runs. *)
Definition max_int64 : Z := 2 ^ 63 - 1.
Definition min_int64 : Z := - 2 ^ 63.

Definition int64 (z : Z) : bool := (min_int64 <=? z) && (z <=? max_int64).

(** The INSERT as [execute] runs it: after the largest [sid] there is no
    next one, and the statement fails ([None]: OperationalError, database
    or disk is full). *)
Definition insert_sale_checked (r : sale_row) (t : sale_table)
  : option sale_table :=
  if next_sid t <=? max_int64 then Some (insert_sale r t) else None.

(** [cursor.executemany("INSERT INTO sale ...", rows)]. *)
Fixpoint insert_sales (rows : list sale_row) (t : sale_table)
  : option sale_table :=
  match rows with
  | [] => Some t
  | r :: rows' =>
      match insert_sale_checked r t with
      | Some t' => insert_sales rows' t'
      | None => None
      end
  end.

(** ** init_db *)

(** [sqlite_master] lists the tables of the file: the three of the
    program and [sqlite_sequence], which SQLite makes along with the first
    AUTOINCREMENT table, here [sale]. *)
Definition table_exists (conn : db) (table_name : string) : bool :=
  if decide (table_name = "member") then bool_decide (is_Some (member conn))
  else if decide (table_name = "book") then bool_decide (is_Some (book conn))
  else if decide (table_name = "sale") then bool_decide (is_Some (sale conn))
  else if decide (table_name = "sqlite_sequence")
  then bool_decide (is_Some (sale conn))
  else false.

Definition seed_members : list (string * member_row) :=
  [ ("M001", MemberRow "Alice" "0912-345678" (Some "alice@example.com"));
    ("M002", MemberRow "Bob" "0923-456789" (Some "bob@example.com"));
    ("M003", MemberRow "Cathy" "0934-567890" (Some "cathy@example.com")) ].

Definition seed_books : list (string * book_row) :=
  [ ("B001", BookRow "Python Programming" 600 50);
    ("B002", BookRow "Data Science Basics" 800 30);
    ("B003", BookRow "Machine Learning Guide" 1200 20) ].

Definition seed_sales : list sale_row :=
  [ SaleRow "2024-01-15" "M001" "B001" 2 100 1100;
    SaleRow "2024-01-16" "M002" "B002" 1 50 750;
    SaleRow "2024-01-17" "M001" "B003" 3 200 3400;
    SaleRow "2024-01-18" "M003" "B001" 1 0 600 ].

(** The three [CREATE TABLE IF NOT EXISTS] of the script; [executescript]
    commits them, so they stay when a later INSERT fails.  The seed rows
    are literals of the source, all within 64 bits. *)
Definition create_tables (conn : db) : db :=
  {| member := Some (default ∅ (member conn));
     book := Some (default ∅ (book conn));
     sale := Some (default (SaleTable ∅ 0) (sale conn)) |}.

Definition init_db (conn : db) (ins : list string) : result :=
  if negb (table_exists conn "member"
           && table_exists conn "book"
           && table_exists conn "sale")
  then
    let created := create_tables conn in
    let out := [MsgCreatingTables] in
    match insert_rows seed_members (default ∅ (member created)) with
    | None => Result (Raised IntegrityError) created out ins
    | Some ms =>
        match insert_rows seed_books (default ∅ (book created)) with
        | None => Result (Raised IntegrityError) created out ins
        | Some bs =>
            match insert_sales seed_sales
                    (default (SaleTable ∅ 0) (sale created)) with
            | None => Result (Raised OperationalError) created out ins
            | Some st =>
                Result Returned
                  {| member := Some ms; book := Some bs; sale := Some st |}
                  (out ++ [MsgInitDone]) ins
            end
        end
    end
  else Result Returned conn [MsgTablesExist] ins.

(** ** Console *)

(** [x = input(...)]: the next line, or EOFError when none is left.  The
    exception leaves the [with] block, which rolls back; nothing is pending
    at any [input], so the database is the one given. *)
Definition input (conn : db) (out : list notice) (ins : list string)
    (k : string → list string → result) : result :=
  match ins with
  | [] => Result (Raised EOFError) conn out []
  | line :: ins' => k line ins'
  end.

(** [s.count(c)] for a one-character [c]. *)
Fixpoint count (c : Ascii.ascii) (s : string) : nat :=
  match s with
  | EmptyString => 0%nat
  | String a s' => if Ascii.eqb a c then S (count c s') else count c s'
  end.

(** [len(sales_date) != 10 or sales_date.count("-") != 2] *)
Definition date_rejected (sales_date : string) : bool :=
  negb (Nat.eqb (String.length sales_date) 10)
  || negb (Nat.eqb (count "-"%char sales_date) 2).

(** ** Statements on the store *)

(** [UPDATE book SET bstock = bstock - ? WHERE bid = ?] *)
Definition decrement_stock (qty : Z) (book_id : string)
    (bs : gmap string book_row) : gmap string book_row :=
  alter (λ b, {| btitle := btitle b; bprice := bprice b;
                 bstock := bstock b - qty |}) book_id bs.

(** [SELECT bprice, sqty, sdiscount FROM sale JOIN book
     ON sale.bid = book.bid WHERE sale.sid = ?] and [fetchone()]. *)
Definition sale_book_data (bs : gmap string book_row) (st : sale_table)
    (sid : Z) : option (Z * Z * Z) :=
  s ← sale_rows st !! sid;
  b ← bs !! sbid s;
  Some (bprice b, sqty s, sdiscount s).

(** [UPDATE sale SET sdiscount = ?, stotal = ? WHERE sid = ?] *)
Definition set_discount (new_discount new_stotal sid : Z)
    (st : sale_table) : sale_table :=
  {| sale_rows :=
       alter (λ s, {| sdate := sdate s; smid := smid s; sbid := sbid s;
                      sqty := sqty s; sdiscount := new_discount;
                      stotal := new_stotal |}) sid (sale_rows st);
     sale_seq := sale_seq st |}.

(** [DELETE FROM sale WHERE sid = ?] *)
Definition delete_sale (sid : Z) (st : sale_table) : sale_table :=
  {| sale_rows := delete sid (sale_rows st); sale_seq := sale_seq st |}.

(** ** The listings *)

(** [ORDER BY sale.sid]: ascending in the integer [key]. *)
Definition key_le {A} (key : A → Z) : relation A :=
  λ a b, key a ≤ key b.

#[global] Instance key_le_dec {A} (key : A → Z) : RelDecision (key_le key) :=
  λ a b, decide (key a ≤ key b).

Definition order_by {A} (key : A → Z) (rows : list A) : list A :=
  merge_sort (key_le key) rows.

(** A row of
    [SELECT sale.sid, sale.sdate, member.mname FROM sale
     JOIN member ON sale.mid = member.mid]. *)
Record list_row := ListRow {
  l_sid : Z;
  l_sdate : string;
  l_mname : string
}.

Definition join_member (ms : gmap string member_row)
    (r : Z * sale_row) : option list_row :=
  m ← ms !! smid r.2;
  Some (ListRow r.1 (sdate r.2) (mname m)).

Definition list_sales (ms : gmap string member_row)
    (st : sale_table) : list list_row :=
  order_by l_sid (omap (join_member ms) (map_to_list (sale_rows st))).

(** A row of
    [SELECT sale.sid, sale.sdate, member.mname, book.btitle, book.bprice,
            sale.sqty, sale.sdiscount, sale.stotal
     FROM sale JOIN member ON sale.mid = member.mid
               JOIN book ON sale.bid = book.bid]. *)
Record report_row := ReportRow {
  p_sid : Z;
  p_sdate : string;
  p_mname : string;
  p_title : string;
  p_price : Z;
  p_qty : Z;
  p_disc : Z;
  p_total : Z
}.

Definition join_member_book (ms : gmap string member_row)
    (bs : gmap string book_row) (r : Z * sale_row) : option report_row :=
  m ← ms !! smid r.2;
  b ← bs !! sbid r.2;
  Some (ReportRow r.1 (sdate r.2) (mname m) (btitle b) (bprice b)
          (sqty r.2) (sdiscount r.2) (stotal r.2)).

Definition report_sales (ms : gmap string member_row)
    (bs : gmap string book_row) (st : sale_table) : list report_row :=
  order_by p_sid (omap (join_member_book ms bs) (map_to_list (sale_rows st))).

(** ** What the listings print *)

Definition print_sale (r : report_row) : notice :=
  let subtotal := p_price r * p_qty r - p_disc r in
  ReportSale (p_sid r) (p_sdate r) (p_mname r) (p_title r)
    (p_price r) (p_qty r) (p_disc r) subtotal (p_total r).

(** [for i, sale in enumerate(sales, 1): print(...)] between the two rules. *)
Definition print_list (sales : list list_row) : list notice :=
  ListHeader
  :: imap (λ i r, ListItem (S i) (l_sid r) (l_mname r) (l_sdate r)) sales
  ++ [ListFooter].

Section Operations.

(** Python's [int(s)] on a [str]: [None] stands for ValueError. *)
Variable py_int : string → option Z.

(** ** sales_record *)

(** [qty = int(input(...)); if qty <= 0: raise ValueError] under
    [except ValueError]. *)
Definition read_qty (line : string) : option Z :=
  match py_int line with
  | Some qty => if qty <=? 0 then None else Some qty
  | None => None
  end.

(** [discount = int(input(...)); if discount < 0: raise ValueError] under
    [except ValueError]. *)
Definition read_discount (line : string) : option Z :=
  match py_int line with
  | Some discount => if discount <? 0 then None else Some discount
  | None => None
  end.

(** The [while True] loop of [sales_record]: [continue] is the recursive
    call, [break] ends the function.  The INSERT is prepared first (no
    table [sale]: OperationalError), then its parameters are bound
    (OverflowError), then it runs (OperationalError when no [sid] is
    left); each of these leaves the [with] block with nothing written. *)
Fixpoint sales_record_loop (conn : db) (out : list notice)
    (ins : list string) {struct ins} : result :=
  input conn out ins (λ sales_date ins,
  if date_rejected sales_date
  then sales_record_loop conn (out ++ [ErrDateFormat]) ins
  else
  input conn out ins (λ member_id ins,
  input conn out ins (λ book_id ins,
  match member conn with
  | None => Result (Raised OperationalError) conn out ins
  | Some ms =>
  match ms !! member_id with
  | None => sales_record_loop conn (out ++ [ErrMemberInvalid]) ins
  | Some _ =>
  match book conn with
  | None => Result (Raised OperationalError) conn out ins
  | Some bs =>
  match bs !! book_id with
  | None => sales_record_loop conn (out ++ [ErrBookInvalid]) ins
  | Some book_data =>
  let stock := bstock book_data in
  let price := bprice book_data in
  input conn out ins (λ qty_line ins,
  match read_qty qty_line with
  | None => sales_record_loop conn (out ++ [ErrQtyNotPositive]) ins
  | Some qty =>
  input conn out ins (λ discount_line ins,
  match read_discount discount_line with
  | None => sales_record_loop conn (out ++ [ErrDiscountNotNonNegative]) ins
  | Some discount =>
  if qty >? stock
  then sales_record_loop conn (out ++ [ErrStock stock]) ins
  else
  let total := price * qty - discount in
  match sale conn with
  | None => Result (Raised OperationalError) conn out ins
  | Some st =>
      if negb (int64 qty && int64 discount && int64 total)
      then Result (Raised OverflowError) conn out ins
      else
      match insert_sale_checked
              (SaleRow sales_date member_id book_id qty discount total)
              st with
      | None => Result (Raised OperationalError) conn out ins
      | Some st' =>
          let bs' := decrement_stock qty book_id bs in
          Result Returned
            {| member := member conn; book := Some bs'; sale := Some st' |}
            (out ++ [MsgSaleAdded total]) ins
      end
  end
  end)
  end)
  end
  end
  end
  end))).

Definition sales_record (conn : db) (ins : list string) : result :=
  sales_record_loop conn [] ins.

(** *** Failed passes

    One pass through the loop of [sales_record] that ends in [continue]:
    the lines it reads and the error it prints. *)
Inductive attempt_fails (conn : db) : list string → notice → Prop :=
| fails_date sales_date :
    date_rejected sales_date = true →
    attempt_fails conn [sales_date] ErrDateFormat
| fails_member sales_date member_id book_id ms :
    date_rejected sales_date = false →
    member conn = Some ms →
    ms !! member_id = None →
    attempt_fails conn [sales_date; member_id; book_id] ErrMemberInvalid
| fails_book sales_date member_id book_id ms bs :
    date_rejected sales_date = false →
    member conn = Some ms → is_Some (ms !! member_id) →
    book conn = Some bs →
    bs !! book_id = None →
    attempt_fails conn [sales_date; member_id; book_id] ErrBookInvalid
| fails_qty sales_date member_id book_id qty_line ms bs :
    date_rejected sales_date = false →
    member conn = Some ms → is_Some (ms !! member_id) →
    book conn = Some bs → is_Some (bs !! book_id) →
    (∀ qty, py_int qty_line = Some qty → qty ≤ 0) →
    attempt_fails conn [sales_date; member_id; book_id; qty_line]
      ErrQtyNotPositive
| fails_discount sales_date member_id book_id qty_line discount_line
    ms bs qty :
    date_rejected sales_date = false →
    member conn = Some ms → is_Some (ms !! member_id) →
    book conn = Some bs → is_Some (bs !! book_id) →
    py_int qty_line = Some qty → 0 < qty →
    (∀ discount, py_int discount_line = Some discount → discount < 0) →
    attempt_fails conn
      [sales_date; member_id; book_id; qty_line; discount_line]
      ErrDiscountNotNonNegative
| fails_stock sales_date member_id book_id qty_line discount_line
    ms bs b qty discount :
    date_rejected sales_date = false →
    member conn = Some ms → is_Some (ms !! member_id) →
    book conn = Some bs → bs !! book_id = Some b →
    py_int qty_line = Some qty → 0 < qty →
    py_int discount_line = Some discount → 0 ≤ discount →
    bstock b < qty →
    attempt_fails conn
      [sales_date; member_id; book_id; qty_line; discount_line]
      (ErrStock (bstock b)).

(** A run of failed passes, with the errors printed in order. *)
Inductive attempts_fail (conn : db) : list string → list notice → Prop :=
| attempts_nil : attempts_fail conn [] []
| attempts_cons lines n more ns :
    attempt_fails conn lines n →
    attempts_fail conn more ns →
    attempts_fail conn (lines ++ more) (n :: ns).

(** ** show_sales_report *)

Definition show_sales_report (conn : db) (ins : list string) : result :=
  match sale conn, member conn, book conn with
  | Some st, Some ms, Some bs =>
      let rows := report_sales ms bs st in
      match rows with
      | [] => Result Returned conn [MsgNoSaleRows] ins
      | _ => Result Returned conn (ReportHeader :: map print_sale rows) ins
      end
  | _, _, _ => Result (Raised OperationalError) conn [] ins
  end.

(** ** update_sales_record *)

(** The selection loop.  [k] is the code after the loop, entered by
    [break] with the chosen [sid].  On the empty line the code closes the
    connection and returns from inside the [with] block, whose exit then
    commits on a closed connection (ProgrammingError). *)
Fixpoint update_select (conn : db) (sales : list list_row)
    (k : Z → list notice → list string → result)
    (out : list notice) (ins : list string) {struct ins} : result :=
  input conn out ins (λ choice ins,
  if decide (choice = "")
  then Result (Raised ProgrammingError) conn
         (out ++ [MsgUpdateCancelled]) ins
  else
  match py_int choice with
  | None => update_select conn sales k (out ++ [ErrChoiceNotNumber]) ins
  | Some n =>
      let sale_index := n - 1 in
      if (sale_index <? 0) || (sale_index >=? Z.of_nat (length sales))
      then update_select conn sales k (out ++ [ErrChoiceOutOfRange]) ins
      else
        match sales !! Z.to_nat sale_index with
        | Some row => k (l_sid row) out ins
        | None => Result (Raised IndexError) conn out ins
        end
  end).

(** The loop that reads the new discount. *)
Fixpoint update_discount (conn : db)
    (k : Z → list notice → list string → result)
    (out : list notice) (ins : list string) {struct ins} : result :=
  input conn out ins (λ line ins,
  match py_int line with
  | None => update_discount conn k (out ++ [ErrDiscountNotNumber]) ins
  | Some new_discount =>
      if new_discount <? 0
      then update_discount conn k (out ++ [ErrDiscountNegative]) ins
      else k new_discount out ins
  end).

(** The UPDATE binds the new discount and the new total (OverflowError
    outside 64 bits) and the [sid] of the chosen row, which comes from the
    table. *)
Definition update_sales_record (conn : db) (ins : list string) : result :=
  match sale conn, member conn with
  | Some st, Some ms =>
      let sales := list_sales ms st in
      match sales with
      | [] => Result Returned conn [MsgNoSales] ins
      | _ =>
      update_select conn sales (λ sid out ins,
        match book conn with
        | None => Result (Raised OperationalError) conn out ins
        | Some bs =>
        match sale_book_data bs st sid with
        | None => Result (Raised ProgrammingError) conn
                    (out ++ [ErrSaleBookMissing]) ins
        | Some (bprice, sqty, old_discount) =>
            update_discount conn (λ new_discount out ins,
              let new_stotal := bprice * sqty - new_discount in
              if negb (int64 new_discount && int64 new_stotal)
              then Result (Raised OverflowError) conn out ins
              else
              Result Returned
                {| member := member conn; book := book conn;
                   sale := Some (set_discount new_discount new_stotal sid st) |}
                (out ++ [MsgUpdated sid new_stotal]) ins)
              (out ++ [MsgCurrentDiscount old_discount]) ins
        end
        end) (print_list sales) ins
      end
  | _, _ => Result (Raised OperationalError) conn [] ins
  end.

(** ** delete_sales_record *)

(** The DELETE binds the [sid] of the chosen row, which comes from the
    table. *)
Fixpoint delete_select (conn : db) (st : sale_table)
    (sales : list list_row) (out : list notice) (ins : list string)
    {struct ins} : result :=
  input conn out ins (λ choice ins,
  if decide (choice = "")
  then Result (Raised ProgrammingError) conn
         (out ++ [MsgDeleteCancelled]) ins
  else
  match py_int choice with
  | None => delete_select conn st sales (out ++ [ErrDeleteChoice]) ins
  | Some choice =>
      if (choice <? 1) || (choice >? Z.of_nat (length sales))
      then delete_select conn st sales (out ++ [ErrDeleteChoice]) ins
      else
        match sales !! Z.to_nat (choice - 1) with
        | Some row =>
            let sid_to_delete := l_sid row in
            Result Returned
              {| member := member conn; book := book conn;
                 sale := Some (delete_sale sid_to_delete st) |}
              (out ++ [MsgDeleted sid_to_delete]) ins
        | None => Result (Raised IndexError) conn out ins
        end
  end).

Definition delete_sales_record (conn : db) (ins : list string) : result :=
  match sale conn, member conn with
  | Some st, Some ms =>
      let sales := list_sales ms st in
      match sales with
      | [] => Result Returned conn [MsgNoSales] ins
      | _ => delete_select conn st sales (print_list sales) ins
      end
  | _, _ => Result (Raised OperationalError) conn [] ins
  end.

(** *** Lines the prompts of update and delete ask again for

    A line at the selection prompt that is not the empty line and does not
    read as a number between 1 and the length of the listing. *)
Definition choice_rejected (n_sales : nat) (line : string) : Prop :=
  line ≠ "" ∧ ∀ n, py_int line = Some n → n < 1 ∨ Z.of_nat n_sales < n.

(** A line at the discount prompt of update that does not read as a
    non-negative number. *)
Definition discount_rejected (line : string) : Prop :=
  ∀ d, py_int line = Some d → d < 0.

End Operations.

(** ** Vocabulary of the specification *)

(** Every book has a non-negative stock. *)
Definition stocks_non_negative (conn : db) : Prop :=
  ∀ bs bid b, book conn = Some bs → bs !! bid = Some b → 0 ≤ bstock b.

(** Every sale names a member and a book that are in their tables. *)
Definition references_resolve (conn : db) : Prop :=
  ∀ ms bs st sid s,
    member conn = Some ms → book conn = Some bs → sale conn = Some st →
    sale_rows st !! sid = Some s →
    is_Some (ms !! smid s) ∧ is_Some (bs !! sbid s).

(** The date format as the specification words it: the fixed length of
    YYYY-MM-DD and exactly two separators, at indices 4 and 7. *)
Definition date_pattern (s : string) : Prop :=
  String.length s = 10%nat
  ∧ count "-"%char s = 2%nat
  ∧ String.get 4 s = Some "-"%char
  ∧ String.get 7 s = Some "-"%char.

(** ** select_menu and main *)

(** What a session prints: the menu, the lines of the function the
    operator chose, and the two messages of [main] itself. *)
Inductive shell_notice :=
| Menu
| Printed (n : notice)
| ErrOption
| MsgProgramEnd.

(** How a session ended, with the database it leaves, all it printed and
    the lines it did not read. *)
Record session := Session {
  s_outcome : outcome;
  s_db : db;
  s_out : list shell_notice;
  s_in : list string
}.

(** [print("\n".join(menu))] *)
Definition select_menu : list shell_notice := [Menu].

Section Shell.

Variable py_int : string → option Z.

(** A function called from the menu: when it returns the loop goes on
    with the database it left; an exception it raises is caught nowhere
    and ends [main]. *)
Definition call (r : result) (out : list shell_notice)
    (k : db → list shell_notice → list string → option session)
  : option session :=
  let out := out ++ (Printed <$> r_out r) in
  match r_outcome r with
  | Returned => k (r_db r) out (r_in r)
  | Raised e => Some (Session (Raised e) (r_db r) out (r_in r))
  end.

(** The [while True] loop of [main].  Every turn reads a line, so on a
    finite input the loop ends; [fuel] bounds the turns and [None] says it
    ran out. *)
Fixpoint main_loop (fuel : nat) (conn : db) (out : list shell_notice)
    (ins : list string) : option session :=
  match fuel with
  | O => None
  | S fuel =>
      let out := out ++ select_menu in
      match ins with
      | [] => Some (Session (Raised EOFError) conn out [])
      | choice :: ins =>
          if decide (choice = "1")
          then call (sales_record py_int conn ins) out (main_loop fuel)
          else if decide (choice = "2")
          then call (show_sales_report conn ins) out (main_loop fuel)
          else if decide (choice = "3")
          then call (update_sales_record py_int conn ins) out (main_loop fuel)
          else if decide (choice = "4")
          then call (delete_sales_record py_int conn ins) out (main_loop fuel)
          else if decide (choice = "5" ∨ choice = "")
          then Some (Session Returned conn (out ++ [MsgProgramEnd]) ins)
          else main_loop fuel conn (out ++ [ErrOption]) ins
      end
  end.

(** [init_db()] and then the loop, with one turn more than there are
    lines. *)
Definition main (conn : db) (ins : list string) : option session :=
  call (init_db conn ins) [] (main_loop (S (length ins))).

End Shell.

(** ** Further vocabulary *)

(** The three tables are there. *)
Definition tables_present (conn : db) : Prop :=
  is_Some (member conn) ∧ is_Some (book conn) ∧ is_Some (sale conn).

(** No sale has a [sid] above the largest one handed out. *)
Definition sids_within_seq (conn : db) : Prop :=
  ∀ st sid, sale conn = Some st → is_Some (sale_rows st !! sid) →
            sid ≤ sale_seq st.

(** The stored total of every sale is its book's price times its
    quantity minus its discount. *)
Definition totals_consistent (conn : db) : Prop :=
  ∀ bs st sid s b,
    book conn = Some bs → sale conn = Some st →
    sale_rows st !! sid = Some s → bs !! sbid s = Some b →
    stotal s = bprice b * sqty s - sdiscount s.

Definition ledger_ok (conn : db) : Prop :=
  tables_present conn ∧ stocks_non_negative conn ∧ references_resolve conn
  ∧ totals_consistent conn ∧ sids_within_seq conn.

(** The ways a function of the menu ends on a database that has its three
    tables and a [sid] left: it returns, the input ends, the connection
    was closed before the [with] block ended, or a number did not fit an
    INTEGER column. *)
Definition ends_as_expected (o : outcome) : Prop :=
  o = Returned ∨ o = Raised EOFError ∨ o = Raised ProgrammingError
  ∨ o = Raised OverflowError.

(** AUTOINCREMENT has handed out its largest [sid]. *)
Definition sids_exhausted (conn : db) : Prop :=
  ∃ st, sale conn = Some st ∧ max_int64 < next_sid st.

(** ** Running the program *)

(** A reader of plain decimal numerals, [-12], [+7], [450]: on these it
    agrees with Python's [int]; every other line is a ValueError here.
    The operations above take the reader as a parameter; this one is the
    instance used to run them on concrete lines. *)
Fixpoint digits (s : string) (acc : Z) : option Z :=
  match s with
  | EmptyString => Some acc
  | String a s' =>
      let n := Z.of_nat (nat_of_ascii a) in
      if (48 <=? n) && (n <=? 57) then digits s' (10 * acc + (n - 48))
      else None
  end.

Definition decimal (s : string) : option Z :=
  match s with
  | EmptyString => None
  | String a s' =>
      if Ascii.eqb a "-" then
        match s' with EmptyString => None | _ => Z.opp <$> digits s' 0 end
      else if Ascii.eqb a "+" then
        match s' with EmptyString => None | _ => digits s' 0 end
      else digits s 0
  end.

(** The database file before the first run: no table exists. *)
Definition no_tables : db := Db None None None.

(** The database after the first run of [init_db]. *)
Definition seeded : db := r_db (init_db no_tables []).

(** The tables of [seeded], written out. *)
Definition seeded_members : gmap string member_row :=
  list_to_map seed_members.

Definition seeded_books : gmap string book_row := list_to_map seed_books.

Definition seeded_sales : sale_table :=
  SaleTable (list_to_map (zip [1; 2; 3; 4] seed_sales)) 4.

(** [seeded] after the price of B001 was changed in storage from 600 to
    700; the sales keep the totals stored at the old price. *)
Definition repriced : db :=
  Db (Some seeded_members)
     (Some (<["B001" := BookRow "Python Programming" 700 50]> seeded_books))
     (Some seeded_sales).

(** The seeded members and books with an empty sale table. *)
Definition empty_ledger : db :=
  Db (Some seeded_members) (Some seeded_books) (Some (SaleTable ∅ 0)).

(** [seeded] after AUTOINCREMENT has handed out its largest [sid]. *)
Definition last_sid_used : db :=
  Db (Some seeded_members) (Some seeded_books)
     (Some (SaleTable (sale_rows seeded_sales) max_int64)).

(** * Properties *)

(** ** The store *)

Lemma map_fold_max_ge {A} (m : gmap Z A) (z k : Z) :
  is_Some (m !! k) → k ≤ map_fold (λ k _ acc, Z.max k acc) z m.
Proof.
  revert k.
  apply (map_fold_weak_ind
           (λ b (m : gmap Z A), ∀ k, is_Some (m !! k) → k ≤ b)).
  - intros k [x Hx]. by rewrite lookup_empty in Hx.
  - intros i x m' r Hi IH k Hk.
    destruct (decide (i = k)) as [->|Hne]; [lia|].
    rewrite lookup_insert_ne in Hk by done.
    specialize (IH k Hk). lia.
Qed.

(** The [sid] that AUTOINCREMENT hands out is not in the table. *)
Lemma next_sid_fresh (st : sale_table) : sale_rows st !! next_sid st = None.
Proof.
  destruct (sale_rows st !! next_sid st) as [s|] eqn:E; [|done].
  assert (next_sid st ≤ next_sid st - 1) as Hle; [|lia].
  unfold next_sid at 2.
  replace (map_fold (λ k _ acc, Z.max k acc) (sale_seq st) (sale_rows st)
             + 1 - 1)
    with (map_fold (λ k _ acc, Z.max k acc) (sale_seq st) (sale_rows st))
    by lia.
  apply map_fold_max_ge. by exists s.
Qed.

Lemma insert_sale_size (r : sale_row) (st : sale_table) :
  size (sale_rows (insert_sale r st)) = S (size (sale_rows st)).
Proof. apply map_size_insert_None, next_sid_fresh. Qed.

Lemma decrement_stock_lookup qty book_id bs b :
  bs !! book_id = Some b →
  decrement_stock qty book_id bs !! book_id
  = Some (BookRow (btitle b) (bprice b) (bstock b - qty)).
Proof.
  intros Hb. unfold decrement_stock.
  by rewrite lookup_alter_eq, Hb.
Qed.

Lemma decrement_stock_insert qty book_id bs b :
  bs !! book_id = Some b →
  decrement_stock qty book_id bs
  = <[book_id := BookRow (btitle b) (bprice b) (bstock b - qty)]> bs.
Proof.
  intros Hb. apply map_eq. intros k.
  destruct (decide (k = book_id)) as [->|Hne].
  - by rewrite (decrement_stock_lookup _ _ _ _ Hb), lookup_insert_eq.
  - unfold decrement_stock.
    by rewrite lookup_alter_ne, lookup_insert_ne.
Qed.

Lemma decrement_stock_other qty book_id bs other :
  other ≠ book_id →
  decrement_stock qty book_id bs !! other = bs !! other.
Proof. intros Hne. unfold decrement_stock. by rewrite lookup_alter_ne. Qed.

Section SalesRecord.

Variable py_int : string → option Z.

Lemma read_qty_good line qty :
  py_int line = Some qty → 0 < qty → read_qty py_int line = Some qty.
Proof.
  intros E Hq. unfold read_qty. rewrite E.
  destruct (Z.leb_spec qty 0); [lia|done].
Qed.

Lemma read_qty_bad line :
  (∀ qty, py_int line = Some qty → qty ≤ 0) → read_qty py_int line = None.
Proof.
  intros H. unfold read_qty. destruct (py_int line) as [qty|]; [|done].
  specialize (H qty eq_refl). destruct (Z.leb_spec qty 0); [done|lia].
Qed.

Lemma read_discount_good line discount :
  py_int line = Some discount → 0 ≤ discount →
  read_discount py_int line = Some discount.
Proof.
  intros E Hd. unfold read_discount. rewrite E.
  destruct (Z.ltb_spec discount 0); [lia|done].
Qed.

Lemma read_discount_bad line :
  (∀ discount, py_int line = Some discount → discount < 0) →
  read_discount py_int line = None.
Proof.
  intros H. unfold read_discount.
  destruct (py_int line) as [discount|]; [|done].
  specialize (H discount eq_refl).
  destruct (Z.ltb_spec discount 0); [done|lia].
Qed.

(** A failed pass hands the loop the database it was given. *)
Lemma sales_record_loop_retry conn lines n out rest :
  attempt_fails py_int conn lines n →
  sales_record_loop py_int conn out (lines ++ rest)
  = sales_record_loop py_int conn (out ++ [n]) rest.
Proof.
  intros Hf.
  destruct Hf as
    [d Hd
    |d m b ms Hd Hms Hm
    |d m b ms bs Hd Hms [mr Hm] Hbs Hb
    |d m b q ms bs Hd Hms [mr Hm] Hbs [br Hb] Hq
    |d m b q dl ms bs qty Hd Hms [mr Hm] Hbs [br Hb] Hq Hpos Hdl
    |d m b q dl ms bs br qty discount Hd Hms [mr Hm] Hbs Hb Hq Hpos Hdl
       Hnn Hlt];
    cbn [app sales_record_loop input]; rewrite Hd; try rewrite Hms;
    try rewrite Hm; try rewrite Hbs; try rewrite Hb; try done.
  - by rewrite (read_qty_bad _ Hq).
  - rewrite (read_qty_good _ _ Hq Hpos).
    by rewrite (read_discount_bad _ Hdl).
  - rewrite (read_qty_good _ _ Hq Hpos).
    rewrite (read_discount_good _ _ Hdl Hnn).
    destruct (Z.gtb_spec qty (bstock br)); [done|lia].
Qed.

Lemma sales_record_loop_retries conn lines ns out rest :
  attempts_fail py_int conn lines ns →
  sales_record_loop py_int conn out (lines ++ rest)
  = sales_record_loop py_int conn (out ++ ns) rest.
Proof.
  intros Hf. revert out.
  induction Hf as [|lines n more ns Hone _ IH]; intros out.
  - by rewrite app_nil_r.
  - rewrite <- (assoc_L (++)), (sales_record_loop_retry _ _ _ _ _ Hone), IH.
    by rewrite <- (assoc_L (++)).
Qed.

(** C2. A pass of [sales_record] that fails a check (unknown member or
    book, a quantity that is not a positive integer, a discount that is not
    a non-negative integer, a quantity above the stock; also a malformed
    date) writes nothing: the loop goes on with the database it was given
    and only the error added to the output, and when the input ends there
    the database left behind is that same database. *)
Theorem sales_record_failure_writes_nothing conn lines n out rest :
  attempt_fails py_int conn lines n →
  sales_record_loop py_int conn out (lines ++ rest)
  = sales_record_loop py_int conn (out ++ [n]) rest
  ∧ sales_record_loop py_int conn out lines
    = Result (Raised EOFError) conn (out ++ [n]) [].
Proof.
  intros Hf. split.
  - by apply sales_record_loop_retry.
  - rewrite <- (app_nil_r lines) at 1.
    by rewrite (sales_record_loop_retry _ _ _ _ _ Hf).
Qed.

(** The pass that clears every check, with numbers an INTEGER column
    holds and a [sid] left: the loop ends there with one INSERT and one
    UPDATE committed. *)
Lemma sales_record_loop_commit conn ms bs st b out
    sales_date member_id book_id qty_line discount_line qty discount rest :
  member conn = Some ms → book conn = Some bs → sale conn = Some st →
  date_rejected sales_date = false →
  is_Some (ms !! member_id) →
  bs !! book_id = Some b →
  py_int qty_line = Some qty → 0 < qty → qty ≤ bstock b →
  py_int discount_line = Some discount → 0 ≤ discount →
  int64 qty = true → int64 discount = true →
  int64 (bprice b * qty - discount) = true →
  next_sid st ≤ max_int64 →
  sales_record_loop py_int conn out
    ([sales_date; member_id; book_id; qty_line; discount_line] ++ rest)
  = Result Returned
      (Db (Some ms) (Some (decrement_stock qty book_id bs))
         (Some (insert_sale
                  (SaleRow sales_date member_id book_id qty discount
                     (bprice b * qty - discount)) st)))
      (out ++ [MsgSaleAdded (bprice b * qty - discount)]) rest.
Proof.
  intros Hms Hbs Hst Hd [mr Hm] Hb Hq Hpos Hle Hdl Hnn Hq64 Hd64 Ht64 Hsid.
  cbn [app sales_record_loop input].
  rewrite Hd, Hms, Hm, Hbs, Hb.
  rewrite (read_qty_good _ _ Hq Hpos), (read_discount_good _ _ Hdl Hnn).
  destruct (Z.gtb_spec qty (bstock b)) as [Hgt|_]; [lia|].
  rewrite Hst, Hq64, Hd64, Ht64. cbn [andb negb].
  unfold insert_sale_checked.
  by destruct (Z.leb_spec (next_sid st) max_int64) as [_|Hgt]; [|lia].
Qed.

(** The same pass with a number that no INTEGER column holds: the INSERT
    raises OverflowError and the database stays as it was. *)
Lemma sales_record_loop_overflow conn ms bs st b out
    sales_date member_id book_id qty_line discount_line qty discount rest :
  member conn = Some ms → book conn = Some bs → sale conn = Some st →
  date_rejected sales_date = false →
  is_Some (ms !! member_id) →
  bs !! book_id = Some b →
  py_int qty_line = Some qty → 0 < qty → qty ≤ bstock b →
  py_int discount_line = Some discount → 0 ≤ discount →
  int64 qty && int64 discount && int64 (bprice b * qty - discount) = false →
  sales_record_loop py_int conn out
    ([sales_date; member_id; book_id; qty_line; discount_line] ++ rest)
  = Result (Raised OverflowError) conn out rest.
Proof.
  intros Hms Hbs Hst Hd [mr Hm] Hb Hq Hpos Hle Hdl Hnn H64.
  cbn [app sales_record_loop input].
  rewrite Hd, Hms, Hm, Hbs, Hb.
  rewrite (read_qty_good _ _ Hq Hpos), (read_discount_good _ _ Hdl Hnn).
  destruct (Z.gtb_spec qty (bstock b)) as [Hgt|_]; [lia|].
  by rewrite Hst, H64.
Qed.

(** The same pass once AUTOINCREMENT has handed out its largest [sid]:
    the INSERT raises OperationalError and the database stays as it was. *)
Lemma sales_record_loop_full conn ms bs st b out
    sales_date member_id book_id qty_line discount_line qty discount rest :
  member conn = Some ms → book conn = Some bs → sale conn = Some st →
  date_rejected sales_date = false →
  is_Some (ms !! member_id) →
  bs !! book_id = Some b →
  py_int qty_line = Some qty → 0 < qty → qty ≤ bstock b →
  py_int discount_line = Some discount → 0 ≤ discount →
  int64 qty = true → int64 discount = true →
  int64 (bprice b * qty - discount) = true →
  max_int64 < next_sid st →
  sales_record_loop py_int conn out
    ([sales_date; member_id; book_id; qty_line; discount_line] ++ rest)
  = Result (Raised OperationalError) conn out rest.
Proof.
  intros Hms Hbs Hst Hd [mr Hm] Hb Hq Hpos Hle Hdl Hnn Hq64 Hd64 Ht64 Hsid.
  cbn [app sales_record_loop input].
  rewrite Hd, Hms, Hm, Hbs, Hb.
  rewrite (read_qty_good _ _ Hq Hpos), (read_discount_good _ _ Hdl Hnn).
  destruct (Z.gtb_spec qty (bstock b)) as [Hgt|_]; [lia|].
  rewrite Hst, Hq64, Hd64, Ht64. cbn [andb negb].
  unfold insert_sale_checked.
  by destruct (Z.leb_spec (next_sid st) max_int64) as [Hle'|_]; [lia|].
Qed.

(** C1, amended. When the lines of a pass clear every check (date format,
    known member and book, a positive quantity within the stock, a
    non-negative discount), the quantity, the discount and the total fit a
    64-bit INTEGER and AUTOINCREMENT has a [sid] left, [sales_record]
    returns, whatever failed passes came before, having inserted exactly
    one sale, under a [sid] the table did not hold, with
    total = price * quantity - discount at the book's current price, and
    having lowered that book's stock by the quantity; nothing bounds the
    total from below but the 64 bits. *)
Theorem sales_record_inserts_and_decrements conn ms bs st b failed ns
    sales_date member_id book_id qty_line discount_line qty discount rest :
  member conn = Some ms → book conn = Some bs → sale conn = Some st →
  attempts_fail py_int conn failed ns →
  date_rejected sales_date = false →
  is_Some (ms !! member_id) →
  bs !! book_id = Some b →
  py_int qty_line = Some qty → 0 < qty → qty ≤ bstock b →
  py_int discount_line = Some discount → 0 ≤ discount →
  int64 qty = true → int64 discount = true →
  int64 (bprice b * qty - discount) = true →
  next_sid st ≤ max_int64 →
  let total := bprice b * qty - discount in
  let row := SaleRow sales_date member_id book_id qty discount total in
  let r := sales_record py_int conn
             (failed
              ++ [sales_date; member_id; book_id; qty_line; discount_line]
              ++ rest) in
  r_outcome r = Returned
  ∧ r_out r = ns ++ [MsgSaleAdded total]
  ∧ r_in r = rest
  ∧ member (r_db r) = Some ms
  ∧ sale_rows st !! next_sid st = None
  ∧ sale (r_db r)
    = Some (SaleTable (<[next_sid st := row]> (sale_rows st)) (next_sid st))
  ∧ book (r_db r)
    = Some (<[book_id := BookRow (btitle b) (bprice b) (bstock b - qty)]> bs).
Proof.
  intros Hms Hbs Hst Hfail Hd Hm Hb Hq Hpos Hle Hdl Hnn Hq64 Hd64 Ht64
    Hsid total row r.
  subst r. unfold sales_record.
  rewrite (sales_record_loop_retries _ _ _ _ _ Hfail).
  rewrite (sales_record_loop_commit _ _ _ _ _ _ _ _ _ _ _ _ _ _
             Hms Hbs Hst Hd Hm Hb Hq Hpos Hle Hdl Hnn Hq64 Hd64 Ht64 Hsid).
  cbn [r_outcome r_out r_in r_db member sale book app].
  rewrite (decrement_stock_insert _ _ _ _ Hb).
  repeat split; try done.
  apply next_sid_fresh.
Qed.

(** Every pass either leaves the database alone or is the one that
    commits a sale. *)
Lemma sales_record_loop_cases conn n : ∀ ins out,
  (length ins ≤ n)%nat →
  let r := sales_record_loop py_int conn out ins in
  (r_outcome r ≠ Returned ∧ r_db r = conn)
  ∨ ∃ ms bs st sales_date member_id book_id b qty discount,
      member conn = Some ms ∧ book conn = Some bs ∧ sale conn = Some st
      ∧ is_Some (ms !! member_id) ∧ bs !! book_id = Some b
      ∧ 0 < qty ∧ qty ≤ bstock b ∧ 0 ≤ discount
      ∧ r_outcome r = Returned
      ∧ r_db r = Db (Some ms) (Some (decrement_stock qty book_id bs))
                   (Some (insert_sale
                            (SaleRow sales_date member_id book_id qty
                               discount (bprice b * qty - discount)) st)).
Proof.
  induction n as [|n IH]; intros ins out Hlen.
  { destruct ins; [by left|simpl in Hlen; lia]. }
  destruct ins as [|d ins]; [by left|].
  cbn [sales_record_loop input]. simpl in Hlen.
  destruct (date_rejected d); [apply IH; lia|].
  destruct ins as [|m ins]; [by left|].
  destruct ins as [|b ins]; [by left|].
  cbn [input]. simpl in Hlen.
  destruct (member conn) as [ms|] eqn:Hms; [|by left].
  destruct (ms !! m) as [mr|] eqn:Hm; [|apply IH; lia].
  destruct (book conn) as [bs|] eqn:Hbs; [|by left].
  destruct (bs !! b) as [br|] eqn:Hb; [|apply IH; lia].
  destruct ins as [|q ins]; [by left|].
  cbn [input]. simpl in Hlen.
  unfold read_qty.
  destruct (py_int q) as [qty|]; [|apply IH; lia].
  destruct (Z.leb_spec qty 0) as [|Hpos]; [apply IH; lia|].
  destruct ins as [|dl ins]; [by left|].
  cbn [input]. simpl in Hlen.
  unfold read_discount.
  destruct (py_int dl) as [discount|]; [|apply IH; lia].
  destruct (Z.ltb_spec discount 0) as [|Hnn]; [apply IH; lia|].
  destruct (Z.gtb_spec qty (bstock br)) as [|Hle]; [apply IH; lia|].
  destruct (sale conn) as [st|] eqn:Hst; [|by left].
  destruct (negb _); [by left|].
  unfold insert_sale_checked.
  destruct (next_sid st <=? max_int64); [|by left].
  right. exists ms, bs, st, d, m, b, br, qty, discount.
  cbn [r_outcome r_db]. repeat split; try done; lia.
Qed.

End SalesRecord.

(** ** The listings *)

#[global] Instance key_le_transitive {A} (key : A → Z) :
  Transitive (key_le key).
Proof. intros a b c. unfold key_le. lia. Qed.

#[global] Instance key_le_total {A} (key : A → Z) : Total (key_le key).
Proof. intros a b. unfold key_le. lia. Qed.

Lemma order_by_Permutation {A} (key : A → Z) (rows : list A) :
  order_by key rows ≡ₚ rows.
Proof. apply merge_sort_Permutation. Qed.

Lemma order_by_length {A} (key : A → Z) (rows : list A) :
  length (order_by key rows) = length rows.
Proof. apply Permutation_length, order_by_Permutation. Qed.

Lemma sorted_distinct_strict {A} (key : A → Z) (rows : list A) :
  StronglySorted (key_le key) rows → NoDup (key <$> rows) →
  StronglySorted (λ a b, key a < key b) rows.
Proof.
  induction 1 as [|a rows Hs IH Hall]; intros Hnd; [constructor|].
  rewrite fmap_cons in Hnd. apply NoDup_cons in Hnd as [Hnotin Hnd].
  constructor; [by apply IH|].
  rewrite Forall_forall in Hall |- *. intros b Hb.
  specialize (Hall b Hb). unfold key_le in Hall.
  assert (key a ≠ key b); [|lia].
  intros Heq. apply Hnotin. rewrite Heq.
  by apply list_elem_of_fmap_2.
Qed.

Lemma order_by_strict {A} (key : A → Z) (rows : list A) :
  NoDup (key <$> rows) →
  StronglySorted (λ a b, key a < key b) (order_by key rows).
Proof.
  intros Hnd. apply sorted_distinct_strict.
  - apply StronglySorted_merge_sort; apply _.
  - by rewrite order_by_Permutation.
Qed.

(** A join keeps the [sid] of the sale it extends, so the joined rows
    have distinct [sid]s. *)
Lemma joined_keys_NoDup {A B} (f : Z * A → option B) (key : B → Z)
    (l : list (Z * A)) :
  (∀ x y, f x = Some y → key y = x.1) →
  NoDup l.*1 → NoDup (key <$> omap f l).
Proof.
  intros Hkey. induction l as [|x l IH]; intros Hnd; [constructor|].
  rewrite fmap_cons in Hnd. apply NoDup_cons in Hnd as [Hnotin Hnd].
  cbn [omap list_omap]. destruct (f x) as [y|] eqn:Hfx; [|by apply IH].
  rewrite fmap_cons. apply NoDup_cons. split; [|by apply IH].
  intros Hin. apply list_elem_of_fmap in Hin as [y' [Hk Hy']].
  apply list_elem_of_omap in Hy' as [x' [Hx' Hfx']].
  apply Hnotin. rewrite <- (Hkey _ _ Hfx), Hk, (Hkey _ _ Hfx').
  by apply list_elem_of_fmap_2.
Qed.

Lemma join_member_sid ms x row : join_member ms x = Some row → l_sid row = x.1.
Proof.
  unfold join_member. destruct (ms !! smid x.2); intros E; by simplify_eq/=.
Qed.

Lemma join_member_book_sid ms bs x row :
  join_member_book ms bs x = Some row → p_sid row = x.1.
Proof.
  unfold join_member_book.
  destruct (ms !! smid x.2); [|done].
  destruct (bs !! sbid x.2); intros E; by simplify_eq/=.
Qed.

(** The rows of the listing are the sales whose member exists. *)
Lemma elem_of_list_sales ms st row :
  row ∈ list_sales ms st ↔
  ∃ s m, sale_rows st !! l_sid row = Some s ∧ ms !! smid s = Some m
         ∧ row = ListRow (l_sid row) (sdate s) (mname m).
Proof.
  unfold list_sales. rewrite order_by_Permutation, list_elem_of_omap.
  split.
  - intros [[sid s] [Hin Hj]]. apply elem_of_map_to_list in Hin.
    unfold join_member in Hj. cbn [fst snd] in Hj.
    destruct (ms !! smid s) as [m|] eqn:Hm; simplify_eq/=. eauto.
  - intros (s & m & Hs & Hm & Hrow). exists (l_sid row, s). split.
    + by apply elem_of_map_to_list.
    + unfold join_member. cbn [fst snd]. rewrite Hm. cbn. by rewrite Hrow.
Qed.

(** The rows of the report are the sales whose member and book exist. *)
Lemma elem_of_report_sales ms bs st row :
  row ∈ report_sales ms bs st ↔
  ∃ s m b, sale_rows st !! p_sid row = Some s ∧ ms !! smid s = Some m
           ∧ bs !! sbid s = Some b
           ∧ row = ReportRow (p_sid row) (sdate s) (mname m) (btitle b)
                     (bprice b) (sqty s) (sdiscount s) (stotal s).
Proof.
  unfold report_sales. rewrite order_by_Permutation, list_elem_of_omap.
  split.
  - intros [[sid s] [Hin Hj]]. apply elem_of_map_to_list in Hin.
    unfold join_member_book in Hj. cbn [fst snd] in Hj.
    destruct (ms !! smid s) as [m|] eqn:Hm; [|done].
    destruct (bs !! sbid s) as [b|] eqn:Hb; simplify_eq/=.
    exists s, m, b. eauto.
  - intros (s & m & b & Hs & Hm & Hb & Hrow). exists (p_sid row, s). split.
    + by apply elem_of_map_to_list.
    + unfold join_member_book. cbn [fst snd]. rewrite Hm. cbn.
      rewrite Hb. cbn. by rewrite Hrow.
Qed.

Lemma list_sales_strict ms st :
  StronglySorted (λ a b, l_sid a < l_sid b) (list_sales ms st).
Proof.
  apply order_by_strict, joined_keys_NoDup.
  - apply join_member_sid.
  - apply NoDup_fst_map_to_list.
Qed.

Lemma report_sales_strict ms bs st :
  StronglySorted (λ a b, p_sid a < p_sid b) (report_sales ms bs st).
Proof.
  apply order_by_strict, joined_keys_NoDup.
  - apply join_member_book_sid.
  - apply NoDup_fst_map_to_list.
Qed.

(** Deleting a listed sale shortens the listing by one row. *)
Lemma list_sales_delete_length ms st row :
  row ∈ list_sales ms st →
  S (length (list_sales ms (delete_sale (l_sid row) st)))
  = length (list_sales ms st).
Proof.
  intros Hin. apply elem_of_list_sales in Hin as (s & m & Hs & Hm & Hrow).
  unfold list_sales. rewrite !order_by_length. cbn [delete_sale sale_rows].
  rewrite <- (Permutation_length
                (omap_Permutation (join_member ms) _ _
                   (map_to_list_delete (sale_rows st) (l_sid row) s Hs))).
  cbn [omap list_omap]. unfold join_member at 2. cbn [fst snd].
  by rewrite Hm.
Qed.

(** Deleting a sale whose member and book exist shortens the report by
    one row. *)
Lemma report_sales_delete_length ms bs st sid s m b :
  sale_rows st !! sid = Some s → ms !! smid s = Some m →
  bs !! sbid s = Some b →
  S (length (report_sales ms bs (delete_sale sid st)))
  = length (report_sales ms bs st).
Proof.
  intros Hs Hm Hb.
  unfold report_sales. rewrite !order_by_length. cbn [delete_sale sale_rows].
  rewrite <- (Permutation_length
                (omap_Permutation (join_member_book ms bs) _ _
                   (map_to_list_delete (sale_rows st) sid s Hs))).
  cbn [omap list_omap]. unfold join_member_book at 2. cbn [fst snd].
  rewrite Hm. cbn [mbind option_bind]. by rewrite Hb.
Qed.

(** ** update_sales_record *)

Lemma set_discount_lookup nd nt sid st s :
  sale_rows st !! sid = Some s →
  sale_rows (set_discount nd nt sid st) !! sid
  = Some (SaleRow (sdate s) (smid s) (sbid s) (sqty s) nd nt).
Proof. intros Hs. cbn [set_discount sale_rows]. by rewrite lookup_alter_eq, Hs. Qed.

Lemma set_discount_other nd nt sid st other :
  other ≠ sid →
  sale_rows (set_discount nd nt sid st) !! other = sale_rows st !! other.
Proof. intros Hne. cbn [set_discount sale_rows]. by rewrite lookup_alter_ne. Qed.

Section Update.

Variable py_int : string → option Z.

Lemma index_rejected (n : Z) (len : nat) :
  n < 1 ∨ Z.of_nat len < n →
  (n - 1 <? 0) || (n - 1 >=? Z.of_nat len) = true.
Proof.
  intros H. apply orb_true_iff. rewrite Z.ltb_lt, Z.geb_le. lia.
Qed.

Lemma index_accepted {A} (n : Z) (l : list A) (x : A) :
  1 ≤ n → l !! Z.to_nat (n - 1) = Some x →
  (n - 1 <? 0) || (n - 1 >=? Z.of_nat (length l)) = false.
Proof.
  intros Hn Hx. apply lookup_lt_Some in Hx.
  apply orb_false_iff. rewrite Z.ltb_ge, Z.geb_leb, Z.leb_gt. lia.
Qed.

(** Rejected lines at the selection prompt only add to the output. *)
Lemma update_select_skip conn sales k rejected : ∀ out ins,
  Forall (choice_rejected py_int (length sales)) rejected →
  ∃ out', update_select py_int conn sales k out (rejected ++ ins)
          = update_select py_int conn sales k (out ++ out') ins.
Proof.
  induction rejected as [|line rejected IH]; intros out ins HF.
  { exists []. by rewrite app_nil_r. }
  apply Forall_cons in HF as [[Hne Hrej] HF].
  cbn [app update_select input].
  destruct (decide (line = "")) as [|_]; [done|].
  destruct (py_int line) as [n|].
  - rewrite (index_rejected _ _ (Hrej n eq_refl)).
    destruct (IH (out ++ [ErrChoiceOutOfRange]) ins HF) as [out' ->].
    exists (ErrChoiceOutOfRange :: out'). by rewrite <- (assoc_L (++)).
  - destruct (IH (out ++ [ErrChoiceNotNumber]) ins HF) as [out' ->].
    exists (ErrChoiceNotNumber :: out'). by rewrite <- (assoc_L (++)).
Qed.

(** A line that reads as a position of the listing selects that row. *)
Lemma update_select_pick conn sales k out choice n row ins :
  choice ≠ "" → py_int choice = Some n → 1 ≤ n →
  sales !! Z.to_nat (n - 1) = Some row →
  update_select py_int conn sales k out (choice :: ins)
  = k (l_sid row) out ins.
Proof.
  intros Hne Hn Hpos Hrow. cbn [update_select input].
  destruct (decide (choice = "")) as [|_]; [done|].
  by rewrite Hn, (index_accepted _ _ _ Hpos Hrow), Hrow.
Qed.

Lemma update_select_cases conn sales k : ∀ ins out,
  let r := update_select py_int conn sales k out ins in
  (r_outcome r ≠ Returned ∧ r_db r = conn)
  ∨ ∃ choice n row out' ins',
      choice ∈ ins ∧ py_int choice = Some n ∧ 1 ≤ n
      ∧ sales !! Z.to_nat (n - 1) = Some row
      ∧ r = k (l_sid row) out' ins'.
Proof.
  induction ins as [|line ins IH]; intros out; [by left|].
  cbn [update_select input].
  assert (∀ out1, let r := update_select py_int conn sales k out1 ins in
            (r_outcome r ≠ Returned ∧ r_db r = conn)
            ∨ ∃ choice n row out' ins',
                choice ∈ line :: ins ∧ py_int choice = Some n ∧ 1 ≤ n
                ∧ sales !! Z.to_nat (n - 1) = Some row
                ∧ r = k (l_sid row) out' ins') as IH'.
  { intros out1. destruct (IH out1) as [H|(c & n & row & o & i & Hc & H)];
      [by left|right]. exists c, n, row, o, i. split; [by right|done]. }
  destruct (decide (line = "")) as [|_]; [by left|].
  destruct (py_int line) as [n|] eqn:Hn; [|apply IH'].
  destruct ((n - 1 <? 0) || (n - 1 >=? Z.of_nat (length sales))) eqn:Hidx;
    [apply IH'|].
  destruct (sales !! Z.to_nat (n - 1)) as [row|] eqn:Hrow; [|by left].
  right. exists line, n, row, out, ins.
  apply orb_false_iff in Hidx as [Hlo _]. apply Z.ltb_ge in Hlo.
  repeat split; [by left|done|lia|done].
Qed.

(** Rejected lines at the discount prompt only add to the output. *)
Lemma update_discount_skip conn k rejected : ∀ out ins,
  Forall (discount_rejected py_int) rejected →
  ∃ out', update_discount py_int conn k out (rejected ++ ins)
          = update_discount py_int conn k (out ++ out') ins.
Proof.
  induction rejected as [|line rejected IH]; intros out ins HF.
  { exists []. by rewrite app_nil_r. }
  apply Forall_cons in HF as [Hrej HF].
  cbn [app update_discount input].
  destruct (py_int line) as [d|] eqn:Hd.
  - specialize (Hrej d Hd).
    destruct (Z.ltb_spec d 0); [|lia].
    destruct (IH (out ++ [ErrDiscountNegative]) ins HF) as [out' ->].
    exists (ErrDiscountNegative :: out'). by rewrite <- (assoc_L (++)).
  - destruct (IH (out ++ [ErrDiscountNotNumber]) ins HF) as [out' ->].
    exists (ErrDiscountNotNumber :: out'). by rewrite <- (assoc_L (++)).
Qed.

Lemma update_discount_pick conn k out line d ins :
  py_int line = Some d → 0 ≤ d →
  update_discount py_int conn k out (line :: ins) = k d out ins.
Proof.
  intros Hd Hnn. cbn [update_discount input]. rewrite Hd.
  destruct (Z.ltb_spec d 0); [lia|done].
Qed.

Lemma update_discount_cases conn k : ∀ ins out,
  let r := update_discount py_int conn k out ins in
  (r_outcome r ≠ Returned ∧ r_db r = conn)
  ∨ ∃ d out' ins', 0 ≤ d ∧ r = k d out' ins'.
Proof.
  induction ins as [|line ins IH]; intros out; [by left|].
  cbn [update_discount input].
  destruct (py_int line) as [d|]; [|apply IH].
  destruct (Z.ltb_spec d 0); [apply IH|].
  right. by exists d, out, ins.
Qed.

(** Every run of [update_sales_record] either leaves the database alone or
    rewrites one listed sale with [set_discount]. *)
Lemma update_sales_record_cases conn ins :
  let r := update_sales_record py_int conn ins in
  (r_db r = conn
   ∧ (r_outcome r = Returned →
      ∃ ms st, member conn = Some ms ∧ sale conn = Some st
               ∧ list_sales ms st = []))
  ∨ ∃ ms bs st choice n row s b nd,
      member conn = Some ms ∧ book conn = Some bs ∧ sale conn = Some st
      ∧ choice ∈ ins ∧ py_int choice = Some n ∧ 1 ≤ n
      ∧ list_sales ms st !! Z.to_nat (n - 1) = Some row
      ∧ sale_rows st !! l_sid row = Some s ∧ bs !! sbid s = Some b
      ∧ 0 ≤ nd
      ∧ r_outcome r = Returned
      ∧ r_db r = Db (Some ms) (Some bs)
                   (Some (set_discount nd (bprice b * sqty s - nd)
                            (l_sid row) st)).
Proof.
  unfold update_sales_record.
  destruct (sale conn) as [st|] eqn:Hst; [|by left].
  destruct (member conn) as [ms|] eqn:Hms; [|by left].
  remember (list_sales ms st) as sales eqn:Hsales.
  destruct sales as [|row0 sales'].
  { left. split; [done|]. intros _. by exists ms, st. }
  match goal with
  | |- context [update_select _ _ _ ?k ?o _] =>
      destruct (update_select_cases conn (row0 :: sales') k ins o)
        as [[Hnr Hdb]|(choice & n & row & o' & i' & Hc & Hn & Hpos & Hrow & ->)]
  end.
  { left. split; [done|]. intros Hr. by destruct Hnr. }
  destruct (book conn) as [bs|] eqn:Hbs; [|by left].
  unfold sale_book_data.
  destruct (sale_rows st !! l_sid row) as [s|] eqn:Hs; [|by left].
  cbn [mbind option_bind].
  destruct (bs !! sbid s) as [b|] eqn:Hb; [|by left].
  cbn [mbind option_bind].
  match goal with
  | |- context [update_discount _ _ ?k ?o ?i] =>
      destruct (update_discount_cases conn k i o)
        as [[Hnr Hdb]|(nd & o'' & i'' & Hnn & ->)]
  end.
  { left. split; [done|]. intros Hr. by destruct Hnr. }
  cbv zeta. destruct (negb _); [by left|].
  right. exists ms, bs, st, choice, n, row, s, b, nd.
  cbn [r_outcome r_db]. rewrite <- Hsales. by repeat split.
Qed.

(** A run of [update_sales_record] up to the UPDATE: a listed sale is
    selected and a non-negative discount entered, after any number of
    rejected lines at either prompt. *)
Lemma update_sales_record_reaches conn ms bs st rejected1 choice n
    row s b rejected2 line new_discount rest :
  member conn = Some ms → book conn = Some bs → sale conn = Some st →
  Forall (choice_rejected py_int (length (list_sales ms st))) rejected1 →
  choice ≠ "" → py_int choice = Some n → 1 ≤ n →
  list_sales ms st !! Z.to_nat (n - 1) = Some row →
  sale_rows st !! l_sid row = Some s →
  bs !! sbid s = Some b →
  Forall (discount_rejected py_int) rejected2 →
  py_int line = Some new_discount → 0 ≤ new_discount →
  let new_total := bprice b * sqty s - new_discount in
  ∃ out,
    update_sales_record py_int conn
      (rejected1 ++ choice :: rejected2 ++ line :: rest)
    = if negb (int64 new_discount && int64 new_total)
      then Result (Raised OverflowError) conn out rest
      else Result Returned
             (Db (Some ms) (Some bs)
                (Some (set_discount new_discount new_total (l_sid row) st)))
             (out ++ [MsgUpdated (l_sid row) new_total]) rest.
Proof.
  intros Hms Hbs Hst Hrej1 Hne Hn Hpos Hrow Hs Hb Hrej2 Hd Hnn new_total.
  unfold update_sales_record. rewrite Hst, Hms.
  remember (list_sales ms st) as sales eqn:Hsales.
  destruct sales as [|row0 sales']; [by rewrite lookup_nil in Hrow|].
  match goal with
  | |- context [update_select _ _ _ ?k ?o _] =>
      destruct (update_select_skip conn (row0 :: sales') k rejected1 o
                  (choice :: rejected2 ++ line :: rest) Hrej1) as [o1 ->]
  end.
  rewrite (update_select_pick _ _ _ _ _ _ _ _ Hne Hn Hpos Hrow).
  rewrite Hbs. unfold sale_book_data. rewrite Hs. cbn [mbind option_bind].
  rewrite Hb. cbn [mbind option_bind].
  match goal with
  | |- context [update_discount _ _ ?k ?o _] =>
      destruct (update_discount_skip conn k rejected2 o
                  (line :: rest) Hrej2) as [o2 ->]
  end.
  rewrite (update_discount_pick _ _ _ _ _ _ Hd Hnn).
  cbv zeta. by eexists.
Qed.

(** C3, amended. Once a listed sale is selected and a non-negative
    discount is entered (after any number of rejected lines at either
    prompt), and the new discount and the new total fit a 64-bit INTEGER,
    [update_sales_record] returns and the sale's stored total is the
    book's price as it is now, times the sale's stored quantity, minus the
    new discount: the total stored before plays no part. *)
Theorem update_total_uses_current_price conn ms bs st rejected1 choice n
    row s b rejected2 line new_discount rest :
  member conn = Some ms → book conn = Some bs → sale conn = Some st →
  Forall (choice_rejected py_int (length (list_sales ms st))) rejected1 →
  choice ≠ "" → py_int choice = Some n → 1 ≤ n →
  list_sales ms st !! Z.to_nat (n - 1) = Some row →
  sale_rows st !! l_sid row = Some s →
  bs !! sbid s = Some b →
  Forall (discount_rejected py_int) rejected2 →
  py_int line = Some new_discount → 0 ≤ new_discount →
  int64 new_discount = true →
  int64 (bprice b * sqty s - new_discount) = true →
  let r := update_sales_record py_int conn
             (rejected1 ++ choice :: rejected2 ++ line :: rest) in
  let new_total := bprice b * sqty s - new_discount in
  r_outcome r = Returned
  ∧ r_in r = rest
  ∧ last (r_out r) = Some (MsgUpdated (l_sid row) new_total)
  ∧ ∃ st', sale (r_db r) = Some st'
           ∧ sale_rows st' !! l_sid row
             = Some (SaleRow (sdate s) (smid s) (sbid s) (sqty s)
                       new_discount new_total).
Proof.
  intros Hms Hbs Hst Hrej1 Hne Hn Hpos Hrow Hs Hb Hrej2 Hd Hnn Hd64 Ht64
    r new_total.
  subst r.
  destruct (update_sales_record_reaches conn _ _ _ _ _ _ _ _ _ _ _ _ rest
              Hms Hbs Hst Hrej1 Hne Hn Hpos Hrow Hs Hb Hrej2 Hd Hnn)
    as [out ->].
  fold new_total in Ht64 |- *. rewrite Hd64, Ht64.
  cbn [andb negb r_outcome r_in r_out r_db sale].
  repeat split; [by rewrite last_snoc|].
  eexists. split; [done|]. by apply set_discount_lookup.
Qed.

(** C5. A run of [update_sales_record] that listed sales and returned has
    rewritten one listed sale: its discount and total are new, its date,
    member, book and quantity are the old ones, every other sale is as it
    was, and the member and book tables (so every stock) are untouched. *)
Theorem update_changes_only_discount_and_total conn ms st ins :
  member conn = Some ms → sale conn = Some st → list_sales ms st ≠ [] →
  let r := update_sales_record py_int conn ins in
  r_outcome r = Returned →
  ∃ row s new_discount new_total st',
    row ∈ list_sales ms st
    ∧ sale_rows st !! l_sid row = Some s
    ∧ sale (r_db r) = Some st'
    ∧ sale_rows st' !! l_sid row
      = Some (SaleRow (sdate s) (smid s) (sbid s) (sqty s)
                new_discount new_total)
    ∧ (∀ other, other ≠ l_sid row →
         sale_rows st' !! other = sale_rows st !! other)
    ∧ sale_seq st' = sale_seq st
    ∧ member (r_db r) = member conn
    ∧ book (r_db r) = book conn.
Proof.
  intros Hms Hst Hne r Hret. subst r.
  destruct (update_sales_record_cases conn ins)
    as [[_ Hempty]
       |(ms' & bs & st0 & choice & n & row & s & b & nd & Hms' & Hbs & Hst'
         & _ & _ & _ & Hrow & Hs & _ & _ & _ & Hdb)].
  { destruct (Hempty Hret) as (ms' & st0 & Hms' & Hst' & Hnil).
    congruence. }
  assert (ms' = ms) as -> by congruence.
  assert (st0 = st) as -> by congruence.
  rewrite Hdb. cbn [member book sale].
  exists row, s, nd, (bprice b * sqty s - nd). eexists.
  split; [by eapply list_elem_of_lookup_2|].
  split; [done|]. split; [done|].
  split; [by apply set_discount_lookup|].
  split; [intros other Hother; by apply set_discount_other|].
  by rewrite Hms, Hbs.
Qed.

End Update.

(** ** delete_sales_record *)

Lemma delete_size {A} (m : gmap Z A) (i : Z) (x : A) :
  m !! i = Some x → S (size (delete i m)) = size m.
Proof.
  intros Hi. rewrite <- (insert_delete_id m i x Hi) at 2.
  rewrite map_size_insert_None; [done|]. apply lookup_delete_eq.
Qed.

Section Delete.

Variable py_int : string → option Z.

Lemma position_rejected (n : Z) (len : nat) :
  n < 1 ∨ Z.of_nat len < n → (n <? 1) || (n >? Z.of_nat len) = true.
Proof.
  intros H. apply orb_true_iff. rewrite Z.ltb_lt, Z.gtb_gt. lia.
Qed.

Lemma position_accepted {A} (n : Z) (l : list A) (x : A) :
  1 ≤ n → l !! Z.to_nat (n - 1) = Some x →
  (n <? 1) || (n >? Z.of_nat (length l)) = false.
Proof.
  intros Hn Hx. apply lookup_lt_Some in Hx.
  apply orb_false_iff. rewrite Z.ltb_ge, Z.gtb_ltb, Z.ltb_ge. lia.
Qed.

(** Rejected lines at the selection prompt only add to the output. *)
Lemma delete_select_skip conn st sales rejected : ∀ out ins,
  Forall (choice_rejected py_int (length sales)) rejected →
  ∃ out', delete_select py_int conn st sales out (rejected ++ ins)
          = delete_select py_int conn st sales (out ++ out') ins.
Proof.
  induction rejected as [|line rejected IH]; intros out ins HF.
  { exists []. by rewrite app_nil_r. }
  apply Forall_cons in HF as [[Hne Hrej] HF].
  cbn [app delete_select input].
  destruct (decide (line = "")) as [|_]; [done|].
  destruct (IH (out ++ [ErrDeleteChoice]) ins HF) as [out' Hout'].
  exists (ErrDeleteChoice :: out').
  destruct (py_int line) as [n|].
  - rewrite (position_rejected _ _ (Hrej n eq_refl)), Hout'.
    by rewrite <- (assoc_L (++)).
  - rewrite Hout'. by rewrite <- (assoc_L (++)).
Qed.

(** A line that reads as a position of the listing deletes that row. *)
Lemma delete_select_pick conn st sales out choice n row ins :
  choice ≠ "" → py_int choice = Some n → 1 ≤ n →
  sales !! Z.to_nat (n - 1) = Some row →
  delete_select py_int conn st sales out (choice :: ins)
  = Result Returned
      (Db (member conn) (book conn) (Some (delete_sale (l_sid row) st)))
      (out ++ [MsgDeleted (l_sid row)]) ins.
Proof.
  intros Hne Hn Hpos Hrow. cbn [delete_select input].
  destruct (decide (choice = "")) as [|_]; [done|].
  by rewrite Hn, (position_accepted _ _ _ Hpos Hrow), Hrow.
Qed.

Lemma delete_select_cases conn st sales : ∀ ins out,
  let r := delete_select py_int conn st sales out ins in
  (r_outcome r ≠ Returned ∧ r_db r = conn)
  ∨ ∃ choice n row,
      choice ∈ ins ∧ py_int choice = Some n ∧ 1 ≤ n
      ∧ sales !! Z.to_nat (n - 1) = Some row
      ∧ r_outcome r = Returned
      ∧ r_db r = Db (member conn) (book conn)
                   (Some (delete_sale (l_sid row) st))
      ∧ last (r_out r) = Some (MsgDeleted (l_sid row)).
Proof.
  induction ins as [|line ins IH]; intros out; [by left|].
  cbn [delete_select input].
  assert (∀ out1, let r := delete_select py_int conn st sales out1 ins in
            (r_outcome r ≠ Returned ∧ r_db r = conn)
            ∨ ∃ choice n row,
                choice ∈ line :: ins ∧ py_int choice = Some n ∧ 1 ≤ n
                ∧ sales !! Z.to_nat (n - 1) = Some row
                ∧ r_outcome r = Returned
                ∧ r_db r = Db (member conn) (book conn)
                             (Some (delete_sale (l_sid row) st))
                ∧ last (r_out r) = Some (MsgDeleted (l_sid row))) as IH'.
  { intros out1. destruct (IH out1) as [H|(c & n & row & Hc & H)];
      [by left|right]. exists c, n, row. split; [by right|done]. }
  destruct (decide (line = "")) as [|_]; [by left|].
  destruct (py_int line) as [n|] eqn:Hn; [|apply IH'].
  destruct ((n <? 1) || (n >? Z.of_nat (length sales))) eqn:Hidx;
    [apply IH'|].
  destruct (sales !! Z.to_nat (n - 1)) as [row|] eqn:Hrow; [|by left].
  right. exists line, n, row. cbn [r_outcome r_db r_out].
  apply orb_false_iff in Hidx as [Hlo _]. apply Z.ltb_ge in Hlo.
  repeat split; [by left|done|lia|done|by rewrite last_snoc].
Qed.

(** C4. Once a position of the listing is typed at the selection prompt of
    [delete_sales_record] (after any number of lines the prompt rejected),
    the function returns, having read up to that line and no further, and
    has removed the sale listed at that position and nothing else: that
    [sid] is gone, every other sale is as it was, the table and the
    listing are one row shorter (the report too, the sale's book being in
    the book table), and the member and book tables are untouched, so the
    stock of the sale's book is not given back. *)
Theorem delete_removes_only_selected conn ms st rejected choice n row rest :
  member conn = Some ms → sale conn = Some st →
  Forall (choice_rejected py_int (length (list_sales ms st))) rejected →
  choice ≠ "" → py_int choice = Some n → 1 ≤ n →
  list_sales ms st !! Z.to_nat (n - 1) = Some row →
  let r := delete_sales_record py_int conn (rejected ++ choice :: rest) in
  r_outcome r = Returned
  ∧ r_in r = rest
  ∧ last (r_out r) = Some (MsgDeleted (l_sid row))
  ∧ member (r_db r) = member conn
  ∧ book (r_db r) = book conn
  ∧ ∃ sold st',
      sale_rows st !! l_sid row = Some sold
      ∧ sale (r_db r) = Some st'
      ∧ sale_rows st' = delete (l_sid row) (sale_rows st)
      ∧ sale_seq st' = sale_seq st
      ∧ sale_rows st' !! l_sid row = None
      ∧ (∀ other, other ≠ l_sid row →
           sale_rows st' !! other = sale_rows st !! other)
      ∧ S (size (sale_rows st')) = size (sale_rows st)
      ∧ S (length (list_sales ms st')) = length (list_sales ms st)
      ∧ (∀ bs, book conn = Some bs → is_Some (bs !! sbid sold) →
           S (length (report_sales ms bs st'))
           = length (report_sales ms bs st)).
Proof.
  intros Hms Hst Hrej Hne Hn Hpos Hrow r. subst r.
  unfold delete_sales_record. rewrite Hst, Hms.
  remember (list_sales ms st) as sales eqn:Hsales.
  destruct sales as [|row0 sales']; [by rewrite lookup_nil in Hrow|].
  match goal with
  | |- context [delete_select _ _ _ _ ?o _] =>
      destruct (delete_select_skip conn st (row0 :: sales') rejected o
                  (choice :: rest) Hrej) as [o1 ->]
  end.
  rewrite (delete_select_pick _ _ _ _ _ _ _ _ Hne Hn Hpos Hrow).
  cbn [r_outcome r_in r_out r_db member book sale].
  assert (row ∈ list_sales ms st) as Hin.
  { rewrite <- Hsales. by eapply list_elem_of_lookup_2. }
  destruct (proj1 (elem_of_list_sales ms st row) Hin)
    as (sold & m & Hsold & Hm & _).
  split; [done|]. split; [done|]. split; [by rewrite last_snoc|].
  split; [done|]. split; [done|].
  exists sold, (delete_sale (l_sid row) st).
  split; [done|]. split; [done|]. split; [done|]. split; [done|].
  split; [cbn; by rewrite lookup_delete_eq|].
  split; [intros other Hother; cbn; by rewrite lookup_delete_ne|].
  split; [by eapply delete_size|].
  split; [rewrite Hsales; by apply list_sales_delete_length|].
  intros bs _ [b Hb]. by eapply report_sales_delete_length.
Qed.

End Delete.

(** ** Cancelling a selection *)

Section Cancel.

Variable py_int : string → option Z.

(** C10. The empty line at the selection prompt of [update_sales_record]
    and of [delete_sales_record], also after lines the prompt rejected,
    ends the operation with the cancellation printed and the database,
    all three tables, exactly as it was. *)
Theorem cancel_writes_nothing conn ms st rejected rest :
  member conn = Some ms → sale conn = Some st → list_sales ms st ≠ [] →
  Forall (choice_rejected py_int (length (list_sales ms st))) rejected →
  let u := update_sales_record py_int conn (rejected ++ "" :: rest) in
  let d := delete_sales_record py_int conn (rejected ++ "" :: rest) in
  (r_db u = conn ∧ last (r_out u) = Some MsgUpdateCancelled ∧ r_in u = rest)
  ∧ (r_db d = conn ∧ last (r_out d) = Some MsgDeleteCancelled
     ∧ r_in d = rest).
Proof.
  intros Hms Hst Hne Hrej u d. subst u d.
  unfold update_sales_record, delete_sales_record. rewrite Hst, Hms.
  remember (list_sales ms st) as sales eqn:Hsales.
  destruct sales as [|row0 sales']; [done|]. split.
  - match goal with
    | |- context [update_select _ _ _ ?k ?o _] =>
        destruct (update_select_skip py_int conn (row0 :: sales') k rejected
                    o ("" :: rest) Hrej) as [o1 ->]
    end.
    cbn [update_select input]. destruct (decide ("" = "")) as [_|]; [|done].
    cbn [r_db r_out r_in]. by rewrite last_snoc.
  - match goal with
    | |- context [delete_select _ _ _ _ ?o _] =>
        destruct (delete_select_skip py_int conn st (row0 :: sales') rejected
                    o ("" :: rest) Hrej) as [o1 ->]
    end.
    cbn [delete_select input]. destruct (decide ("" = "")) as [_|]; [|done].
    cbn [r_db r_out r_in]. by rewrite last_snoc.
Qed.

End Cancel.

(** ** The date check *)

(** C6, as the code has it. [sales_record] accepts a date exactly when it
    has ten characters of which exactly two are dashes, wherever the
    dashes stand; neither their positions nor the calendar are checked. *)
Theorem date_accepted_iff_length_and_count (sales_date : string) :
  date_rejected sales_date = false ↔
  String.length sales_date = 10%nat ∧ count "-"%char sales_date = 2%nat.
Proof.
  unfold date_rejected. rewrite orb_false_iff, !negb_false_iff.
  by rewrite !Nat.eqb_eq.
Qed.

(** C6 as stated fails: ten characters with the two dashes at the end are
    accepted, and the characters at indices 4 and 7 are not dashes. *)
Lemma date_accepted_with_misplaced_dashes :
  date_rejected "20240101--" = false ∧ ¬ date_pattern "20240101--".
Proof.
  split; [reflexivity|]. intros (_ & _ & H4 & _). discriminate H4.
Qed.

Lemma date_pattern_accepted (sales_date : string) :
  date_pattern sales_date → date_rejected sales_date = false.
Proof.
  intros (Hlen & Hcount & _). unfold date_rejected.
  by rewrite Hlen, Hcount.
Qed.

(** ** init_db *)

Lemma insert_rows_lookup `{Countable K} {V} (rows : list (K * V)) :
  ∀ (t t' : gmap K V) k v,
    insert_rows rows t = Some t' → t' !! k = Some v →
    t !! k = Some v ∨ (k, v) ∈ rows.
Proof.
  induction rows as [|[k0 v0] rows IH]; intros t t' k v Hins Hk.
  { cbn in Hins. left. by simplify_eq. }
  cbn [insert_rows] in Hins. unfold insert_row in Hins.
  destruct (t !! k0) eqn:Hk0; [done|].
  destruct (IH _ _ _ _ Hins Hk) as [Hold|Hin]; [|right; by right].
  destruct (decide (k0 = k)) as [->|Hne].
  - rewrite lookup_insert_eq in Hold. right. simplify_eq. by left.
  - rewrite lookup_insert_ne in Hold by done. by left.
Qed.

Lemma tables_exist_iff conn :
  table_exists conn "member" && table_exists conn "book"
  && table_exists conn "sale" = true
  ↔ is_Some (member conn) ∧ is_Some (book conn) ∧ is_Some (sale conn).
Proof.
  change (table_exists conn "member")
    with (bool_decide (is_Some (member conn))).
  change (table_exists conn "book") with (bool_decide (is_Some (book conn))).
  change (table_exists conn "sale") with (bool_decide (is_Some (sale conn))).
  rewrite !andb_true_iff, !bool_decide_eq_true. tauto.
Qed.

(** With the three tables in place [init_db] reports so and writes
    nothing. *)
Lemma init_db_tables_exist conn ms bs st ins :
  member conn = Some ms → book conn = Some bs → sale conn = Some st →
  init_db conn ins = Result Returned conn [MsgTablesExist] ins.
Proof.
  intros Hms Hbs Hst. unfold init_db.
  assert (table_exists conn "member" && table_exists conn "book"
          && table_exists conn "sale" = true) as ->; [|done].
  apply tables_exist_iff. rewrite Hms, Hbs, Hst. eauto.
Qed.

(** A run of [init_db] that returns leaves the three tables in place. *)
Lemma init_db_returned conn ins :
  r_outcome (init_db conn ins) = Returned →
  is_Some (member (r_db (init_db conn ins)))
  ∧ is_Some (book (r_db (init_db conn ins)))
  ∧ is_Some (sale (r_db (init_db conn ins))).
Proof.
  unfold init_db.
  destruct (negb _) eqn:Hmissing.
  - destruct (insert_rows seed_members _); [|done].
    destruct (insert_rows seed_books _); [|done].
    destruct (insert_sales seed_sales _); [|done].
    intros _. cbn. eauto.
  - intros _. cbn [r_db]. apply negb_false_iff in Hmissing.
    by apply tables_exist_iff.
Qed.

Lemma init_db_stocks conn ins :
  stocks_non_negative conn → stocks_non_negative (r_db (init_db conn ins)).
Proof.
  intros Hinv. unfold init_db.
  destruct (negb _); [|done].
  assert (stocks_non_negative (create_tables conn)) as Hcreated.
  { intros bs bid b Hbs Hb. cbn in Hbs.
    destruct (book conn) as [bs0|] eqn:Hbook; cbn in Hbs; simplify_eq.
    by eapply Hinv. }
  destruct (insert_rows seed_members _); [|done].
  destruct (insert_rows seed_books _) as [bs'|] eqn:Hins; [|done].
  destruct (insert_sales seed_sales _); [|done].
  intros bs bid b Hbs Hb. cbn in Hbs. simplify_eq.
  destruct (insert_rows_lookup _ _ _ _ _ Hins Hb) as [Hold|Hseed].
  - eapply (Hcreated _ bid b); [reflexivity|done].
  - unfold seed_books in Hseed.
    repeat (apply elem_of_cons in Hseed as [Heq|Hseed];
            [simplify_eq; cbn; lia|]).
    by apply elem_of_nil in Hseed.
Qed.

(** C8. On a database file without tables the first run of [init_db]
    creates and seeds them; a second run finds the three tables and writes
    nothing, so the tables hold the seed rows once: 3 members, 3 books and
    4 sales under the [sid]s 1 to 4.  The same holds after any first run
    that returned: the second run is the identity. *)
Theorem init_db_idempotent :
  (∀ conn ins1 ins2,
     r_outcome (init_db conn ins1) = Returned →
     init_db (r_db (init_db conn ins1)) ins2
     = Result Returned (r_db (init_db conn ins1)) [MsgTablesExist] ins2)
  ∧ (∀ ins1 ins2,
       let first := init_db no_tables ins1 in
       let second := init_db (r_db first) ins2 in
       first = Result Returned seeded [MsgCreatingTables; MsgInitDone] ins1
       ∧ second = Result Returned seeded [MsgTablesExist] ins2
       ∧ member (r_db second) = Some (list_to_map seed_members)
       ∧ book (r_db second) = Some (list_to_map seed_books)
       ∧ sale (r_db second)
         = Some (SaleTable (list_to_map (zip [1; 2; 3; 4] seed_sales)) 4)
       ∧ size <$> member (r_db second) = Some 3%nat
       ∧ size <$> book (r_db second) = Some 3%nat
       ∧ (size ∘ sale_rows) <$> sale (r_db second) = Some 4%nat).
Proof.
  split.
  - intros conn ins1 ins2 Hret.
    destruct (init_db_returned conn ins1 Hret)
      as ([ms Hms] & [bs Hbs] & [st Hst]).
    by eapply init_db_tables_exist.
  - intros ins1 ins2 first second.
    assert (first = Result Returned seeded [MsgCreatingTables; MsgInitDone]
                      ins1) as Hfirst by reflexivity.
    assert (second = Result Returned seeded [MsgTablesExist] ins2)
      as Hsecond by (subst second; by rewrite Hfirst).
    rewrite Hsecond. cbn [r_db].
    repeat split; try done; by vm_compute.
Qed.

(** ** The stock invariant *)

Lemma show_sales_report_db conn ins : r_db (show_sales_report conn ins) = conn.
Proof.
  unfold show_sales_report.
  destruct (sale conn), (member conn), (book conn); try done.
  by destruct (report_sales _ _ _).
Qed.

Lemma decrement_stock_non_negative qty book_id bs b :
  (∀ bid b', bs !! bid = Some b' → 0 ≤ bstock b') →
  bs !! book_id = Some b → qty ≤ bstock b →
  ∀ bid b', decrement_stock qty book_id bs !! bid = Some b' → 0 ≤ bstock b'.
Proof.
  intros Hinv Hb Hle bid b' Hb'.
  destruct (decide (bid = book_id)) as [->|Hne].
  - rewrite (decrement_stock_lookup _ _ _ _ Hb) in Hb'. simplify_eq. cbn. lia.
  - rewrite decrement_stock_other in Hb' by done. by eapply Hinv.
Qed.

Section Invariant.

Variable py_int : string → option Z.

Lemma sales_record_stocks conn ins :
  stocks_non_negative conn →
  stocks_non_negative (r_db (sales_record py_int conn ins)).
Proof.
  intros Hinv. unfold sales_record.
  destruct (sales_record_loop_cases py_int conn (length ins) ins []
              (le_n _))
    as [[_ ->]
       |(ms & bs & st & d & member_id & book_id & b & qty & discount & _
         & Hbs & _ & _ & Hb & _ & Hle & _ & _ & ->)]; [done|].
  intros bs' bid b' Hbs' Hb'. cbn in Hbs'. simplify_eq.
  apply (decrement_stock_non_negative qty book_id bs b) with bid;
    [|exact Hb|exact Hle|exact Hb'].
  intros bid0 b0. by apply Hinv.
Qed.

Lemma update_sales_record_book conn ins :
  book (r_db (update_sales_record py_int conn ins)) = book conn.
Proof.
  destruct (update_sales_record_cases py_int conn ins)
    as [[-> _]
       |(ms & bs & st & choice & n & row & s & b & nd & _ & Hbs & _ & _ & _
         & _ & _ & _ & _ & _ & _ & ->)]; [done|].
  by rewrite Hbs.
Qed.

Lemma delete_sales_record_cases conn ins :
  let r := delete_sales_record py_int conn ins in
  r_db r = conn
  ∨ ∃ st sid, sale conn = Some st
              ∧ r_db r = Db (member conn) (book conn)
                           (Some (delete_sale sid st)).
Proof.
  unfold delete_sales_record.
  destruct (sale conn) as [st|] eqn:Hst; [|by left].
  destruct (member conn) as [ms|] eqn:Hms; [|by left].
  destruct (list_sales ms st) as [|row0 sales']; [by left|].
  match goal with
  | |- context [delete_select _ _ _ ?l ?o _] =>
      destruct (delete_select_cases py_int conn st l ins o)
        as [[_ ->]|(choice & n & row & _ & _ & _ & _ & _ & -> & _)]
  end; [by left|].
  right. exists st, (l_sid row). by rewrite Hms.
Qed.

Lemma delete_sales_record_book conn ins :
  book (r_db (delete_sales_record py_int conn ins)) = book conn.
Proof.
  destruct (delete_sales_record_cases conn ins)
    as [->|(st & sid & _ & ->)]; done.
Qed.

(** C7. From a database in which every stock is non-negative, each of
    [init_db], [sales_record], [show_sales_report], [update_sales_record]
    and [delete_sales_record] leaves, on every input and however it ends, a
    database in which every stock is non-negative. *)
Theorem stock_stays_non_negative conn ins :
  stocks_non_negative conn →
  stocks_non_negative (r_db (init_db conn ins))
  ∧ stocks_non_negative (r_db (sales_record py_int conn ins))
  ∧ stocks_non_negative (r_db (show_sales_report conn ins))
  ∧ stocks_non_negative (r_db (update_sales_record py_int conn ins))
  ∧ stocks_non_negative (r_db (delete_sales_record py_int conn ins)).
Proof.
  intros Hinv. split; [by apply init_db_stocks|].
  split; [by apply sales_record_stocks|].
  split; [by rewrite show_sales_report_db|].
  split; intros bs bid b Hbs Hb.
  - rewrite update_sales_record_book in Hbs. by eapply Hinv.
  - rewrite delete_sales_record_book in Hbs. by eapply Hinv.
Qed.

End Invariant.

(** ** References

    The sales engine keeps every sale pointing at a member and a book that
    exist: [sales_record] only stores ids it has just looked up, and
    nothing removes a member or a book. *)

Lemma decrement_stock_is_Some qty book_id bs bid :
  is_Some (bs !! bid) → is_Some (decrement_stock qty book_id bs !! bid).
Proof.
  intros [b Hb]. destruct (decide (bid = book_id)) as [->|Hne].
  - rewrite (decrement_stock_lookup _ _ _ _ Hb). by eexists.
  - rewrite decrement_stock_other by done. by exists b.
Qed.

Section References.

Variable py_int : string → option Z.

Lemma sales_record_references conn ins :
  references_resolve conn →
  references_resolve (r_db (sales_record py_int conn ins)).
Proof.
  intros Hinv. unfold sales_record.
  destruct (sales_record_loop_cases py_int conn (length ins) ins []
              (le_n _))
    as [[_ ->]
       |(ms & bs & st & d & member_id & book_id & b & qty & discount & Hms
         & Hbs & Hst & Hm & Hb & _ & _ & _ & _ & ->)]; [done|].
  intros ms' bs' st' sid s Hms' Hbs' Hst' Hs. cbn in Hms', Hbs', Hst'.
  simplify_eq. cbn [insert_sale sale_rows] in Hs.
  destruct (decide (sid = next_sid st)) as [->|Hne].
  - rewrite lookup_insert_eq in Hs. simplify_eq. cbn.
    split; [done|]. apply decrement_stock_is_Some. by exists b.
  - rewrite lookup_insert_ne in Hs by done.
    destruct (Hinv _ _ _ sid s Hms Hbs Hst Hs) as [Hmem Hbook].
    split; [done|]. by apply decrement_stock_is_Some.
Qed.

Lemma update_sales_record_references conn ins :
  references_resolve conn →
  references_resolve (r_db (update_sales_record py_int conn ins)).
Proof.
  intros Hinv.
  destruct (update_sales_record_cases py_int conn ins)
    as [[-> _]
       |(ms & bs & st & choice & n & row & s0 & b & nd & Hms & Hbs & Hst & _
         & _ & _ & _ & Hs0 & _ & _ & _ & ->)]; [done|].
  intros ms' bs' st' sid s Hms' Hbs' Hst' Hs. cbn in Hms', Hbs', Hst'.
  simplify_eq.
  destruct (decide (sid = l_sid row)) as [->|Hne].
  - rewrite (set_discount_lookup _ _ _ _ _ Hs0) in Hs. simplify_eq. cbn.
    by apply (Hinv _ _ _ (l_sid row) s0 Hms Hbs Hst).
  - rewrite set_discount_other in Hs by done.
    by apply (Hinv _ _ _ sid s Hms Hbs Hst).
Qed.

Lemma delete_sales_record_references conn ins :
  references_resolve conn →
  references_resolve (r_db (delete_sales_record py_int conn ins)).
Proof.
  intros Hinv.
  destruct (delete_sales_record_cases py_int conn ins)
    as [->|(st & gone & Hst & ->)]; [done|].
  intros ms' bs' st' sid s Hms' Hbs' Hst' Hs. cbn in Hms', Hbs', Hst'.
  simplify_eq. cbn [delete_sale sale_rows] in Hs.
  apply lookup_delete_Some in Hs as [_ Hs].
  by apply (Hinv _ _ _ sid s Hms' Hbs' Hst).
Qed.

Lemma show_sales_report_references conn ins :
  references_resolve conn →
  references_resolve (r_db (show_sales_report conn ins)).
Proof. by rewrite show_sales_report_db. Qed.

End References.

(** ** Listings and the empty ledger *)

Section Listings.

Variable py_int : string → option Z.

(** C9. The listing behind the report and the one behind the menus of
    update and delete are the sales joined with their member (and book),
    in strictly ascending [sid]; the report prints the rows in that order;
    and with no sale in the table the report, update and delete each print
    their no-records notice and return, the database untouched. *)
Theorem listings_ascend_and_empty_is_no_error conn ms bs st ins :
  member conn = Some ms → book conn = Some bs → sale conn = Some st →
  StronglySorted (λ a b, l_sid a < l_sid b) (list_sales ms st)
  ∧ (∀ row, row ∈ list_sales ms st ↔
       ∃ s m, sale_rows st !! l_sid row = Some s ∧ ms !! smid s = Some m
              ∧ row = ListRow (l_sid row) (sdate s) (mname m))
  ∧ StronglySorted (λ a b, p_sid a < p_sid b) (report_sales ms bs st)
  ∧ (∀ row, row ∈ report_sales ms bs st ↔
       ∃ s m b, sale_rows st !! p_sid row = Some s ∧ ms !! smid s = Some m
                ∧ bs !! sbid s = Some b
                ∧ row = ReportRow (p_sid row) (sdate s) (mname m) (btitle b)
                          (bprice b) (sqty s) (sdiscount s) (stotal s))
  ∧ (report_sales ms bs st ≠ [] →
     show_sales_report conn ins
     = Result Returned conn
         (ReportHeader :: map print_sale (report_sales ms bs st)) ins)
  ∧ (sale_rows st = ∅ →
     show_sales_report conn ins = Result Returned conn [MsgNoSaleRows] ins
     ∧ update_sales_record py_int conn ins
       = Result Returned conn [MsgNoSales] ins
     ∧ delete_sales_record py_int conn ins
       = Result Returned conn [MsgNoSales] ins).
Proof.
  intros Hms Hbs Hst.
  split; [apply list_sales_strict|].
  split; [apply elem_of_list_sales|].
  split; [apply report_sales_strict|].
  split; [apply elem_of_report_sales|].
  split.
  - intros Hne. unfold show_sales_report. rewrite Hst, Hms, Hbs.
    by destruct (report_sales ms bs st).
  - intros Hempty.
    assert (list_sales ms st = []) as Hlist.
    { unfold list_sales. by rewrite Hempty, map_to_list_empty. }
    assert (report_sales ms bs st = []) as Hreport.
    { unfold report_sales. by rewrite Hempty, map_to_list_empty. }
    unfold show_sales_report, update_sales_record, delete_sales_record.
    by rewrite Hst, Hms, Hbs, Hlist, Hreport.
Qed.

End Listings.

(** * Further properties *)

(** ** How the functions end and what they read *)

(** [r] ended a run on the lines [ins]: it left no more lines than it was
    given and, the tables being there, it ended in one of the expected
    ways, or by the OperationalError of an INSERT that found no [sid]
    left. *)
Definition well_ended (tables : Prop) (ins : list string) (r : result)
  : Prop :=
  (length (r_in r) ≤ length ins)%nat
  ∧ (tables →
     ends_as_expected (r_outcome r)
     ∨ (r_outcome r = Raised OperationalError ∧ sids_exhausted (r_db r))).

Lemma well_ended_cons tables line ins r :
  well_ended tables ins r → well_ended tables (line :: ins) r.
Proof. intros [Hlen Hend]. split; [cbn; lia|done]. Qed.

Lemma well_ended_expected tables ins r :
  (length (r_in r) ≤ length ins)%nat → ends_as_expected (r_outcome r) →
  well_ended tables ins r.
Proof. intros Hlen Hend. split; [done|]. intros _. by left. Qed.

Lemma well_ended_eof tables ins conn out :
  well_ended tables ins (Result (Raised EOFError) conn out []).
Proof. apply well_ended_expected; [cbn; lia|]. right. by left. Qed.

Ltac expected :=
  apply well_ended_expected; [cbn; lia|unfold ends_as_expected; auto].

Section Endings.

Variable py_int : string → option Z.

Lemma sales_record_loop_well_ended conn n : ∀ ins out,
  (length ins ≤ n)%nat →
  well_ended (tables_present conn) ins
    (sales_record_loop py_int conn out ins).
Proof.
  induction n as [|n IH]; intros ins out Hlen.
  { destruct ins; [apply well_ended_eof|simpl in Hlen; lia]. }
  assert (∀ ins' out', (length ins' ≤ length ins)%nat →
            (length ins' ≤ n)%nat →
            well_ended (tables_present conn) ins
              (sales_record_loop py_int conn out' ins')) as Hnext.
  { intros ins' out' Hshort Hn. destruct (IH ins' out' Hn) as [Hl He].
    split; [lia|done]. }
  assert (∀ e out' ins', ¬ tables_present conn →
            (length ins' ≤ length ins)%nat →
            well_ended (tables_present conn) ins
              (Result (Raised e) conn out' ins')) as Hmissing.
  { intros e out' ins' Hno Hshort. split; [done|]. intros Htabs.
    by destruct Hno. }
  destruct ins as [|d ins]; [apply well_ended_eof|].
  cbn [sales_record_loop input]. simpl in Hlen, Hnext, Hmissing.
  destruct (date_rejected d); [apply Hnext; lia|].
  destruct ins as [|m ins]; [apply well_ended_eof|].
  destruct ins as [|b ins]; [apply well_ended_eof|].
  cbn [input]. simpl in Hlen, Hnext, Hmissing.
  destruct (member conn) as [ms|] eqn:Hms.
  2:{ apply Hmissing; [|lia]. intros ([? ?] & _). congruence. }
  destruct (ms !! m) as [mr|]; [|apply Hnext; lia].
  destruct (book conn) as [bs|] eqn:Hbs.
  2:{ apply Hmissing; [|lia]. intros (_ & [? ?] & _). congruence. }
  destruct (bs !! b) as [br|]; [|apply Hnext; lia].
  destruct ins as [|q ins]; [apply well_ended_eof|].
  cbn [input]. simpl in Hlen, Hnext, Hmissing.
  destruct (read_qty py_int q) as [qty|]; [|apply Hnext; lia].
  destruct ins as [|dl ins]; [apply well_ended_eof|].
  cbn [input]. simpl in Hlen, Hnext, Hmissing.
  destruct (read_discount py_int dl) as [discount|]; [|apply Hnext; lia].
  destruct (qty >? bstock br); [apply Hnext; lia|].
  destruct (sale conn) as [st|] eqn:Hst.
  2:{ apply Hmissing; [|lia]. intros (_ & _ & [? ?]). congruence. }
  destruct (negb _); [expected|].
  unfold insert_sale_checked.
  destruct (Z.leb_spec (next_sid st) max_int64) as [|Hfull]; [expected|].
  split; [cbn; lia|]. intros _. right. split; [done|]. by exists st.
Qed.

Lemma sales_record_well_ended conn ins :
  well_ended (tables_present conn) ins (sales_record py_int conn ins).
Proof. by apply (sales_record_loop_well_ended conn (length ins)). Qed.

Lemma show_sales_report_well_ended conn ins :
  well_ended (tables_present conn) ins (show_sales_report conn ins).
Proof.
  unfold show_sales_report.
  destruct (sale conn) as [st|] eqn:Hst.
  2:{ split; [done|]. intros (_ & _ & [? ?]). congruence. }
  destruct (member conn) as [ms|] eqn:Hms.
  2:{ split; [done|]. intros ([? ?] & _). congruence. }
  destruct (book conn) as [bs|] eqn:Hbs.
  2:{ split; [done|]. intros (_ & [? ?] & _). congruence. }
  destruct (report_sales ms bs st); expected.
Qed.

(** Past the range check the chosen position is in the listing: the
    lookup that follows never fails. *)
Lemma index_in_range {A} (n : Z) (l : list A) :
  (n - 1 <? 0) || (n - 1 >=? Z.of_nat (length l)) = false →
  is_Some (l !! Z.to_nat (n - 1)).
Proof.
  intros H. apply orb_false_iff in H as [Hlo Hhi].
  apply Z.ltb_ge in Hlo. rewrite Z.geb_leb, Z.leb_gt in Hhi.
  apply lookup_lt_is_Some. lia.
Qed.

Lemma position_in_range {A} (n : Z) (l : list A) :
  (n <? 1) || (n >? Z.of_nat (length l)) = false →
  is_Some (l !! Z.to_nat (n - 1)).
Proof.
  intros H. apply orb_false_iff in H as [Hlo Hhi].
  apply Z.ltb_ge in Hlo. rewrite Z.gtb_ltb, Z.ltb_ge in Hhi.
  apply lookup_lt_is_Some. lia.
Qed.

Lemma update_select_well_ended tables conn sales k :
  (∀ sid out ins, well_ended tables ins (k sid out ins)) →
  ∀ ins out, well_ended tables ins (update_select py_int conn sales k out ins).
Proof.
  intros Hk. induction ins as [|line ins IH]; intros out;
    [apply well_ended_eof|].
  cbn [update_select input].
  destruct (decide (line = "")) as [|_]; [expected|].
  destruct (py_int line) as [n|]; [|apply well_ended_cons, IH].
  destruct ((n - 1 <? 0) || (n - 1 >=? Z.of_nat (length sales))) eqn:Hidx;
    [apply well_ended_cons, IH|].
  destruct (index_in_range _ _ Hidx) as [row ->].
  apply well_ended_cons, Hk.
Qed.

Lemma update_discount_well_ended tables conn k :
  (∀ d out ins, well_ended tables ins (k d out ins)) →
  ∀ ins out, well_ended tables ins (update_discount py_int conn k out ins).
Proof.
  intros Hk. induction ins as [|line ins IH]; intros out;
    [apply well_ended_eof|].
  cbn [update_discount input].
  destruct (py_int line) as [d|]; [|apply well_ended_cons, IH].
  destruct (d <? 0); [apply well_ended_cons, IH|apply well_ended_cons, Hk].
Qed.

Lemma update_sales_record_well_ended conn ins :
  well_ended (tables_present conn) ins (update_sales_record py_int conn ins).
Proof.
  unfold update_sales_record.
  destruct (sale conn) as [st|] eqn:Hst.
  2:{ split; [done|]. intros (_ & _ & [? ?]). congruence. }
  destruct (member conn) as [ms|] eqn:Hms.
  2:{ split; [done|]. intros ([? ?] & _). congruence. }
  destruct (list_sales ms st) as [|row0 sales']; [expected|].
  apply update_select_well_ended. intros sid out1 ins1.
  destruct (book conn) as [bs|] eqn:Hbs.
  2:{ split; [done|]. intros (_ & [? ?] & _). congruence. }
  destruct (sale_book_data bs st sid) as [[[bprice sqty] old]|]; [|expected].
  apply update_discount_well_ended. intros d out2 ins2.
  cbv zeta. destruct (negb _); expected.
Qed.

Lemma delete_select_well_ended tables conn st sales : ∀ ins out,
  well_ended tables ins (delete_select py_int conn st sales out ins).
Proof.
  induction ins as [|line ins IH]; intros out; [apply well_ended_eof|].
  cbn [delete_select input].
  destruct (decide (line = "")) as [|_]; [expected|].
  destruct (py_int line) as [n|]; [|apply well_ended_cons, IH].
  destruct ((n <? 1) || (n >? Z.of_nat (length sales))) eqn:Hidx;
    [apply well_ended_cons, IH|].
  destruct (position_in_range _ _ Hidx) as [row ->].
  expected.
Qed.

Lemma delete_sales_record_well_ended conn ins :
  well_ended (tables_present conn) ins (delete_sales_record py_int conn ins).
Proof.
  unfold delete_sales_record.
  destruct (sale conn) as [st|] eqn:Hst.
  2:{ split; [done|]. intros (_ & _ & [? ?]). congruence. }
  destruct (member conn) as [ms|] eqn:Hms.
  2:{ split; [done|]. intros ([? ?] & _). congruence. }
  destruct (list_sales ms st) as [|row0 sales']; [expected|].
  apply delete_select_well_ended.
Qed.

End Endings.

(** ** What the engine keeps *)

Lemma decrement_stock_price qty book_id bs bid b' :
  decrement_stock qty book_id bs !! bid = Some b' →
  ∃ b, bs !! bid = Some b ∧ bprice b' = bprice b.
Proof.
  intros Hb'. destruct (decide (bid = book_id)) as [->|Hne].
  - destruct (bs !! book_id) as [b|] eqn:Hb.
    + rewrite (decrement_stock_lookup _ _ _ _ Hb) in Hb'. simplify_eq.
      by exists b.
    + unfold decrement_stock in Hb'. by rewrite lookup_alter_eq, Hb in Hb'.
  - rewrite decrement_stock_other in Hb' by done. by exists b'.
Qed.

Lemma next_sid_above (st : sale_table) (sid : Z) :
  is_Some (sale_rows st !! sid) → sid < next_sid st.
Proof.
  intros Hs. unfold next_sid.
  pose proof (map_fold_max_ge (sale_rows st) (sale_seq st) sid Hs). lia.
Qed.

Lemma next_sid_above_seq (st : sale_table) : sale_seq st < next_sid st.
Proof.
  unfold next_sid.
  assert (sale_seq st
          ≤ map_fold (λ k _ acc, Z.max k acc) (sale_seq st) (sale_rows st));
    [|lia].
  apply (map_fold_weak_ind
           (λ b (m : gmap Z sale_row), sale_seq st ≤ b)); [lia|].
  intros i x m r _ IH. lia.
Qed.

Section Kept.

Variable py_int : string → option Z.

Lemma sales_record_ledger conn ins :
  ledger_ok conn → ledger_ok (r_db (sales_record py_int conn ins)).
Proof.
  intros (Htabs & Hstock & Hrefs & Htot & Hseq).
  pose proof (sales_record_stocks py_int conn ins Hstock) as Hstock'.
  pose proof (sales_record_references py_int conn ins Hrefs) as Hrefs'.
  revert Hstock' Hrefs'. unfold sales_record.
  destruct (sales_record_loop_cases py_int conn (length ins) ins []
              (le_n _))
    as [[_ ->]
       |(ms & bs & st & d & member_id & book_id & b & qty & discount & Hms
         & Hbs & Hst & Hm & Hb & _ & _ & _ & _ & ->)]; [done|].
  intros Hstock' Hrefs'.
  split; [cbn; repeat split; by eexists|].
  split; [done|]. split; [done|]. split.
  - intros bs' st' sid s b' Hbs' Hst' Hs Hb'. cbn in Hbs', Hst'.
    simplify_eq. cbn [insert_sale sale_rows] in Hs.
    destruct (decrement_stock_price _ _ _ _ _ Hb') as (b0 & Hb0 & ->).
    destruct (decide (sid = next_sid st)) as [->|Hne].
    + rewrite lookup_insert_eq in Hs. simplify_eq. cbn in *. by simplify_eq.
    + rewrite lookup_insert_ne in Hs by done.
      by apply (Htot bs st sid s b0).
  - intros st' sid Hst' Hs. cbn in Hst'. simplify_eq.
    cbn [insert_sale sale_rows sale_seq] in *.
    destruct (decide (sid = next_sid st)) as [->|Hne]; [lia|].
    rewrite lookup_insert_ne in Hs by done.
    pose proof (next_sid_above st sid Hs). lia.
Qed.

Lemma update_sales_record_ledger conn ins :
  ledger_ok conn → ledger_ok (r_db (update_sales_record py_int conn ins)).
Proof.
  intros (Htabs & Hstock & Hrefs & Htot & Hseq).
  pose proof (update_sales_record_references py_int conn ins Hrefs) as Hrefs'.
  pose proof (update_sales_record_book py_int conn ins) as Hbook.
  revert Hrefs' Hbook.
  destruct (update_sales_record_cases py_int conn ins)
    as [[-> _]
       |(ms & bs & st & choice & n & row & s0 & b & nd & Hms & Hbs & Hst & _
         & _ & _ & _ & Hs0 & Hb & _ & _ & ->)]; [done|].
  intros Hrefs' _.
  split; [cbn; repeat split; by eexists|]. split.
  { intros bs' bid b' Hbs' Hb'. cbn in Hbs'. simplify_eq.
    by apply (Hstock bs' bid b'). }
  split; [done|]. split.
  - intros bs' st' sid s b' Hbs' Hst' Hs Hb'. cbn in Hbs', Hst'.
    simplify_eq.
    destruct (decide (sid = l_sid row)) as [->|Hne].
    + rewrite (set_discount_lookup _ _ _ _ _ Hs0) in Hs. simplify_eq.
      cbn in *. by simplify_eq.
    + rewrite set_discount_other in Hs by done.
      by apply (Htot bs' st sid s b').
  - intros st' sid Hst' Hs. cbn in Hst'. simplify_eq.
    cbn [set_discount sale_seq].
    apply (Hseq st sid Hst).
    destruct (decide (sid = l_sid row)) as [->|Hne]; [by eexists|].
    by rewrite set_discount_other in Hs.
Qed.

Lemma delete_sales_record_ledger conn ins :
  ledger_ok conn → ledger_ok (r_db (delete_sales_record py_int conn ins)).
Proof.
  intros (Htabs & Hstock & Hrefs & Htot & Hseq).
  pose proof (delete_sales_record_references py_int conn ins Hrefs) as Hrefs'.
  revert Hrefs'.
  destruct (delete_sales_record_cases py_int conn ins)
    as [->|(st & gone & Hst & ->)]; [done|].
  intros Hrefs'. destruct Htabs as (Hm & Hb & _).
  split; [cbn; repeat split; [done|done|by eexists]|].
  split; [done|]. split; [done|]. split.
  - intros bs' st' sid s b' Hbs' Hst' Hs Hb'. cbn in Hbs', Hst'.
    simplify_eq. cbn [delete_sale sale_rows] in Hs.
    apply lookup_delete_Some in Hs as [_ Hs].
    by apply (Htot bs' st sid s b').
  - intros st' sid Hst' [s Hs]. cbn in Hst'. simplify_eq.
    cbn [delete_sale sale_rows sale_seq] in *.
    apply lookup_delete_Some in Hs as [_ Hs].
    apply (Hseq st sid Hst). by exists s.
Qed.

Lemma show_sales_report_ledger conn ins :
  ledger_ok conn → ledger_ok (r_db (show_sales_report conn ins)).
Proof. by rewrite show_sales_report_db. Qed.

End Kept.

(** * The theorems at work on the seed data *)

Lemma seeded_tables :
  seeded = Db (Some seeded_members) (Some seeded_books) (Some seeded_sales).
Proof. by vm_compute. Qed.

(** The second end-to-end scenario of the specification, as a failed pass:
    999 copies of B002, which has 30. *)
Lemma order_exceeds_stock :
  attempt_fails decimal seeded
    ["2024-02-01"; "M001"; "B002"; "999"; "0"] (ErrStock 30).
Proof.
  apply (fails_stock decimal seeded "2024-02-01" "M001" "B002" "999" "0"
           seeded_members seeded_books (BookRow "Data Science Basics" 800 30)
           999 0); try reflexivity; try lia.
  by eexists.
Defined.

(** C1 at work: after the failed pass above, the first end-to-end scenario
    of the specification: 5 copies of B001 at 600 with discount 50. *)
Lemma sales_record_scenario :
  let r := sales_record decimal seeded
             (["2024-02-01"; "M001"; "B002"; "999"; "0"]
              ++ ["2024-02-01"; "M001"; "B001"; "5"; "50"] ++ []) in
  r_outcome r = Returned
  ∧ r_out r = [ErrStock 30] ++ [MsgSaleAdded 2950]
  ∧ r_in r = []
  ∧ member (r_db r) = Some seeded_members
  ∧ sale_rows seeded_sales !! 5 = None
  ∧ sale (r_db r)
    = Some (SaleTable
              (<[5 := SaleRow "2024-02-01" "M001" "B001" 5 50 2950]>
                 (sale_rows seeded_sales)) 5)
  ∧ book (r_db r)
    = Some (<["B001" := BookRow "Python Programming" 600 45]> seeded_books).
Proof.
  apply (sales_record_inserts_and_decrements decimal seeded
           seeded_members seeded_books seeded_sales
           (BookRow "Python Programming" 600 50)
           ["2024-02-01"; "M001"; "B002"; "999"; "0"] [ErrStock 30]
           "2024-02-01" "M001" "B001" "5" "50" 5 50 []);
    try reflexivity; try (cbn; lia); try (by vm_compute).
  - apply (attempts_cons decimal seeded
             ["2024-02-01"; "M001"; "B002"; "999"; "0"] (ErrStock 30) [] []
             order_exceeds_stock (attempts_nil decimal seeded)).
  - by eexists.
Defined.

(** C2 at work: the order for 999 copies of B002 leaves [seeded] as it
    was. *)
Lemma failed_order_leaves_seeded :
  sales_record_loop decimal seeded []
    (["2024-02-01"; "M001"; "B002"; "999"; "0"] ++ ["2024-02-02"])
  = sales_record_loop decimal seeded ([] ++ [ErrStock 30]) ["2024-02-02"]
  ∧ sales_record_loop decimal seeded []
      ["2024-02-01"; "M001"; "B002"; "999"; "0"]
    = Result (Raised EOFError) seeded ([] ++ [ErrStock 30]) [].
Proof.
  apply (sales_record_failure_writes_nothing decimal seeded
           ["2024-02-01"; "M001"; "B002"; "999"; "0"] (ErrStock 30) []
           ["2024-02-02"] order_exceeds_stock).
Defined.

(** C1 as stated fails: on [seeded], one copy of B001 with a discount of
    2^63 clears every check of [sales_record], and the INSERT raises
    OverflowError: the function does not return, no sale is inserted and
    no stock is lowered.  So does a discount of 0 once AUTOINCREMENT has
    handed out its largest [sid]: the INSERT raises OperationalError. *)
Lemma sale_beyond_64_bits :
  date_rejected "2024-02-01" = false
  ∧ is_Some (seeded_members !! "M001")
  ∧ seeded_books !! "B001" = Some (BookRow "Python Programming" 600 50)
  ∧ decimal "1" = Some 1 ∧ 0 < 1 ∧ 1 ≤ 50
  ∧ decimal "9223372036854775808" = Some (2 ^ 63) ∧ 0 ≤ 2 ^ 63
  ∧ decimal "0" = Some 0
  ∧ sales_record decimal seeded
      ["2024-02-01"; "M001"; "B001"; "1"; "9223372036854775808"]
    = Result (Raised OverflowError) seeded [] []
  ∧ sales_record decimal last_sid_used
      ["2024-02-01"; "M001"; "B001"; "1"; "0"]
    = Result (Raised OperationalError) last_sid_used [] [].
Proof.
  split; [reflexivity|]. split; [by eexists|].
  repeat split; by vm_compute.
Qed.

Lemma zero_is_no_position (n_sales : nat) :
  choice_rejected decimal n_sales "0".
Proof.
  split; [done|]. intros n Hn. vm_compute in Hn.
  injection Hn as <-. left. lia.
Defined.

Lemma nine_is_beyond_four : choice_rejected decimal 4 "9".
Proof.
  split; [done|]. intros n Hn. vm_compute in Hn.
  injection Hn as <-. right. lia.
Defined.

Lemma minus_five_is_no_discount : discount_rejected decimal "-5".
Proof. intros d Hd. vm_compute in Hd. injection Hd as <-. lia. Defined.

(** C3 at work: sale 1 (2 copies of B001, total 1100 stored at price 600)
    gets discount 100 after the price went to 700: the new total is
    700 * 2 - 100 = 1300. *)
Lemma update_after_price_change :
  let r := update_sales_record decimal repriced
             (["0"] ++ "1" :: ["-5"] ++ "100" :: []) in
  r_outcome r = Returned
  ∧ r_in r = []
  ∧ last (r_out r) = Some (MsgUpdated 1 1300)
  ∧ ∃ st', sale (r_db r) = Some st'
           ∧ sale_rows st' !! 1
             = Some (SaleRow "2024-01-15" "M001" "B001" 2 100 1300).
Proof.
  apply (update_total_uses_current_price decimal repriced
           seeded_members
           (<["B001" := BookRow "Python Programming" 700 50]> seeded_books)
           seeded_sales ["0"] "1" 1 (ListRow 1 "2024-01-15" "Alice")
           (SaleRow "2024-01-15" "M001" "B001" 2 100 1100)
           (BookRow "Python Programming" 700 50) ["-5"] "100" 100 []);
    try reflexivity; try done.
  - apply Forall_cons. split; [apply zero_is_no_position|apply Forall_nil_2].
  - apply Forall_cons.
    split; [apply minus_five_is_no_discount|apply Forall_nil_2].
Defined.

(** C3 as stated fails: on [seeded], sale 1 is selected and a discount of
    2^63 entered, which is not negative; the UPDATE raises OverflowError,
    the function does not return, and sale 1 keeps its discount of 100 and
    its total of 1100. *)
Lemma update_with_discount_beyond_64_bits :
  list_sales seeded_members seeded_sales !! Z.to_nat (1 - 1)
  = Some (ListRow 1 "2024-01-15" "Alice")
  ∧ decimal "1" = Some 1
  ∧ decimal "9223372036854775808" = Some (2 ^ 63) ∧ 0 ≤ 2 ^ 63
  ∧ update_sales_record decimal seeded ["1"; "9223372036854775808"]
    = Result (Raised OverflowError) seeded
        (print_list (list_sales seeded_members seeded_sales)
         ++ [MsgCurrentDiscount 100]) []
  ∧ (sale seeded ≫= λ st, sale_rows st !! 1)
    = Some (SaleRow "2024-01-15" "M001" "B001" 2 100 1100).
Proof. repeat split; by vm_compute. Qed.

(** C4 at work: on [seeded], position 9 is refused and position 3 deletes
    sale 3, leaving the line after it unread; B003, of which it sold 3
    copies, keeps its stock of 20. *)
Lemma delete_third_sale :
  let r := delete_sales_record decimal seeded (["9"] ++ "3" :: ["1"]) in
  r_outcome r = Returned
  ∧ r_in r = ["1"]
  ∧ last (r_out r) = Some (MsgDeleted 3)
  ∧ member (r_db r) = member seeded
  ∧ book (r_db r) = book seeded
  ∧ ∃ sold st',
      sale_rows seeded_sales !! 3 = Some sold
      ∧ sale (r_db r) = Some st'
      ∧ sale_rows st' = delete 3 (sale_rows seeded_sales)
      ∧ sale_seq st' = sale_seq seeded_sales
      ∧ sale_rows st' !! 3 = None
      ∧ (∀ other, other ≠ 3 →
           sale_rows st' !! other = sale_rows seeded_sales !! other)
      ∧ S (size (sale_rows st')) = size (sale_rows seeded_sales)
      ∧ S (length (list_sales seeded_members st'))
        = length (list_sales seeded_members seeded_sales)
      ∧ (∀ bs, book seeded = Some bs → is_Some (bs !! sbid sold) →
           S (length (report_sales seeded_members bs st'))
           = length (report_sales seeded_members bs seeded_sales)).
Proof.
  apply (delete_removes_only_selected decimal seeded seeded_members
           seeded_sales ["9"] "3" 3 (ListRow 3 "2024-01-17" "Alice") ["1"]);
    try reflexivity; try done.
  apply Forall_cons. split; [apply nine_is_beyond_four|apply Forall_nil_2].
Defined.

(** C5 at work: on [seeded], sale 2 gets discount 10. *)
Lemma update_second_sale :
  let r := update_sales_record decimal seeded ["2"; "10"] in
  ∃ row s new_discount new_total st',
    row ∈ list_sales seeded_members seeded_sales
    ∧ sale_rows seeded_sales !! l_sid row = Some s
    ∧ sale (r_db r) = Some st'
    ∧ sale_rows st' !! l_sid row
      = Some (SaleRow (sdate s) (smid s) (sbid s) (sqty s)
                new_discount new_total)
    ∧ (∀ other, other ≠ l_sid row →
         sale_rows st' !! other = sale_rows seeded_sales !! other)
    ∧ sale_seq st' = sale_seq seeded_sales
    ∧ member (r_db r) = member seeded
    ∧ book (r_db r) = book seeded.
Proof.
  apply (update_changes_only_discount_and_total decimal seeded
           seeded_members seeded_sales ["2"; "10"]); try reflexivity.
  by vm_compute.
Defined.

Lemma seeded_references : references_resolve seeded.
Proof.
  rewrite seeded_tables. intros ms bs st sid s Hms Hbs Hst Hs.
  cbn in Hms, Hbs, Hst. simplify_eq.
  apply elem_of_map_to_list in Hs.
  set (l := map_to_list _) in Hs. vm_compute in l. subst l.
  repeat (apply elem_of_cons in Hs as [Heq|Hs];
          [simplify_eq; split; by eexists|]).
  by apply elem_of_nil in Hs.
Qed.

Lemma seeded_stocks : stocks_non_negative seeded.
Proof.
  apply (init_db_stocks no_tables []). intros bs bid b Hbs. discriminate Hbs.
Defined.

(** C7 at work: selling all 50 copies of B001 on [seeded]. *)
Lemma stock_on_seeded :
  let ins := ["2024-02-01"; "M001"; "B001"; "50"; "0"] in
  stocks_non_negative (r_db (init_db seeded ins))
  ∧ stocks_non_negative (r_db (sales_record decimal seeded ins))
  ∧ stocks_non_negative (r_db (show_sales_report seeded ins))
  ∧ stocks_non_negative (r_db (update_sales_record decimal seeded ins))
  ∧ stocks_non_negative (r_db (delete_sales_record decimal seeded ins)).
Proof.
  apply (stock_stays_non_negative decimal seeded
           ["2024-02-01"; "M001"; "B001"; "50"; "0"] seeded_stocks).
Defined.

(** C9 at work: the ledger without sales. *)
Lemma empty_ledger_notices :
  StronglySorted (λ a b, l_sid a < l_sid b)
    (list_sales seeded_members (SaleTable ∅ 0))
  ∧ (∀ row, row ∈ list_sales seeded_members (SaleTable ∅ 0) ↔
       ∃ s m, sale_rows (SaleTable ∅ 0) !! l_sid row = Some s
              ∧ seeded_members !! smid s = Some m
              ∧ row = ListRow (l_sid row) (sdate s) (mname m))
  ∧ StronglySorted (λ a b, p_sid a < p_sid b)
      (report_sales seeded_members seeded_books (SaleTable ∅ 0))
  ∧ (∀ row, row ∈ report_sales seeded_members seeded_books (SaleTable ∅ 0) ↔
       ∃ s m b, sale_rows (SaleTable ∅ 0) !! p_sid row = Some s
                ∧ seeded_members !! smid s = Some m
                ∧ seeded_books !! sbid s = Some b
                ∧ row = ReportRow (p_sid row) (sdate s) (mname m) (btitle b)
                          (bprice b) (sqty s) (sdiscount s) (stotal s))
  ∧ (report_sales seeded_members seeded_books (SaleTable ∅ 0) ≠ [] →
     show_sales_report empty_ledger []
     = Result Returned empty_ledger
         (ReportHeader
          :: map print_sale
               (report_sales seeded_members seeded_books (SaleTable ∅ 0)))
         [])
  ∧ (sale_rows (SaleTable ∅ 0) = ∅ →
     show_sales_report empty_ledger []
     = Result Returned empty_ledger [MsgNoSaleRows] []
     ∧ update_sales_record decimal empty_ledger []
       = Result Returned empty_ledger [MsgNoSales] []
     ∧ delete_sales_record decimal empty_ledger []
       = Result Returned empty_ledger [MsgNoSales] []).
Proof.
  apply (listings_ascend_and_empty_is_no_error decimal empty_ledger
           seeded_members seeded_books (SaleTable ∅ 0) []); reflexivity.
Defined.

(** C10 at work: on [seeded], position 9 is refused and the empty line
    then cancels, for update and for delete. *)
Lemma cancel_on_seeded :
  let u := update_sales_record decimal seeded (["9"] ++ "" :: ["1"]) in
  let d := delete_sales_record decimal seeded (["9"] ++ "" :: ["1"]) in
  (r_db u = seeded ∧ last (r_out u) = Some MsgUpdateCancelled
   ∧ r_in u = ["1"])
  ∧ (r_db d = seeded ∧ last (r_out d) = Some MsgDeleteCancelled
     ∧ r_in d = ["1"]).
Proof.
  apply (cancel_writes_nothing decimal seeded seeded_members seeded_sales
           ["9"] ["1"]); try reflexivity.
  - by vm_compute.
  - apply Forall_cons. split; [apply nine_is_beyond_four|apply Forall_nil_2].
Defined.

(** ** Further runs *)

(** A discount above price * quantity is taken as it is: the total stored
    is negative. *)
Example discount_above_price :
  let r := sales_record decimal seeded
             ["2024-02-01"; "M001"; "B001"; "1"; "5000"] in
  r_out r = [MsgSaleAdded (-4400)]
  ∧ (sale (r_db r) ≫= λ st, stotal <$> sale_rows st !! 5) = Some (-4400).
Proof. by vm_compute. Qed.

(** The two end-to-end scenarios of the specification on the seed data. *)
Example five_copies_of_B001 :
  let r := sales_record decimal seeded
             ["2024-02-01"; "M001"; "B001"; "5"; "50"] in
  r_out r = [MsgSaleAdded 2950]
  ∧ (book (r_db r) ≫= λ bs, bstock <$> bs !! "B001") = Some 45.
Proof. by vm_compute. Qed.

Example too_many_copies_of_B002 :
  let r := sales_record decimal seeded
             ["2024-02-01"; "M001"; "B002"; "999"; "0"] in
  r_out r = [ErrStock 30]
  ∧ (book (r_db r) ≫= λ bs, bstock <$> bs !! "B002") = Some 30.
Proof. by vm_compute. Qed.

(** Deleting a sale does not give the stock back: after selling 5 copies
    of B001 (sale 5) and deleting that sale, B001 still has 45. *)
Example stock_not_restored :
  let sold := sales_record decimal seeded
                ["2024-02-01"; "M001"; "B001"; "5"; "50"] in
  let r := delete_sales_record decimal (r_db sold) ["5"] in
  last (r_out r) = Some (MsgDeleted 5)
  ∧ (book (r_db r) ≫= λ bs, bstock <$> bs !! "B001") = Some 45.
Proof. by vm_compute. Qed.

(** Cancelling ends in the exception of the [with] block's exit on the
    connection the code has closed. *)
Example cancel_closes_connection :
  r_outcome (update_sales_record decimal seeded [""])
  = Raised ProgrammingError
  ∧ r_outcome (delete_sales_record decimal seeded [""])
    = Raised ProgrammingError.
Proof. by vm_compute. Qed.

(** The table is read in no particular order ([map_to_list]); the listing
    is in [sid] order. *)
Example seeded_listing :
  list_sales seeded_members seeded_sales
  = [ ListRow 1 "2024-01-15" "Alice"; ListRow 2 "2024-01-16" "Bob";
      ListRow 3 "2024-01-17" "Alice"; ListRow 4 "2024-01-18" "Cathy" ].
Proof. by vm_compute. Qed.

(** The report loses the row of a deleted sale: header and four sales
    before, header and three sales after deleting sale 3. *)
Example report_after_delete :
  let r := delete_sales_record decimal seeded ["3"] in
  length (r_out (show_sales_report seeded [])) = 5%nat
  ∧ length (r_out (show_sales_report (r_db r) [])) = 4%nat.
Proof. by vm_compute. Qed.

(** * Sessions *)

Lemma seeded_totals : totals_consistent seeded.
Proof.
  rewrite seeded_tables. intros bs st sid s b Hbs Hst Hs Hb.
  cbn in Hbs, Hst. simplify_eq.
  apply elem_of_map_to_list in Hs.
  set (l := map_to_list _) in Hs. vm_compute in l. subst l.
  repeat (apply elem_of_cons in Hs as [Heq|Hs];
          [simplify_eq; vm_compute in Hb; by simplify_eq|]).
  by apply elem_of_nil in Hs.
Qed.

Lemma seeded_sids : sids_within_seq seeded.
Proof.
  rewrite seeded_tables. intros st sid Hst [s Hs].
  cbn in Hst. simplify_eq.
  apply elem_of_map_to_list in Hs.
  set (l := map_to_list _) in Hs. vm_compute in l. subst l.
  repeat (apply elem_of_cons in Hs as [Heq|Hs]; [simplify_eq; by cbn|]).
  by apply elem_of_nil in Hs.
Qed.

Lemma seeded_ledger : ledger_ok seeded.
Proof.
  split; [rewrite seeded_tables; repeat split; by eexists|].
  split; [apply seeded_stocks|]. split; [apply seeded_references|].
  split; [apply seeded_totals|apply seeded_sids].
Qed.

Section Sessions.

Variable py_int : string → option Z.

(** What a session that started on a sound ledger comes to. *)
Definition sound_end (ins : list string) (s : session) : Prop :=
  ledger_ok (s_db s)
  ∧ (ends_as_expected (s_outcome s)
     ∨ (s_outcome s = Raised OperationalError ∧ sids_exhausted (s_db s)))
  ∧ (length (s_in s) ≤ length ins)%nat.

Lemma call_sound fuel conn ins r out :
  (∀ conn' out' ins', ledger_ok conn' → (length ins' < fuel)%nat →
     ∃ s, main_loop py_int fuel conn' out' ins' = Some s
          ∧ sound_end ins' s) →
  well_ended (tables_present conn) ins r → tables_present conn →
  ledger_ok (r_db r) → (length ins < fuel)%nat →
  ∃ s, call r out (main_loop py_int fuel) = Some s ∧ sound_end ins s.
Proof.
  intros IH [Hlen Hend] Htabs Hok Hfuel. unfold call.
  specialize (Hend Htabs).
  destruct (r_outcome r) as [|e] eqn:Hout.
  - destruct (IH (r_db r) (out ++ (Printed <$> r_out r)) (r_in r) Hok)
      as (s & Hs & Hok' & Hend' & Hlen'); [lia|].
    exists s. split; [done|]. split; [done|]. split; [done|lia].
  - eexists. split; [done|]. by split.
Qed.

Lemma main_loop_sound fuel : ∀ conn out ins,
  ledger_ok conn → (length ins < fuel)%nat →
  ∃ s, main_loop py_int fuel conn out ins = Some s ∧ sound_end ins s.
Proof.
  induction fuel as [|fuel IH]; intros conn out ins Hok Hfuel; [lia|].
  cbn [main_loop].
  destruct ins as [|choice ins].
  { eexists. split; [done|]. split; [done|]. split; [|done].
    left. right. by left. }
  cbn [length] in Hfuel.
  assert (∀ r, well_ended (tables_present conn) ins r →
            ledger_ok (r_db r) →
            ∃ s, call r (out ++ select_menu) (main_loop py_int fuel) = Some s
                 ∧ sound_end (choice :: ins) s) as Hcall.
  { intros r Hr Hok'.
    destruct (call_sound fuel conn ins r (out ++ select_menu) IH Hr
                (proj1 Hok) Hok') as (s & Hs & Ha & Hb & Hc); [lia|].
    exists s. split; [done|]. split; [done|]. split; [done|cbn; lia]. }
  destruct (decide (choice = "1")) as [_|_].
  { apply Hcall; [apply sales_record_well_ended
                 |by apply sales_record_ledger]. }
  destruct (decide (choice = "2")) as [_|_].
  { apply Hcall; [apply show_sales_report_well_ended
                 |by apply show_sales_report_ledger]. }
  destruct (decide (choice = "3")) as [_|_].
  { apply Hcall; [apply update_sales_record_well_ended
                 |by apply update_sales_record_ledger]. }
  destruct (decide (choice = "4")) as [_|_].
  { apply Hcall; [apply delete_sales_record_well_ended
                 |by apply delete_sales_record_ledger]. }
  destruct (decide (choice = "5" ∨ choice = "")) as [_|_].
  { eexists. split; [done|]. split; [done|]. split; [left; by left|].
    cbn; lia. }
  destruct (IH conn (out ++ select_menu ++ [ErrOption]) ins Hok)
    as (s & Hs & Ha & Hb & Hc); [lia|].
  exists s. rewrite (assoc_L (++)) in Hs.
  split; [done|]. split; [done|]. split; [done|cbn; lia].
Qed.

(** X1. Started on a file without tables, or on a database whose ledger
    is sound, [main] ends on every finite input within one turn of the
    loop per line.  It ends by the operator's exit, at the end of the
    input, by the exception of a connection closed inside its [with]
    block, by the OverflowError of a number beyond 64 bits, or by the
    OperationalError of an INSERT on a database that has no [sid] left:
    never for a missing table, a duplicate key or an index out of range;
    and the database it leaves is sound again: the three tables are there,
    no stock is negative, every sale names an existing member and book,
    every stored total is price * quantity - discount, and no [sid] is
    above the counter. *)
Theorem main_keeps_ledger_sound conn ins :
  conn = no_tables ∨ ledger_ok conn →
  ∃ s, main py_int conn ins = Some s
       ∧ ledger_ok (s_db s)
       ∧ (ends_as_expected (s_outcome s)
          ∨ (s_outcome s = Raised OperationalError
             ∧ sids_exhausted (s_db s))).
Proof.
  intros Hstart. unfold main.
  assert (∃ conn' note,
            (init_db conn ins = Result Returned conn' [note] ins
             ∨ init_db conn ins
               = Result Returned conn' [MsgCreatingTables; note] ins)
            ∧ ledger_ok conn') as (conn' & out0 & Hinit & Hok).
  { destruct Hstart as [->|Hok].
    - exists seeded, MsgInitDone. split; [by right|apply seeded_ledger].
    - exists conn, MsgTablesExist. split; [|done]. left.
      destruct Hok as (([ms Hms] & [bs Hbs] & [st Hst]) & _).
      by eapply init_db_tables_exist. }
  destruct (main_loop_sound (S (length ins)) conn'
              ([] ++ (Printed <$> r_out (init_db conn ins))) ins Hok)
    as (s & Hs & Ha & Hb & _); [lia|].
  exists s. split; [|done].
  unfold call. destruct Hinit as [Hinit|Hinit]; rewrite Hinit in Hs |- *;
    exact Hs.
Qed.

End Sessions.

(** * The listing under the three writes *)

(** Two listings in strictly ascending key with the same rows are the
    same list. *)
Lemma strictly_sorted_unique {A} (key : A → Z) (l1 l2 : list A) :
  StronglySorted (λ a b, key a < key b) l1 →
  StronglySorted (λ a b, key a < key b) l2 →
  l1 ≡ₚ l2 → l1 = l2.
Proof.
  apply (StronglySorted_unique_strong (λ a b, key a < key b)).
  intros x1 x2 _ _ H12 H21. lia.
Qed.

(** A new sale of a known member goes to the end of the listing. *)
Lemma list_sales_insert ms st row m :
  ms !! smid row = Some m →
  list_sales ms (insert_sale row st)
  = list_sales ms st ++ [ListRow (next_sid st) (sdate row) (mname m)].
Proof.
  intros Hm. apply (strictly_sorted_unique l_sid).
  - apply list_sales_strict.
  - apply StronglySorted_app_2.
    + intros x1 x2 Hx1 Hx2. apply list_elem_of_singleton in Hx2 as ->.
      apply elem_of_list_sales in Hx1 as (s & _ & Hs & _).
      cbn. apply next_sid_above. by exists s.
    + apply list_sales_strict.
    + repeat constructor.
  - unfold list_sales. rewrite !order_by_Permutation.
    cbn [insert_sale sale_rows].
    rewrite (map_to_list_insert _ _ _ (next_sid_fresh st)).
    cbn [omap list_omap]. unfold join_member at 1. cbn [fst snd].
    rewrite Hm. cbn [mbind option_bind].
    by rewrite (Permutation_cons_append _ (ListRow _ _ _)).
Qed.

Lemma alter_present {A} (f : A → A) (m : gmap Z A) (i : Z) (x : A) :
  m !! i = Some x → alter f i m = <[i := f x]> (delete i m).
Proof.
  intros Hx. apply map_eq. intros j.
  destruct (decide (j = i)) as [->|Hne].
  - by rewrite lookup_alter_eq, lookup_insert_eq, Hx.
  - by rewrite lookup_alter_ne, lookup_insert_ne, lookup_delete_ne.
Qed.

Lemma alter_absent {A} (f : A → A) (m : gmap Z A) (i : Z) :
  m !! i = None → alter f i m = m.
Proof.
  intros Hx. apply map_eq. intros j.
  destruct (decide (j = i)) as [->|Hne].
  - by rewrite lookup_alter_eq, Hx.
  - by rewrite lookup_alter_ne.
Qed.

(** Rewriting the discount and total of a sale leaves the listing as it
    is: it shows neither. *)
Lemma list_sales_set_discount ms st nd nt sid :
  list_sales ms (set_discount nd nt sid st) = list_sales ms st.
Proof.
  destruct (sale_rows st !! sid) as [s|] eqn:Hs.
  2:{ unfold list_sales, set_discount. cbn [sale_rows].
      by rewrite (alter_absent _ _ _ Hs). }
  apply (strictly_sorted_unique l_sid); [apply list_sales_strict..|].
  unfold list_sales. rewrite !order_by_Permutation.
  cbn [set_discount sale_rows].
  rewrite (alter_present _ _ _ _ Hs).
  rewrite (map_to_list_insert (delete sid (sale_rows st)) sid _
             (lookup_delete_eq _ _)).
  rewrite <- (map_to_list_delete (sale_rows st) sid s Hs).
  by cbn [omap list_omap].
Qed.

(** * Runs on accepted lines *)

Section Runs.

Variable py_int : string → option Z.

(** The result of [sales_record] on the five lines of an accepted
    order whose numbers fit 64 bits, a [sid] being left. *)
Lemma sales_record_commit conn ms bs st b sales_date member_id book_id
    qty_line discount_line qty discount rest :
  member conn = Some ms → book conn = Some bs → sale conn = Some st →
  date_rejected sales_date = false →
  is_Some (ms !! member_id) → bs !! book_id = Some b →
  py_int qty_line = Some qty → 0 < qty → qty ≤ bstock b →
  py_int discount_line = Some discount → 0 ≤ discount →
  int64 qty = true → int64 discount = true →
  int64 (bprice b * qty - discount) = true →
  next_sid st ≤ max_int64 →
  sales_record py_int conn
    (sales_date :: member_id :: book_id :: qty_line :: discount_line :: rest)
  = Result Returned
      (Db (Some ms) (Some (decrement_stock qty book_id bs))
         (Some (insert_sale
                  (SaleRow sales_date member_id book_id qty discount
                     (bprice b * qty - discount)) st)))
      [MsgSaleAdded (bprice b * qty - discount)] rest.
Proof.
  intros Hms Hbs Hst Hd Hm Hb Hq Hpos Hle Hdl Hnn Hq64 Hd64 Ht64 Hsid.
  unfold sales_record.
  by apply (sales_record_loop_commit py_int conn ms bs st b []
              sales_date member_id book_id qty_line discount_line
              qty discount rest).
Qed.

(** The result of [update_sales_record] on an accepted position and an
    accepted discount, the new discount and total fitting 64 bits. *)
Lemma update_sales_record_run conn ms bs st choice n row s b line nd rest :
  member conn = Some ms → book conn = Some bs → sale conn = Some st →
  choice ≠ "" → py_int choice = Some n → 1 ≤ n →
  list_sales ms st !! Z.to_nat (n - 1) = Some row →
  sale_rows st !! l_sid row = Some s → bs !! sbid s = Some b →
  py_int line = Some nd → 0 ≤ nd →
  int64 nd = true → int64 (bprice b * sqty s - nd) = true →
  update_sales_record py_int conn (choice :: line :: rest)
  = Result Returned
      (Db (Some ms) (Some bs)
         (Some (set_discount nd (bprice b * sqty s - nd) (l_sid row) st)))
      ((print_list (list_sales ms st) ++ [MsgCurrentDiscount (sdiscount s)])
       ++ [MsgUpdated (l_sid row) (bprice b * sqty s - nd)]) rest.
Proof.
  intros Hms Hbs Hst Hne Hn Hpos Hrow Hs Hb Hd Hnn Hd64 Ht64.
  unfold update_sales_record. rewrite Hst, Hms.
  remember (list_sales ms st) as sales eqn:Hsales.
  destruct sales as [|row0 sales']; [by rewrite lookup_nil in Hrow|].
  rewrite (update_select_pick _ _ _ _ _ _ _ _ _ Hne Hn Hpos Hrow).
  rewrite Hbs. unfold sale_book_data. rewrite Hs. cbn [mbind option_bind].
  rewrite Hb. cbn [mbind option_bind].
  rewrite (update_discount_pick _ _ _ _ _ _ _ Hd Hnn).
  cbv zeta. by rewrite Hd64, Ht64.
Qed.

(** The result of [delete_sales_record] on an accepted position. *)
Lemma delete_sales_record_run conn ms st choice n row rest :
  member conn = Some ms → sale conn = Some st →
  choice ≠ "" → py_int choice = Some n → 1 ≤ n →
  list_sales ms st !! Z.to_nat (n - 1) = Some row →
  delete_sales_record py_int conn (choice :: rest)
  = Result Returned
      (Db (Some ms) (book conn) (Some (delete_sale (l_sid row) st)))
      (print_list (list_sales ms st) ++ [MsgDeleted (l_sid row)]) rest.
Proof.
  intros Hms Hst Hne Hn Hpos Hrow.
  unfold delete_sales_record. rewrite Hst, Hms.
  remember (list_sales ms st) as sales eqn:Hsales.
  destruct sales as [|row0 sales']; [by rewrite lookup_nil in Hrow|].
  rewrite (delete_select_pick _ _ _ _ _ _ _ _ _ Hne Hn Hpos Hrow).
  by rewrite Hms.
Qed.

(** A run of [delete_sales_record] that returns after listing sales has
    read lines the prompt rejected and then a position of the listing. *)
Lemma delete_select_returned conn st sales : ∀ ins out,
  r_outcome (delete_select py_int conn st sales out ins) = Returned →
  ∃ rejected choice n row rest,
    ins = rejected ++ choice :: rest
    ∧ Forall (choice_rejected py_int (length sales)) rejected
    ∧ choice ≠ "" ∧ py_int choice = Some n ∧ 1 ≤ n
    ∧ sales !! Z.to_nat (n - 1) = Some row.
Proof.
  induction ins as [|line ins IH]; intros out; [done|].
  cbn [delete_select input].
  destruct (decide (line = "")) as [|Hne]; [done|].
  assert (choice_rejected py_int (length sales) line →
          ∀ out1,
            r_outcome (delete_select py_int conn st sales out1 ins)
            = Returned →
            ∃ rejected choice n row rest,
              line :: ins = rejected ++ choice :: rest
              ∧ Forall (choice_rejected py_int (length sales)) rejected
              ∧ choice ≠ "" ∧ py_int choice = Some n ∧ 1 ≤ n
              ∧ sales !! Z.to_nat (n - 1) = Some row) as Hnext.
  { intros Hrej out1 Hret.
    destruct (IH out1 Hret) as (rej & c & n & row & rest & -> & HF & H).
    exists (line :: rej), c, n, row, rest.
    split; [done|]. split; [by apply Forall_cons|done]. }
  destruct (py_int line) as [n|] eqn:Hn.
  2:{ apply Hnext. split; [done|]. intros n Hn'. congruence. }
  destruct ((n <? 1) || (n >? Z.of_nat (length sales))) eqn:Hidx.
  { apply Hnext. split; [done|]. intros n' Hn'.
    assert (n' = n) as -> by congruence.
    apply orb_true_iff in Hidx. rewrite Z.ltb_lt, Z.gtb_gt in Hidx. lia. }
  destruct (position_in_range _ _ Hidx) as [row Hrow]. intros _.
  exists [], line, n, row, ins.
  apply orb_false_iff in Hidx as [Hlo _]. apply Z.ltb_ge in Hlo.
  repeat split; [apply Forall_nil_2|done|done|lia|done].
Qed.

(** X6. Recording a sale (its quantity, discount and total within 64
    bits, a [sid] being left) and then deleting it from the menu does not
    undo it: the new sale is the last entry of the menu, deleting that
    entry leaves the sale rows as they were before the sale, but the book
    keeps the lowered stock and the [sid] counter stays advanced. *)
Theorem void_does_not_restock conn ms bs st b m sales_date member_id
    book_id qty_line discount_line qty discount choice rest :
  member conn = Some ms → book conn = Some bs → sale conn = Some st →
  date_rejected sales_date = false →
  ms !! member_id = Some m → bs !! book_id = Some b →
  py_int qty_line = Some qty → 0 < qty → qty ≤ bstock b →
  py_int discount_line = Some discount → 0 ≤ discount →
  int64 qty = true → int64 discount = true →
  int64 (bprice b * qty - discount) = true →
  next_sid st ≤ max_int64 →
  choice ≠ "" →
  py_int choice = Some (Z.of_nat (length (list_sales ms st)) + 1) →
  let sold := sales_record py_int conn
                [sales_date; member_id; book_id; qty_line; discount_line] in
  let r := delete_sales_record py_int (r_db sold) (choice :: rest) in
  r_outcome r = Returned
  ∧ last (r_out r) = Some (MsgDeleted (next_sid st))
  ∧ member (r_db r) = Some ms
  ∧ sale (r_db r) = Some (SaleTable (sale_rows st) (next_sid st))
  ∧ book (r_db r)
    = Some (<[book_id := BookRow (btitle b) (bprice b) (bstock b - qty)]> bs).
Proof.
  intros Hms Hbs Hst Hd Hm Hb Hq Hpos Hle Hdl Hnn Hq64 Hd64 Ht64 Hsid
    Hne Hn sold r.
  subst r sold.
  rewrite (sales_record_commit conn ms bs st b _ _ _ _ _ qty discount []
             Hms Hbs Hst Hd (mk_is_Some _ _ Hm) Hb Hq Hpos Hle Hdl Hnn
             Hq64 Hd64 Ht64 Hsid).
  cbn [r_db].
  set (row := SaleRow sales_date member_id book_id qty discount
                (bprice b * qty - discount)).
  rewrite (delete_sales_record_run
             (Db (Some ms) (Some (decrement_stock qty book_id bs))
                (Some (insert_sale row st)))
             ms (insert_sale row st) choice _
             (ListRow (next_sid st) sales_date (mname m)) rest
             eq_refl eq_refl Hne Hn).
  - cbn [r_outcome r_out r_db member book sale l_sid].
    rewrite last_snoc, (decrement_stock_insert _ _ _ _ Hb).
    repeat split. f_equal. unfold delete_sale, insert_sale.
    cbn [sale_rows sale_seq]. f_equal.
    apply delete_insert_id, next_sid_fresh.
  - lia.
  - rewrite (list_sales_insert ms st row m Hm).
    apply list_lookup_middle. lia.
Qed.

(** X8. Of two updates of the same sale the later one wins outright:
    updating to one discount and then to another (both discounts and both
    totals within 64 bits) leaves the database that the second update
    alone would have left. *)
Theorem later_discount_wins conn ms bs st choice n row s b line1 d1 line2
    d2 rest :
  member conn = Some ms → book conn = Some bs → sale conn = Some st →
  choice ≠ "" → py_int choice = Some n → 1 ≤ n →
  list_sales ms st !! Z.to_nat (n - 1) = Some row →
  sale_rows st !! l_sid row = Some s → bs !! sbid s = Some b →
  py_int line1 = Some d1 → 0 ≤ d1 →
  py_int line2 = Some d2 → 0 ≤ d2 →
  int64 d1 = true → int64 (bprice b * sqty s - d1) = true →
  int64 d2 = true → int64 (bprice b * sqty s - d2) = true →
  let first := update_sales_record py_int conn [choice; line1] in
  let twice := update_sales_record py_int (r_db first)
                 (choice :: line2 :: rest) in
  let once := update_sales_record py_int conn (choice :: line2 :: rest) in
  r_outcome first = Returned ∧ r_outcome twice = Returned
  ∧ r_db twice = r_db once.
Proof.
  intros Hms Hbs Hst Hne Hn Hpos Hrow Hs Hb Hd1 Hnn1 Hd2 Hnn2
    Hd1' Ht1 Hd2' Ht2 first twice once.
  subst twice once first.
  rewrite (update_sales_record_run conn ms bs st choice n row s b line1 d1 []
             Hms Hbs Hst Hne Hn Hpos Hrow Hs Hb Hd1 Hnn1 Hd1' Ht1).
  rewrite (update_sales_record_run conn ms bs st choice n row s b line2 d2
             rest Hms Hbs Hst Hne Hn Hpos Hrow Hs Hb Hd2 Hnn2 Hd2' Ht2).
  cbn [r_outcome r_db].
  set (st1 := set_discount d1 (bprice b * sqty s - d1) (l_sid row) st).
  rewrite (update_sales_record_run (Db (Some ms) (Some bs) (Some st1))
             ms bs st1 choice n row
             (SaleRow (sdate s) (smid s) (sbid s) (sqty s) d1
                (bprice b * sqty s - d1)) b line2 d2 rest
             eq_refl eq_refl eq_refl Hne Hn Hpos).
  - cbn [r_outcome r_db sqty]. repeat split. do 2 f_equal.
    unfold st1, set_discount. cbn [sale_rows sale_seq]. f_equal.
    rewrite alter_alter_eq. by apply alter_ext.
  - unfold st1. by rewrite list_sales_set_discount.
  - unfold st1. by apply set_discount_lookup.
  - done.
  - done.
  - done.
  - done.
  - exact Ht2.
Qed.

(** X17. A pass of [sales_record] that clears every check with a
    quantity, a discount or a total that does not fit a 64-bit INTEGER
    ends at the INSERT in OverflowError, whatever failed passes came
    before: nothing is written, no success is printed, and the lines after
    the pass are not read. *)
Theorem sales_record_overflow_writes_nothing conn ms bs st b failed ns
    sales_date member_id book_id qty_line discount_line qty discount rest :
  member conn = Some ms → book conn = Some bs → sale conn = Some st →
  attempts_fail py_int conn failed ns →
  date_rejected sales_date = false →
  is_Some (ms !! member_id) →
  bs !! book_id = Some b →
  py_int qty_line = Some qty → 0 < qty → qty ≤ bstock b →
  py_int discount_line = Some discount → 0 ≤ discount →
  int64 qty && int64 discount && int64 (bprice b * qty - discount) = false →
  sales_record py_int conn
    (failed ++ [sales_date; member_id; book_id; qty_line; discount_line]
     ++ rest)
  = Result (Raised OverflowError) conn ns rest.
Proof.
  intros Hms Hbs Hst Hfail Hd Hm Hb Hq Hpos Hle Hdl Hnn H64.
  unfold sales_record.
  rewrite (sales_record_loop_retries _ _ _ _ _ _ Hfail).
  by apply (sales_record_loop_overflow py_int conn ms bs st b _ _ _ _ _ _ qty discount).
Qed.

(** X18. A pass of [sales_record] that clears every check, with numbers
    that fit, on a sale table whose AUTOINCREMENT has handed out its
    largest [sid], ends at the INSERT in OperationalError: nothing is
    written and no success is printed. *)
Theorem sales_record_without_sid_writes_nothing conn ms bs st b failed ns
    sales_date member_id book_id qty_line discount_line qty discount rest :
  member conn = Some ms → book conn = Some bs → sale conn = Some st →
  attempts_fail py_int conn failed ns →
  date_rejected sales_date = false →
  is_Some (ms !! member_id) →
  bs !! book_id = Some b →
  py_int qty_line = Some qty → 0 < qty → qty ≤ bstock b →
  py_int discount_line = Some discount → 0 ≤ discount →
  int64 qty = true → int64 discount = true →
  int64 (bprice b * qty - discount) = true →
  max_int64 < next_sid st →
  sales_record py_int conn
    (failed ++ [sales_date; member_id; book_id; qty_line; discount_line]
     ++ rest)
  = Result (Raised OperationalError) conn ns rest.
Proof.
  intros Hms Hbs Hst Hfail Hd Hm Hb Hq Hpos Hle Hdl Hnn Hq64 Hd64 Ht64 Hsid.
  unfold sales_record.
  rewrite (sales_record_loop_retries _ _ _ _ _ _ Hfail).
  by apply (sales_record_loop_full py_int conn ms bs st b _ _ _ _ _ _ qty discount).
Qed.

(** X19. When the new discount entered in [update_sales_record], or the
    total computed from it, does not fit a 64-bit INTEGER, the UPDATE
    raises OverflowError: the function does not return, the database is as
    it was, so the sale keeps its discount and total, and the lines after
    the discount are not read. *)
Theorem update_overflow_writes_nothing conn ms bs st rejected1 choice n
    row s b rejected2 line new_discount rest :
  member conn = Some ms → book conn = Some bs → sale conn = Some st →
  Forall (choice_rejected py_int (length (list_sales ms st))) rejected1 →
  choice ≠ "" → py_int choice = Some n → 1 ≤ n →
  list_sales ms st !! Z.to_nat (n - 1) = Some row →
  sale_rows st !! l_sid row = Some s →
  bs !! sbid s = Some b →
  Forall (discount_rejected py_int) rejected2 →
  py_int line = Some new_discount → 0 ≤ new_discount →
  int64 new_discount && int64 (bprice b * sqty s - new_discount) = false →
  let r := update_sales_record py_int conn
             (rejected1 ++ choice :: rejected2 ++ line :: rest) in
  r_outcome r = Raised OverflowError ∧ r_db r = conn ∧ r_in r = rest.
Proof.
  intros Hms Hbs Hst Hrej1 Hne Hn Hpos Hrow Hs Hb Hrej2 Hd Hnn H64 r.
  subst r.
  destruct (update_sales_record_reaches py_int conn _ _ _ _ _ _ _ _ _ _ _ _
              rest Hms Hbs Hst Hrej1 Hne Hn Hpos Hrow Hs Hb Hrej2 Hd Hnn)
    as [out ->].
  cbv zeta. by rewrite H64.
Qed.

(** X7. Whatever is typed, [update_sales_record] neither adds nor removes
    a sale, and the menu of sales reads the same afterwards, entry for
    entry. *)
Theorem update_keeps_the_menu conn ms st ins :
  member conn = Some ms → sale conn = Some st →
  let r := update_sales_record py_int conn ins in
  ∃ st', sale (r_db r) = Some st'
         ∧ member (r_db r) = Some ms
         ∧ list_sales ms st' = list_sales ms st
         ∧ (∀ sid, is_Some (sale_rows st' !! sid)
                   ↔ is_Some (sale_rows st !! sid)).
Proof.
  intros Hms Hst r. subst r.
  destruct (update_sales_record_cases py_int conn ins)
    as [[-> _]
       |(ms' & bs & st0 & choice & n & row & s0 & b & nd & Hms' & Hbs & Hst'
         & _ & _ & _ & _ & Hs0 & _ & _ & _ & ->)].
  { by exists st. }
  simplify_eq. eexists. split; [done|]. split; [done|].
  split; [apply list_sales_set_discount|].
  intros sid. cbn [set_discount sale_rows].
  destruct (decide (sid = l_sid row)) as [->|Hne].
  - rewrite lookup_alter_eq, Hs0. split; intros _; by eexists.
  - by rewrite lookup_alter_ne.
Qed.

Lemma list_sales_sids_NoDup ms st : NoDup (l_sid <$> list_sales ms st).
Proof.
  unfold list_sales. rewrite order_by_Permutation.
  apply joined_keys_NoDup; [apply join_member_sid|].
  apply NoDup_fst_map_to_list.
Qed.

(** X12. What is deleted is what the menu shows under the number typed:
    the entry numbered [n] carries the [sid] of the sale that goes, that
    [sid] is the one reported as deleted, and no other entry has that
    number or that [sid]. *)
Theorem delete_removes_the_numbered_entry conn ms st choice n row rest :
  member conn = Some ms → sale conn = Some st →
  choice ≠ "" → py_int choice = Some n → 1 ≤ n →
  list_sales ms st !! Z.to_nat (n - 1) = Some row →
  let r := delete_sales_record py_int conn (choice :: rest) in
  let menu := print_list (list_sales ms st) in
  r_out r = menu ++ [MsgDeleted (l_sid row)]
  ∧ sale (r_db r) = Some (delete_sale (l_sid row) st)
  ∧ menu !! Z.to_nat n
    = Some (ListItem (Z.to_nat n) (l_sid row) (l_mname row) (l_sdate row))
  ∧ (∀ i sid mname date,
       ListItem i sid mname date ∈ menu →
       (i = Z.to_nat n ↔ sid = l_sid row)).
Proof.
  intros Hms Hst Hne Hn Hpos Hrow r menu. subst r menu.
  rewrite (delete_sales_record_run conn ms st choice n row rest
             Hms Hst Hne Hn Hpos Hrow).
  cbn [r_out r_db sale]. split; [done|]. split; [done|].
  assert (Z.to_nat n = S (Z.to_nat (n - 1))) as Hsucc by lia.
  split.
  - unfold print_list. rewrite Hsucc, lookup_cons. cbv iota beta.
    rewrite lookup_app_l.
    + by rewrite list_lookup_imap, Hrow.
    + rewrite length_imap. by eapply lookup_lt_Some.
  - intros i sid mname date Hin. unfold print_list in Hin.
    apply elem_of_cons in Hin as [Hin|Hin]; [done|].
    apply elem_of_app in Hin as [Hin|Hin].
    2:{ by apply list_elem_of_singleton in Hin. }
    apply elem_of_lookup_imap in Hin as (j & y & Heq & Hy).
    simplify_eq. rewrite Hsucc. split.
    + intros Hj. assert (j = Z.to_nat (n - 1)) as -> by lia.
      congruence.
    + intros Hsid. f_equal.
      apply (NoDup_lookup (l_sid <$> list_sales ms st) _ _ (l_sid row));
        [apply list_sales_sids_NoDup| |].
      * rewrite list_lookup_fmap, Hy. cbn. by rewrite Hsid.
      * by rewrite list_lookup_fmap, Hrow.
Qed.

(** X9. When the book of the selected sale is not in the book table,
    [update_sales_record] says so right after the selection, asks for no
    discount and writes nothing; it has closed the connection, and ends by
    the exception of its [with] block. *)
Theorem update_without_book_writes_nothing conn ms bs st choice n row s
    rest :
  member conn = Some ms → book conn = Some bs → sale conn = Some st →
  choice ≠ "" → py_int choice = Some n → 1 ≤ n →
  list_sales ms st !! Z.to_nat (n - 1) = Some row →
  sale_rows st !! l_sid row = Some s → bs !! sbid s = None →
  update_sales_record py_int conn (choice :: rest)
  = Result (Raised ProgrammingError) conn
      (print_list (list_sales ms st) ++ [ErrSaleBookMissing]) rest.
Proof.
  intros Hms Hbs Hst Hne Hn Hpos Hrow Hs Hb.
  unfold update_sales_record. rewrite Hst, Hms.
  remember (list_sales ms st) as sales eqn:Hsales.
  destruct sales as [|row0 sales']; [by rewrite lookup_nil in Hrow|].
  rewrite (update_select_pick _ _ _ _ _ _ _ _ _ Hne Hn Hpos Hrow).
  rewrite Hbs. unfold sale_book_data. rewrite Hs. cbn [mbind option_bind].
  by rewrite Hb.
Qed.

End Runs.

(** * More on the engine *)

(** The sale table [st'] came from [st] without filling a [sid] that [st]
    had already handed out and no longer held. *)
Definition never_refilled (conn conn' : db) : Prop :=
  ∀ st, sale conn = Some st →
    ∃ st', sale conn' = Some st'
           ∧ sale_seq st ≤ sale_seq st'
           ∧ ∀ sid, sid ≤ sale_seq st → sale_rows st !! sid = None →
                    sale_rows st' !! sid = None.

Lemma never_refilled_refl conn : never_refilled conn conn.
Proof. intros st Hst. exists st. by repeat split. Qed.

Lemma never_refilled_trans conn1 conn2 conn3 :
  never_refilled conn1 conn2 → never_refilled conn2 conn3 →
  never_refilled conn1 conn3.
Proof.
  intros H12 H23 st1 Hst1.
  destruct (H12 st1 Hst1) as (st2 & Hst2 & Hseq12 & Hvac12).
  destruct (H23 st2 Hst2) as (st3 & Hst3 & Hseq23 & Hvac23).
  exists st3. split; [done|]. split; [lia|].
  intros sid Hsid Hnone. apply Hvac23; [lia|]. by apply Hvac12.
Qed.

Section Engine.

Variable py_int : string → option Z.

(** X2. Each function of the menu, on any input and however it ends,
    takes a sound ledger to a sound ledger: the tables stay, no stock goes
    negative, every sale keeps naming an existing member and book, every
    stored total stays price * quantity - discount, and no [sid] gets
    above the counter. *)
Theorem engine_keeps_ledger_sound conn ins :
  ledger_ok conn →
  ledger_ok (r_db (sales_record py_int conn ins))
  ∧ ledger_ok (r_db (show_sales_report conn ins))
  ∧ ledger_ok (r_db (update_sales_record py_int conn ins))
  ∧ ledger_ok (r_db (delete_sales_record py_int conn ins)).
Proof.
  intros Hok.
  split; [by apply sales_record_ledger|].
  split; [by apply show_sales_report_ledger|].
  split; [by apply update_sales_record_ledger
         |by apply delete_sales_record_ledger].
Qed.

(** X4. On every input [sales_record] writes once or not at all: either
    it does not return and the database is the one it was given, or it
    returns having inserted one sale, of a known member and book, with a
    positive quantity within the stock, a non-negative discount and
    total = price * quantity - discount, and having lowered that book's
    stock by the quantity. *)
Theorem sales_record_writes_once_or_nothing conn ins :
  let r := sales_record py_int conn ins in
  (r_outcome r ≠ Returned ∧ r_db r = conn)
  ∨ ∃ ms bs st sales_date member_id book_id b qty discount,
      member conn = Some ms ∧ book conn = Some bs ∧ sale conn = Some st
      ∧ is_Some (ms !! member_id) ∧ bs !! book_id = Some b
      ∧ 0 < qty ∧ qty ≤ bstock b ∧ 0 ≤ discount
      ∧ r_outcome r = Returned
      ∧ r_db r
        = Db (Some ms)
            (Some (<[book_id := BookRow (btitle b) (bprice b)
                                  (bstock b - qty)]> bs))
            (Some (SaleTable
                     (<[next_sid st :=
                          SaleRow sales_date member_id book_id qty discount
                            (bprice b * qty - discount)]> (sale_rows st))
                     (next_sid st))).
Proof.
  intros r. subst r. unfold sales_record.
  destruct (sales_record_loop_cases py_int conn (length ins) ins []
              (le_n _))
    as [Hleft
       |(ms & bs & st & d & member_id & book_id & b & qty & discount & Hms
         & Hbs & Hst & Hm & Hb & Hpos & Hle & Hnn & Hret & Hdb)];
    [by left|right].
  exists ms, bs, st, d, member_id, book_id, b, qty, discount.
  rewrite Hdb, (decrement_stock_insert _ _ _ _ Hb).
  by repeat split.
Qed.

Lemma delete_sales_record_unreturned conn ins :
  r_outcome (delete_sales_record py_int conn ins) ≠ Returned →
  r_db (delete_sales_record py_int conn ins) = conn.
Proof.
  unfold delete_sales_record.
  destruct (sale conn) as [st|]; [|done].
  destruct (member conn) as [ms|]; [|done].
  destruct (list_sales ms st) as [|row0 sales']; [done|].
  match goal with
  | |- context [delete_select _ _ _ ?l ?o _] =>
      destruct (delete_select_cases py_int conn st l ins o)
        as [[_ ->]|(choice & n & row & _ & _ & _ & _ & -> & _)]
  end; done.
Qed.

(** X14. [update_sales_record] and [delete_sales_record] write only when
    they return: ended by an exception (the input ran out, the selection
    was cancelled, a table or the sale's book is missing) they leave the
    database exactly as it was; and [show_sales_report] never writes. *)
Theorem exceptions_leave_the_database conn ins :
  (r_outcome (update_sales_record py_int conn ins) ≠ Returned →
   r_db (update_sales_record py_int conn ins) = conn)
  ∧ (r_outcome (delete_sales_record py_int conn ins) ≠ Returned →
     r_db (delete_sales_record py_int conn ins) = conn)
  ∧ r_db (show_sales_report conn ins) = conn.
Proof.
  split; [|split; [apply delete_sales_record_unreturned
                  |apply show_sales_report_db]].
  destruct (update_sales_record_cases py_int conn ins)
    as [[Hdb _]|(ms & bs & st & choice & n & row & s & b & nd & _ & _ & _
                 & _ & _ & _ & _ & _ & _ & _ & Hret & _)]; [done|].
  intros Hne. by destruct Hne.
Qed.

Lemma functions_never_refill conn ins :
  never_refilled conn (r_db (sales_record py_int conn ins))
  ∧ never_refilled conn (r_db (show_sales_report conn ins))
  ∧ never_refilled conn (r_db (update_sales_record py_int conn ins))
  ∧ never_refilled conn (r_db (delete_sales_record py_int conn ins)).
Proof.
  split; [|split; [|split]].
  - unfold sales_record.
    destruct (sales_record_loop_cases py_int conn (length ins) ins []
                (le_n _))
      as [[_ ->]
         |(ms & bs & st & d & member_id & book_id & b & qty & discount & _
           & _ & Hst & _ & _ & _ & _ & _ & _ & ->)];
      [apply never_refilled_refl|].
    intros st0 Hst0. rewrite Hst in Hst0. injection Hst0 as <-.
    eexists. split; [done|].
    cbn [insert_sale sale_rows sale_seq].
    pose proof (next_sid_above_seq st). split; [lia|].
    intros sid Hsid Hnone. rewrite lookup_insert_ne by lia. done.
  - rewrite show_sales_report_db. apply never_refilled_refl.
  - destruct (update_sales_record_cases py_int conn ins)
      as [[-> _]
         |(ms & bs & st & choice & n & row & s & b & nd & _ & _ & Hst & _
           & _ & _ & _ & Hs & _ & _ & _ & ->)];
      [apply never_refilled_refl|].
    intros st0 Hst0. rewrite Hst in Hst0. injection Hst0 as <-.
    eexists. split; [done|].
    cbn [set_discount sale_rows sale_seq]. split; [done|].
    intros sid Hsid Hnone.
    destruct (decide (sid = l_sid row)) as [->|Hne]; [congruence|].
    by rewrite lookup_alter_ne.
  - destruct (delete_sales_record_cases py_int conn ins)
      as [->|(st & gone & Hst & ->)]; [apply never_refilled_refl|].
    intros st0 Hst0. rewrite Hst in Hst0. injection Hst0 as <-.
    eexists. split; [done|].
    cbn [delete_sale sale_rows sale_seq]. split; [done|].
    intros sid Hsid Hnone.
    destruct (decide (sid = gone)) as [->|Hne].
    + apply lookup_delete_eq.
    + by rewrite lookup_delete_ne.
Qed.

(** X5. No function of the menu gives a [sid] out twice: a [sid] at or
    below the counter that holds no sale (one that was deleted) holds none
    afterwards either, and the counter never goes down.  This carries over
    any sequence of calls, [never_refilled] being transitive. *)
Theorem vacant_sids_stay_vacant conn ins :
  never_refilled conn (r_db (sales_record py_int conn ins))
  ∧ never_refilled conn (r_db (show_sales_report conn ins))
  ∧ never_refilled conn (r_db (update_sales_record py_int conn ins))
  ∧ never_refilled conn (r_db (delete_sales_record py_int conn ins)).
Proof. apply functions_never_refill. Qed.

End Engine.

(** X3. On a ledger whose stored totals are price * quantity - discount,
    every block of the report shows a subtotal, computed from the book's
    price at the time of the report, equal to the total it shows from the
    sale. *)
Theorem report_subtotal_is_total conn ins sid date mname title price qty
    disc subtotal total :
  totals_consistent conn →
  ReportSale sid date mname title price qty disc subtotal total
    ∈ r_out (show_sales_report conn ins) →
  subtotal = total ∧ total = price * qty - disc.
Proof.
  intros Htot. unfold show_sales_report.
  destruct (sale conn) as [st|] eqn:Hst; [|by intros ?%elem_of_nil].
  destruct (member conn) as [ms|] eqn:Hms; [|by intros ?%elem_of_nil].
  destruct (book conn) as [bs|] eqn:Hbs; [|by intros ?%elem_of_nil].
  assert (ReportSale sid date mname title price qty disc subtotal total
            ∈ map print_sale (report_sales ms bs st) →
          subtotal = total ∧ total = price * qty - disc) as Hrows.
  { intros Hin. apply list_elem_of_fmap in Hin as (row & Heq & Hrow).
    apply elem_of_report_sales in Hrow as (s & m & b & Hs & Hm & Hb & Hshape).
    destruct row as [rsid rdate rmname rtitle rprice rqty rdisc rtotal].
    cbn in Hs, Hshape. unfold print_sale in Heq. cbn in Heq.
    injection Hshape as -> -> -> -> -> -> ->.
    injection Heq as -> -> -> -> -> -> -> -> ->.
    rewrite (Htot bs st _ s b Hbs Hst Hs Hb). by split. }
  destruct (report_sales ms bs st) as [|row0 rows'] eqn:Hreport.
  - cbn [r_out]. intros Hin. apply list_elem_of_singleton in Hin. done.
  - cbn [r_out]. intros Hin.
    apply elem_of_cons in Hin as [Hin|Hin]; [done|]. by apply Hrows.
Qed.

(** * More on init_db *)

Lemma insert_rows_keeps `{Countable K} {V} (rows : list (K * V)) :
  ∀ (t t' : gmap K V) k v,
    insert_rows rows t = Some t' → t !! k = Some v → t' !! k = Some v.
Proof.
  induction rows as [|[k0 v0] rows IH]; intros t t' k v Hins Hk.
  { cbn in Hins. by simplify_eq. }
  cbn [insert_rows] in Hins. unfold insert_row in Hins.
  destruct (t !! k0) eqn:Hk0; [done|].
  apply (IH _ _ _ _ Hins). rewrite lookup_insert_ne; [done|congruence].
Qed.

(** A key of the rows that the table already holds makes the INSERT fail. *)
Lemma insert_rows_conflict `{Countable K} {V} (rows : list (K * V)) :
  ∀ (t : gmap K V) k v,
    (k, v) ∈ rows → is_Some (t !! k) → insert_rows rows t = None.
Proof.
  induction rows as [|[k0 v0] rows IH]; intros t k v Hin [x Hx].
  { by apply elem_of_nil in Hin. }
  cbn [insert_rows]. unfold insert_row.
  destruct (t !! k0) eqn:Hk0; [done|].
  apply elem_of_cons in Hin as [Heq|Hin]; [simplify_eq|].
  apply (IH _ k v Hin). exists x.
  rewrite lookup_insert_ne; [done|congruence].
Qed.

Lemma insert_sale_keeps r st sid s :
  sale_rows st !! sid = Some s →
  sale_rows (insert_sale r st) !! sid = Some s.
Proof.
  intros Hs. cbn [insert_sale sale_rows].
  rewrite lookup_insert_ne; [done|].
  pose proof (next_sid_above st sid (mk_is_Some _ _ Hs)). lia.
Qed.

Lemma insert_sales_keeps rows : ∀ st st' sid s,
  insert_sales rows st = Some st' →
  sale_rows st !! sid = Some s →
  sale_rows st' !! sid = Some s.
Proof.
  induction rows as [|r rows IH]; intros st st' sid s Hins Hs.
  { cbn in Hins. by simplify_eq. }
  cbn [insert_sales] in Hins. unfold insert_sale_checked in Hins.
  destruct (next_sid st <=? max_int64); [|done].
  apply (IH _ _ _ _ Hins). by apply insert_sale_keeps.
Qed.

(** X10. [init_db] loses nothing: whatever tables it finds and however it
    ends, every member, book and sale that was in the database is in it
    afterwards, unchanged. *)
Theorem init_db_keeps_existing_rows conn ins :
  let r := init_db conn ins in
  (∀ ms k v, member conn = Some ms → ms !! k = Some v →
     ∃ ms', member (r_db r) = Some ms' ∧ ms' !! k = Some v)
  ∧ (∀ bs k v, book conn = Some bs → bs !! k = Some v →
       ∃ bs', book (r_db r) = Some bs' ∧ bs' !! k = Some v)
  ∧ (∀ st sid s, sale conn = Some st → sale_rows st !! sid = Some s →
       ∃ st', sale (r_db r) = Some st' ∧ sale_rows st' !! sid = Some s).
Proof.
  intros r. subst r. unfold init_db.
  destruct (negb _).
  2:{ cbn [r_db]. repeat split; eauto. }
  assert ((∀ ms k v, member conn = Some ms → ms !! k = Some v →
             ∃ ms', member (create_tables conn) = Some ms'
                    ∧ ms' !! k = Some v)
          ∧ (∀ bs k v, book conn = Some bs → bs !! k = Some v →
               ∃ bs', book (create_tables conn) = Some bs'
                      ∧ bs' !! k = Some v)
          ∧ (∀ st sid s, sale conn = Some st →
               sale_rows st !! sid = Some s →
               ∃ st', sale (create_tables conn) = Some st'
                      ∧ sale_rows st' !! sid = Some s)) as Hcreated.
  { unfold create_tables. cbn [member book sale].
    repeat split; intros t k v -> Hk; eexists; (split; [done|]); done. }
  destruct (insert_rows seed_members _) as [ms1|] eqn:Hm1; [|done].
  destruct (insert_rows seed_books _) as [bs1|] eqn:Hb1; [|done].
  destruct (insert_sales seed_sales _) as [st1|] eqn:Hs1; [|done].
  cbn [r_db member book sale]. cbn [create_tables member book sale] in *.
  repeat split.
  - intros ms k v Hms Hk. eexists. split; [done|].
    apply (insert_rows_keeps _ _ _ _ _ Hm1). by rewrite Hms.
  - intros bs k v Hbs Hk. eexists. split; [done|].
    apply (insert_rows_keeps _ _ _ _ _ Hb1). by rewrite Hbs.
  - intros st sid s Hst Hs. eexists. split; [done|].
    apply (insert_sales_keeps _ _ _ _ _ Hs1). by rewrite Hst.
Qed.

(** X11. A database that lacks a table and already holds a member or a
    book under a seed key is never seeded: [init_db] creates the missing
    tables, fails on the duplicate key with nothing inserted, and from
    then on finds its three tables and does nothing. *)
Theorem init_db_conflict_is_final conn ins ins' :
  ¬ tables_present conn →
  (∃ ms k v, member conn = Some ms ∧ (k, v) ∈ seed_members
             ∧ is_Some (ms !! k))
  ∨ (∃ bs k v, book conn = Some bs ∧ (k, v) ∈ seed_books
               ∧ is_Some (bs !! k)) →
  let r := init_db conn ins in
  r = Result (Raised IntegrityError) (create_tables conn)
        [MsgCreatingTables] ins
  ∧ init_db (r_db r) ins' = Result Returned (r_db r) [MsgTablesExist] ins'.
Proof.
  intros Hmissing Hdup r.
  assert (r = Result (Raised IntegrityError) (create_tables conn)
                [MsgCreatingTables] ins) as ->.
  { subst r. unfold init_db.
    assert (table_exists conn "member" && table_exists conn "book"
            && table_exists conn "sale" = false) as ->.
    { apply not_true_is_false. intros Hall. apply Hmissing.
      by apply tables_exist_iff. }
    cbn [negb create_tables member book sale].
    destruct Hdup as [(ms & k & v & Hms & Hin & Hk)
                     |(bs & k & v & Hbs & Hin & Hk)].
    - rewrite Hms. cbn [default from_option id].
      by rewrite (insert_rows_conflict _ _ _ _ Hin Hk).
    - destruct (insert_rows seed_members _); [|done].
      rewrite Hbs. cbn [default from_option id].
      by rewrite (insert_rows_conflict _ _ _ _ Hin Hk). }
  split; [done|]. cbn [r_db].
  by eapply init_db_tables_exist.
Qed.

(** * Cancelling from the menu *)

Section CancelFromMenu.

Variable py_int : string → option Z.

Lemma update_cancelled conn ms st rest :
  member conn = Some ms → sale conn = Some st → list_sales ms st ≠ [] →
  update_sales_record py_int conn ("" :: rest)
  = Result (Raised ProgrammingError) conn
      (print_list (list_sales ms st) ++ [MsgUpdateCancelled]) rest.
Proof.
  intros Hms Hst Hne. unfold update_sales_record. rewrite Hst, Hms.
  destruct (list_sales ms st) as [|row0 sales']; [done|].
  cbn [update_select input]. by rewrite decide_True.
Qed.

Lemma delete_cancelled conn ms st rest :
  member conn = Some ms → sale conn = Some st → list_sales ms st ≠ [] →
  delete_sales_record py_int conn ("" :: rest)
  = Result (Raised ProgrammingError) conn
      (print_list (list_sales ms st) ++ [MsgDeleteCancelled]) rest.
Proof.
  intros Hms Hst Hne. unfold delete_sales_record. rewrite Hst, Hms.
  destruct (list_sales ms st) as [|row0 sales']; [done|].
  cbn [delete_select input]. by rewrite decide_True.
Qed.

(** X13. Cancelling ends the program.  Choosing update (3) or delete (4)
    in the menu and answering the selection prompt with the empty line
    does not lead back to the menu: [main] ends there by the exception of
    the closed connection, the database untouched and the rest of the
    input unread. *)
Theorem cancel_ends_the_session conn ms bs st rest :
  member conn = Some ms → book conn = Some bs → sale conn = Some st →
  list_sales ms st ≠ [] →
  main py_int conn ("3" :: "" :: rest)
  = Some (Session (Raised ProgrammingError) conn
            ([Printed MsgTablesExist; Menu]
             ++ (Printed <$> print_list (list_sales ms st)
                               ++ [MsgUpdateCancelled])) rest)
  ∧ main py_int conn ("4" :: "" :: rest)
    = Some (Session (Raised ProgrammingError) conn
              ([Printed MsgTablesExist; Menu]
               ++ (Printed <$> print_list (list_sales ms st)
                                 ++ [MsgDeleteCancelled])) rest).
Proof.
  intros Hms Hbs Hst Hne. unfold main.
  rewrite !(init_db_tables_exist conn ms bs st _ Hms Hbs Hst).
  split; unfold call at 1; cbn [r_outcome r_db r_out r_in length main_loop].
  - rewrite decide_False by done. rewrite decide_False by done.
    rewrite decide_True by done.
    by rewrite (update_cancelled conn ms st rest Hms Hst Hne).
  - rewrite decide_False by done. rewrite decide_False by done.
    rewrite decide_False by done. rewrite decide_True by done.
    by rewrite (delete_cancelled conn ms st rest Hms Hst Hne).
Qed.

End CancelFromMenu.

(** * The further properties at work on the seed data *)

(** [seeded] with the book B003 removed in storage: sale 3 names a book
    that is not there. *)
Definition orphaned : db :=
  Db (Some seeded_members) (Some (delete "B003" seeded_books))
     (Some seeded_sales).

(** A file in which somebody made the member table, with Alice in it,
    and nothing else. *)
Definition half_made : db :=
  Db (Some {[ "M001" := MemberRow "Alice" "0912-345678" None ]}) None None.

(** X1 at work: from an empty file, a sale, the report, the deletion of
    that sale, and the exit. *)
Lemma session_on_fresh_file :
  ∃ s, main decimal no_tables
         ["1"; "2024-02-01"; "M001"; "B001"; "5"; "50"; "2"; "4"; "5"; "5"]
       = Some s
       ∧ ledger_ok (s_db s)
       ∧ (ends_as_expected (s_outcome s)
          ∨ (s_outcome s = Raised OperationalError
             ∧ sids_exhausted (s_db s))).
Proof.
  apply (main_keeps_ledger_sound decimal no_tables
           ["1"; "2024-02-01"; "M001"; "B001"; "5"; "50"; "2"; "4"; "5"; "5"]).
  left. reflexivity.
Defined.

(** X2 at work on [seeded]. *)
Lemma engine_on_seeded :
  let ins := ["2"; "10"] in
  ledger_ok (r_db (sales_record decimal seeded ins))
  ∧ ledger_ok (r_db (show_sales_report seeded ins))
  ∧ ledger_ok (r_db (update_sales_record decimal seeded ins))
  ∧ ledger_ok (r_db (delete_sales_record decimal seeded ins)).
Proof.
  apply (engine_keeps_ledger_sound decimal seeded ["2"; "10"] seeded_ledger).
Defined.

(** X3 at work: the block of sale 1 in the report of [seeded]. *)
Lemma first_block_of_report : 1100 = 1100 ∧ 1100 = 600 * 2 - 100.
Proof.
  apply (report_subtotal_is_total seeded [] 1 "2024-01-15" "Alice"
           "Python Programming" 600 2 100 1100 1100 seeded_totals).
  vm_compute. apply elem_of_cons. right. apply elem_of_cons. by left.
Defined.

(** X6 at work: 5 copies of B001 sold on [seeded] and the sale deleted
    again: the four seed sales are back, the counter is at 5 and B001 has
    45 copies. *)
Lemma void_on_seeded :
  let sold := sales_record decimal seeded
                ["2024-02-01"; "M001"; "B001"; "5"; "50"] in
  let r := delete_sales_record decimal (r_db sold) ("5" :: []) in
  r_outcome r = Returned
  ∧ last (r_out r) = Some (MsgDeleted 5)
  ∧ member (r_db r) = Some seeded_members
  ∧ sale (r_db r) = Some (SaleTable (sale_rows seeded_sales) 5)
  ∧ book (r_db r)
    = Some (<["B001" := BookRow "Python Programming" 600 45]> seeded_books).
Proof.
  apply (void_does_not_restock decimal seeded seeded_members seeded_books
           seeded_sales (BookRow "Python Programming" 600 50)
           (MemberRow "Alice" "0912-345678" (Some "alice@example.com"))
           "2024-02-01" "M001" "B001" "5" "50" 5 50 "5" []);
    try reflexivity; try done; try (by vm_compute); cbn; lia.
Defined.

(** X7 at work: sale 2 of [seeded] gets discount 10. *)
Lemma menu_after_update :
  let r := update_sales_record decimal seeded ["2"; "10"] in
  ∃ st', sale (r_db r) = Some st'
         ∧ member (r_db r) = Some seeded_members
         ∧ list_sales seeded_members st'
           = list_sales seeded_members seeded_sales
         ∧ (∀ sid, is_Some (sale_rows st' !! sid)
                   ↔ is_Some (sale_rows seeded_sales !! sid)).
Proof.
  apply (update_keeps_the_menu decimal seeded seeded_members seeded_sales
           ["2"; "10"]); reflexivity.
Defined.

(** X8 at work: sale 2 of [seeded] gets discount 10 and then 20. *)
Lemma two_updates_of_second_sale :
  let first := update_sales_record decimal seeded ["2"; "10"] in
  let twice := update_sales_record decimal (r_db first) ("2" :: "20" :: []) in
  let once := update_sales_record decimal seeded ("2" :: "20" :: []) in
  r_outcome first = Returned ∧ r_outcome twice = Returned
  ∧ r_db twice = r_db once.
Proof.
  apply (later_discount_wins decimal seeded seeded_members seeded_books
           seeded_sales "2" 2 (ListRow 2 "2024-01-16" "Bob")
           (SaleRow "2024-01-16" "M002" "B002" 1 50 750)
           (BookRow "Data Science Basics" 800 30) "10" 10 "20" 20 []);
    try reflexivity; try done.
Defined.

(** X9 at work: sale 3 of [orphaned] cannot be updated. *)
Lemma update_of_orphaned_sale :
  update_sales_record decimal orphaned ("3" :: ["10"])
  = Result (Raised ProgrammingError) orphaned
      (print_list (list_sales seeded_members seeded_sales)
       ++ [ErrSaleBookMissing]) ["10"].
Proof.
  apply (update_without_book_writes_nothing decimal orphaned seeded_members
           (delete "B003" seeded_books) seeded_sales "3" 3
           (ListRow 3 "2024-01-17" "Alice")
           (SaleRow "2024-01-17" "M001" "B003" 3 200 3400) ["10"]);
    try reflexivity; try done.
Defined.

(** On [half_made], [init_db] fails on Alice's key; her row, which differs
    from the seed row, is still there, and the two missing tables are
    there and empty. *)
Example alice_survives :
  let conn := r_db (init_db half_made []) in
  (member conn ≫= λ ms, ms !! "M001")
  = Some (MemberRow "Alice" "0912-345678" None)
  ∧ size <$> member conn = Some 1%nat
  ∧ size <$> book conn = Some 0%nat
  ∧ (size ∘ sale_rows) <$> sale conn = Some 0%nat.
Proof. by vm_compute. Qed.

(** X11 at work: [half_made] is never seeded. *)
Lemma half_made_stays_unseeded :
  let r := init_db half_made [] in
  r = Result (Raised IntegrityError) (create_tables half_made)
        [MsgCreatingTables] []
  ∧ init_db (r_db r) [] = Result Returned (r_db r) [MsgTablesExist] [].
Proof.
  apply (init_db_conflict_is_final half_made [] []).
  - intros (_ & [bs Hbs] & _). discriminate Hbs.
  - left.
    exists {[ "M001" := MemberRow "Alice" "0912-345678" None ]}, "M001",
      (MemberRow "Alice" "0912-345678" (Some "alice@example.com")).
    split; [reflexivity|]. split; [by left|by eexists].
Defined.

(** X12 at work: typing 3 at the delete prompt on [seeded]. *)
Lemma third_entry_is_third_sale :
  let r := delete_sales_record decimal seeded ("3" :: []) in
  let menu := print_list (list_sales seeded_members seeded_sales) in
  r_out r = menu ++ [MsgDeleted 3]
  ∧ sale (r_db r) = Some (delete_sale 3 seeded_sales)
  ∧ menu !! 3%nat = Some (ListItem 3 3 "Alice" "2024-01-17")
  ∧ (∀ i sid mname date,
       ListItem i sid mname date ∈ menu → (i = 3%nat ↔ sid = 3)).
Proof.
  apply (delete_removes_the_numbered_entry decimal seeded seeded_members
           seeded_sales "3" 3 (ListRow 3 "2024-01-17" "Alice") []);
    try reflexivity; try done.
Defined.

(** X13 at work on [seeded]: the lines after the empty one are not
    read. *)
Lemma cancel_on_seeded_ends_main :
  main decimal seeded ("3" :: "" :: ["2"; "5"])
  = Some (Session (Raised ProgrammingError) seeded
            ([Printed MsgTablesExist; Menu]
             ++ (Printed <$> print_list
                               (list_sales seeded_members seeded_sales)
                               ++ [MsgUpdateCancelled])) ["2"; "5"])
  ∧ main decimal seeded ("4" :: "" :: ["2"; "5"])
    = Some (Session (Raised ProgrammingError) seeded
              ([Printed MsgTablesExist; Menu]
               ++ (Printed <$> print_list
                                 (list_sales seeded_members seeded_sales)
                                 ++ [MsgDeleteCancelled])) ["2"; "5"]).
Proof.
  apply (cancel_ends_the_session decimal seeded seeded_members seeded_books
           seeded_sales ["2"; "5"]); try reflexivity.
  by vm_compute.
Defined.

(** A whole session, run: the sale of 5 copies of B001, the report, the
    deletion of the new sale, the exit.  Four sales are left, B001 has 45
    copies, and the line after the exit is not read. *)
Example session_run :
  (λ s, (s_outcome s, s_in s,
         (size ∘ sale_rows) <$> sale (s_db s),
         book (s_db s) ≫= λ bs, bstock <$> bs !! "B001"))
    <$> main decimal no_tables
          ["1"; "2024-02-01"; "M001"; "B001"; "5"; "50"; "2"; "4"; "5"; "5";
           "unread"]
  = Some (Returned, ["unread"], Some 4%nat, Some 45).
Proof. by vm_compute. Qed.

(** ** At the ends of the 64 bits *)

(** The largest discount an INTEGER column holds is taken; the total is
    600 - (2^63 - 1). *)
Example largest_discount :
  let r := sales_record decimal seeded
             ["2024-02-01"; "M001"; "B001"; "1"; "9223372036854775807"] in
  r_outcome r = Returned
  ∧ r_out r = [MsgSaleAdded (-9223372036854775207)].
Proof. by vm_compute. Qed.

(** One more is refused by the INSERT, which ends the session opened from
    the menu; the exit typed after it is not read. *)
Example session_ends_by_overflow :
  main decimal seeded
    ["1"; "2024-02-01"; "M001"; "B001"; "1"; "9223372036854775808"; "5"]
  = Some (Session (Raised OverflowError) seeded
            [Printed MsgTablesExist; Menu] ["5"]).
Proof. by vm_compute. Qed.

(** No sale can be recorded any more, and nothing is written. *)
Example no_sid_left :
  sales_record decimal last_sid_used
    ["2024-02-01"; "M001"; "B001"; "5"; "50"]
  = Result (Raised OperationalError) last_sid_used [] [].
Proof. by vm_compute. Qed.

(** X17 at work: one copy of B001 on [seeded] with a discount of 2^63. *)
Lemma huge_discount_on_seeded :
  sales_record decimal seeded
    ([] ++ ["2024-02-01"; "M001"; "B001"; "1"; "9223372036854775808"]
     ++ ["5"])
  = Result (Raised OverflowError) seeded [] ["5"].
Proof.
  apply (sales_record_overflow_writes_nothing decimal seeded seeded_members
           seeded_books seeded_sales (BookRow "Python Programming" 600 50)
           [] [] "2024-02-01" "M001" "B001" "1" "9223372036854775808"
           1 (2 ^ 63) ["5"]);
    try reflexivity; try (by vm_compute); try apply attempts_nil.
  by eexists.
Defined.

(** X18 at work: 5 copies of B001 on [last_sid_used]. *)
Lemma order_without_sid :
  sales_record decimal last_sid_used
    ([] ++ ["2024-02-01"; "M001"; "B001"; "5"; "50"] ++ ["5"])
  = Result (Raised OperationalError) last_sid_used [] ["5"].
Proof.
  apply (sales_record_without_sid_writes_nothing decimal last_sid_used
           seeded_members seeded_books
           (SaleTable (sale_rows seeded_sales) max_int64)
           (BookRow "Python Programming" 600 50)
           [] [] "2024-02-01" "M001" "B001" "5" "50" 5 50 ["5"]);
    try reflexivity; try (by vm_compute); try apply attempts_nil.
  by eexists.
Defined.

(** X19 at work: sale 1 of [seeded] is offered a discount of 2^63. *)
Lemma huge_discount_on_first_sale :
  let r := update_sales_record decimal seeded
             (["0"] ++ "1" :: ["-5"] ++ "9223372036854775808" :: ["5"]) in
  r_outcome r = Raised OverflowError ∧ r_db r = seeded ∧ r_in r = ["5"].
Proof.
  apply (update_overflow_writes_nothing decimal seeded seeded_members
           seeded_books seeded_sales ["0"] "1" 1
           (ListRow 1 "2024-01-15" "Alice")
           (SaleRow "2024-01-15" "M001" "B001" 2 100 1100)
           (BookRow "Python Programming" 600 50) ["-5"]
           "9223372036854775808" (2 ^ 63) ["5"]);
    try reflexivity; try (by vm_compute).
  - apply Forall_cons. split; [apply zero_is_no_position|apply Forall_nil_2].
  - apply Forall_cons.
    split; [apply minus_five_is_no_discount|apply Forall_nil_2].
Defined.

(** [init_db] on a file that has only such a sale table: the member and
    book tables are made, the seed sales are not inserted, and the seed
    members and books are rolled back with them. *)
Example init_db_without_sid :
  let conn := Db None None (Some (SaleTable ∅ max_int64)) in
  init_db conn []
  = Result (Raised OperationalError) (create_tables conn)
      [MsgCreatingTables] []
  ∧ create_tables conn = Db (Some ∅) (Some ∅) (Some (SaleTable ∅ max_int64)).
Proof. by vm_compute. Qed.

(** * What a session can do to members and books *)

(** From [conn] to [conn'] the member table is the same and the book
    table has the same books under the same titles and prices, none with
    more stock than before. *)
Definition only_sold (conn conn' : db) : Prop :=
  member conn' = member conn
  ∧ ∀ bs, book conn = Some bs →
      ∃ bs', book conn' = Some bs'
             ∧ ∀ bid,
                 match bs !! bid, bs' !! bid with
                 | Some b, Some b' =>
                     btitle b' = btitle b ∧ bprice b' = bprice b
                     ∧ bstock b' ≤ bstock b
                 | None, None => True
                 | _, _ => False
                 end.

Lemma only_sold_refl conn : only_sold conn conn.
Proof.
  split; [done|]. intros bs Hbs. exists bs. split; [done|].
  intros bid. destruct (bs !! bid); [by repeat split|done].
Qed.

Lemma only_sold_same_tables conn conn' :
  member conn' = member conn → book conn' = book conn →
  only_sold conn conn'.
Proof.
  intros Hm Hb. split; [done|]. intros bs Hbs. exists bs.
  split; [congruence|]. intros bid.
  destruct (bs !! bid); [by repeat split|done].
Qed.

Lemma only_sold_trans conn1 conn2 conn3 :
  only_sold conn1 conn2 → only_sold conn2 conn3 → only_sold conn1 conn3.
Proof.
  intros [Hm12 Hb12] [Hm23 Hb23]. split; [congruence|].
  intros bs1 Hbs1.
  destruct (Hb12 bs1 Hbs1) as (bs2 & Hbs2 & H12).
  destruct (Hb23 bs2 Hbs2) as (bs3 & Hbs3 & H23).
  exists bs3. split; [done|]. intros bid.
  specialize (H12 bid). specialize (H23 bid).
  destruct (bs1 !! bid) as [b1|], (bs2 !! bid) as [b2|],
    (bs3 !! bid) as [b3|]; try done.
  destruct H12 as (? & ? & ?), H23 as (? & ? & ?).
  repeat split; [congruence..|lia].
Qed.

Section Relations.

Variable py_int : string → option Z.

Lemma sales_record_only_sold conn ins :
  only_sold conn (r_db (sales_record py_int conn ins)).
Proof.
  unfold sales_record.
  destruct (sales_record_loop_cases py_int conn (length ins) ins []
              (le_n _))
    as [[_ ->]
       |(ms & bs & st & d & member_id & book_id & b & qty & discount & Hms
         & Hbs & _ & _ & Hb & Hpos & _ & _ & _ & ->)];
    [apply only_sold_refl|].
  split; [by rewrite Hms|]. intros bs0 Hbs0.
  rewrite Hbs in Hbs0. injection Hbs0 as <-.
  eexists. split; [done|]. intros bid.
  destruct (decide (bid = book_id)) as [->|Hne].
  - rewrite (decrement_stock_lookup _ _ _ _ Hb), Hb. cbn.
    repeat split; lia.
  - rewrite decrement_stock_other by done.
    destruct (bs !! bid); [by repeat split|done].
Qed.

Lemma update_sales_record_only_sold conn ins :
  only_sold conn (r_db (update_sales_record py_int conn ins)).
Proof.
  apply only_sold_same_tables; [|apply update_sales_record_book].
  destruct (update_sales_record_cases py_int conn ins)
    as [[-> _]
       |(ms & bs & st & choice & n & row & s & b & nd & Hms & _ & _ & _ & _
         & _ & _ & _ & _ & _ & _ & ->)]; [done|].
  by rewrite Hms.
Qed.

Lemma delete_sales_record_only_sold conn ins :
  only_sold conn (r_db (delete_sales_record py_int conn ins)).
Proof.
  apply only_sold_same_tables; [|apply delete_sales_record_book].
  destruct (delete_sales_record_cases py_int conn ins)
    as [->|(st & gone & _ & ->)]; done.
Qed.

(** A relation between databases that every function of the menu
    respects, and that is reflexive and transitive, holds between the
    start and the end of the menu loop. *)
Lemma main_loop_related (R : db → db → Prop) :
  (∀ conn, R conn conn) →
  (∀ a b c, R a b → R b c → R a c) →
  (∀ conn ins, R conn (r_db (sales_record py_int conn ins))) →
  (∀ conn ins, R conn (r_db (show_sales_report conn ins))) →
  (∀ conn ins, R conn (r_db (update_sales_record py_int conn ins))) →
  (∀ conn ins, R conn (r_db (delete_sales_record py_int conn ins))) →
  ∀ fuel conn out ins s,
    main_loop py_int fuel conn out ins = Some s → R conn (s_db s).
Proof.
  intros Hrefl Htrans H1 H2 H3 H4.
  induction fuel as [|fuel IH]; intros conn out ins s Hs; [done|].
  cbn [main_loop] in Hs.
  destruct ins as [|choice ins]; [by simplify_eq|].
  assert (∀ r, R conn (r_db r) →
            call r (out ++ select_menu) (main_loop py_int fuel) = Some s →
            R conn (s_db s)) as Hcall.
  { intros r Hr. unfold call.
    destruct (r_outcome r); intros Hs'.
    - eapply Htrans; [exact Hr|]. by eapply IH.
    - by simplify_eq. }
  destruct (decide (choice = "1")); [exact (Hcall _ (H1 conn ins) Hs)|].
  destruct (decide (choice = "2")); [exact (Hcall _ (H2 conn ins) Hs)|].
  destruct (decide (choice = "3")); [exact (Hcall _ (H3 conn ins) Hs)|].
  destruct (decide (choice = "4")); [exact (Hcall _ (H4 conn ins) Hs)|].
  destruct (decide (choice = "5" ∨ choice = "")); [by simplify_eq|].
  by eapply IH.
Qed.

(** X15. Nothing in a session restocks or reprices a book, touches a
    member, or gives a [sid] out again: started on a database that has
    its three tables, [main] leaves the member table as it was, every
    book under its title and price with a stock no higher than before and
    no book added or removed, and every [sid] once handed out and vacant
    still vacant. *)
Theorem session_only_sells conn ins s :
  tables_present conn →
  main py_int conn ins = Some s →
  only_sold conn (s_db s) ∧ never_refilled conn (s_db s).
Proof.
  intros ([ms Hms] & [bs Hbs] & [st Hst]). unfold main.
  rewrite (init_db_tables_exist conn ms bs st ins Hms Hbs Hst).
  unfold call. cbn [r_outcome r_db r_out r_in]. intros Hs. split.
  - apply (main_loop_related only_sold only_sold_refl only_sold_trans
             sales_record_only_sold
             (λ c i, only_sold_same_tables c _
                       (f_equal member (show_sales_report_db c i))
                       (f_equal book (show_sales_report_db c i)))
             update_sales_record_only_sold delete_sales_record_only_sold
             _ _ _ _ _ Hs).
  - apply (main_loop_related never_refilled never_refilled_refl
             never_refilled_trans
             (λ c i, proj1 (functions_never_refill py_int c i))
             (λ c i, proj1 (proj2 (functions_never_refill py_int c i)))
             (λ c i, proj1 (proj2 (proj2
                              (functions_never_refill py_int c i))))
             (λ c i, proj2 (proj2 (proj2
                              (functions_never_refill py_int c i))))
             _ _ _ _ _ Hs).
Qed.

End Relations.

(** * The report is complete *)

Lemma length_omap_total {A B} (f : A → option B) (l : list A) :
  (∀ x, x ∈ l → is_Some (f x)) → length (omap f l) = length l.
Proof.
  induction l as [|x l IH]; intros Hall; [done|].
  cbn [omap list_omap].
  destruct (Hall x) as [y ->]; [by left|].
  cbn [length]. f_equal. apply IH. intros x' Hx'. apply Hall. by right.
Qed.

(** X16. On a ledger whose sales all name an existing member and book,
    the report and the menu of update and delete leave no sale out: each
    has as many rows as the sale table has sales, and every [sid] of the
    table is in both. *)
Theorem report_lists_every_sale conn ms bs st :
  member conn = Some ms → book conn = Some bs → sale conn = Some st →
  references_resolve conn →
  length (report_sales ms bs st) = size (sale_rows st)
  ∧ length (list_sales ms st) = size (sale_rows st)
  ∧ (∀ sid, is_Some (sale_rows st !! sid) →
       sid ∈ p_sid <$> report_sales ms bs st
       ∧ sid ∈ l_sid <$> list_sales ms st).
Proof.
  intros Hms Hbs Hst Hrefs.
  assert (∀ sid s, sale_rows st !! sid = Some s →
            ∃ m b, ms !! smid s = Some m ∧ bs !! sbid s = Some b) as Hres.
  { intros sid s Hs.
    destruct (Hrefs ms bs st sid s Hms Hbs Hst Hs) as [[m Hm] [b Hb]].
    by exists m, b. }
  split; [|split].
  - unfold report_sales. rewrite order_by_length, <- length_map_to_list.
    apply length_omap_total. intros [sid s] Hin.
    apply elem_of_map_to_list in Hin.
    destruct (Hres sid s Hin) as (m & b & Hm & Hb).
    unfold join_member_book. cbn [fst snd]. rewrite Hm. cbn. rewrite Hb.
    by eexists.
  - unfold list_sales. rewrite order_by_length, <- length_map_to_list.
    apply length_omap_total. intros [sid s] Hin.
    apply elem_of_map_to_list in Hin.
    destruct (Hres sid s Hin) as (m & b & Hm & Hb).
    unfold join_member. cbn [fst snd]. rewrite Hm. by eexists.
  - intros sid [s Hs]. destruct (Hres sid s Hs) as (m & b & Hm & Hb).
    split.
    + apply list_elem_of_fmap.
      exists (ReportRow sid (sdate s) (mname m) (btitle b) (bprice b)
                (sqty s) (sdiscount s) (stotal s)).
      split; [done|]. apply elem_of_report_sales. by exists s, m, b.
    + apply list_elem_of_fmap. exists (ListRow sid (sdate s) (mname m)).
      split; [done|]. apply elem_of_list_sales. by exists s, m.
Qed.

(** X16 at work on [seeded]. *)
Lemma report_of_seeded_is_complete :
  length (report_sales seeded_members seeded_books seeded_sales)
  = size (sale_rows seeded_sales)
  ∧ length (list_sales seeded_members seeded_sales)
    = size (sale_rows seeded_sales)
  ∧ (∀ sid, is_Some (sale_rows seeded_sales !! sid) →
       sid ∈ p_sid <$> report_sales seeded_members seeded_books seeded_sales
       ∧ sid ∈ l_sid <$> list_sales seeded_members seeded_sales).
Proof.
  apply (report_lists_every_sale seeded seeded_members seeded_books
           seeded_sales); try reflexivity.
  apply seeded_references.
Defined.

(** X15 at work: a session on [seeded] that sells 5 copies of B001 and
    deletes sale 2. *)
Lemma selling_session_on_seeded :
  ∃ s, main decimal seeded
         ["1"; "2024-02-01"; "M001"; "B001"; "5"; "50"; "4"; "2"; "5"]
       = Some s
       ∧ only_sold seeded (s_db s) ∧ never_refilled seeded (s_db s).
Proof.
  destruct (main decimal seeded
              ["1"; "2024-02-01"; "M001"; "B001"; "5"; "50"; "4"; "2"; "5"])
    as [s|] eqn:Hs; [|by vm_compute in Hs].
  exists s. split; [done|].
  apply (session_only_sells decimal seeded
           ["1"; "2024-02-01"; "M001"; "B001"; "5"; "50"; "4"; "2"; "5"] s);
    [|exact Hs].
  rewrite seeded_tables. repeat split; by eexists.
Defined.
